(** * Voice AI Performance Optimizer: the test / judge / optimize loop

    A shallow embedding of the backend services of the repository
    (LLMClient, HighLevelClient, OptimizerService and the Mongoose
    schemas they persist through), with the properties claimed for them.

    Conventions of the embedding.
    - A JavaScript [number] is a value of [number] below: a rational, one
      of the two infinities, or NaN.  Arithmetic on the finite values is
      exact (the rounding of IEEE doubles and the sign of zero are not
      represented); NaN and the infinities follow the language rules.
    - Asynchronous code is sequential here: every [await] is a call in a
      state-and-exception monad whose state survives a [throw].
    - External collaborators (the generation service, the target agent,
      the id generator) are variables of the enclosing section. *)

From Stdlib Require Import ZArith QArith Qabs Lqa Lia List String Ascii Bool.
From Stdlib Require Import DecimalString DecimalNat.
Import ListNotations.

Set Implicit Arguments.
Set Warnings "-register-all".
Close Scope Q_scope.
Open Scope string_scope.

(** ** JavaScript numbers *)

Module JS.

Inductive number : Type :=
| NaN
| NegInf
| Fin (q : Q)
| PosInf.

Definition Qlt_bool (p q : Q) : bool := negb (Qle_bool q p).

(** ToBoolean on a number: 0 and NaN are falsy. *)
Definition truthy (n : number) : bool :=
  match n with
  | NaN => false
  | Fin q => negb (Qeq_bool q 0)
  | NegInf | PosInf => true
  end.

(** [x || d] where [x] may be [undefined]. *)
Definition or_default (x : option number) (d : number) : number :=
  match x with
  | Some n => if truthy n then n else d
  | None => d
  end.

(** [a < b], [a <= b], [a > b], [a >= b]: false as soon as one side is NaN. *)
Definition lt (a b : number) : bool :=
  match a, b with
  | NaN, _ | _, NaN => false
  | _, NegInf => false
  | NegInf, _ => true
  | PosInf, _ => false
  | Fin _, PosInf => true
  | Fin p, Fin q => Qlt_bool p q
  end.

Definition le (a b : number) : bool :=
  match a, b with
  | NaN, _ | _, NaN => false
  | NegInf, _ => true
  | _, PosInf => true
  | _, NegInf => false
  | PosInf, _ => false
  | Fin p, Fin q => Qle_bool p q
  end.

Definition gt (a b : number) : bool := lt b a.
Definition ge (a b : number) : bool := le b a.

(** [Math.min(a, b)] and [Math.max(a, b)]: NaN is contagious. *)
Definition Math_min (a b : number) : number :=
  match a, b with
  | NaN, _ | _, NaN => NaN
  | _, _ => if le a b then a else b
  end.

Definition Math_max (a b : number) : number :=
  match a, b with
  | NaN, _ | _, NaN => NaN
  | _, _ => if le a b then b else a
  end.

Definition Math_abs (a : number) : number :=
  match a with
  | NaN => NaN
  | NegInf | PosInf => PosInf
  | Fin q => Fin (Qabs q)
  end.

Definition add (a b : number) : number :=
  match a, b with
  | NaN, _ | _, NaN => NaN
  | PosInf, NegInf | NegInf, PosInf => NaN
  | PosInf, _ | _, PosInf => PosInf
  | NegInf, _ | _, NegInf => NegInf
  | Fin p, Fin q => Fin (p + q)
  end.

Definition neg (a : number) : number :=
  match a with
  | NaN => NaN
  | NegInf => PosInf
  | PosInf => NegInf
  | Fin q => Fin (- q)
  end.

Definition sub (a b : number) : number := add a (neg b).

(** Sign of a number that is not NaN, zero counted as positive. *)
Definition nonneg (a : number) : bool :=
  match a with
  | NaN => true
  | NegInf => false
  | PosInf => true
  | Fin q => Qle_bool 0 q
  end.

Definition signed_inf (positive : bool) : number :=
  if positive then PosInf else NegInf.

Definition mul (a b : number) : number :=
  match a, b with
  | NaN, _ | _, NaN => NaN
  | Fin p, Fin q => Fin (p * q)
  | Fin p, i | i, Fin p =>
      if Qeq_bool p 0 then NaN else signed_inf (Bool.eqb (nonneg i) (nonneg (Fin p)))
  | i, j => signed_inf (Bool.eqb (nonneg i) (nonneg j))
  end.

(** [a / b].  A zero divisor is the positive zero (the divisors of the
    program are array lengths and literals): 0/0 is NaN and a non-zero
    number over 0 is an infinity of its sign. *)
Definition div (a b : number) : number :=
  match a, b with
  | NaN, _ | _, NaN => NaN
  | Fin p, Fin q =>
      if Qeq_bool q 0
      then (if Qeq_bool p 0 then NaN else signed_inf (Qle_bool 0 p))
      else Fin (p / q)
  | Fin _, _ => Fin 0
  | i, Fin q => signed_inf (Bool.eqb (nonneg i) (Qle_bool 0 q))
  | _, _ => NaN
  end.

Definition of_nat (n : nat) : number := Fin (inject_Z (Z.of_nat n)).
Definition of_Z (z : Z) : number := Fin (inject_Z z).

End JS.

(** ** Untyped values parsed from a generator reply *)

Module Json.

(** A value produced by [JSON.parse].  The fields of an object are listed
    in the order [Object.keys] enumerates them; a property that is absent
    ([undefined]) is [None] on lookup. *)
Inductive value : Type :=
| VNull
| VBool (b : bool)
| VNum (n : JS.number)
| VStr (s : string)
| VArr (items : list value)
| VObj (fields : list (string * value)).

Fixpoint assoc (key : string) (fields : list (string * value)) : option value :=
  match fields with
  | [] => None
  | (k, v) :: rest => if String.eqb k key then Some v else assoc key rest
  end.

(** [v.key] for the property names the services read (none of them is a
    property of a primitive or of an array). *)
Definition get (v : value) (key : string) : option value :=
  match v with
  | VObj fields => assoc key fields
  | _ => None
  end.

(** ToBoolean. *)
Definition truthy (v : value) : bool :=
  match v with
  | VNull => false
  | VBool b => b
  | VNum n => JS.truthy n
  | VStr s => negb (String.eqb s "")
  | VArr _ | VObj _ => true
  end.

Definition truthy_opt (o : option value) : bool :=
  match o with
  | Some v => truthy v
  | None => false
  end.

(** [a || b] on possibly undefined operands. *)
Definition or (a b : option value) : option value :=
  if truthy_opt a then a else b.

(** [a || d] when [d] is a value. *)
Definition or_value (a : option value) (d : value) : value :=
  match a with
  | Some v => if truthy v then v else d
  | None => d
  end.

Fixpoint join (sep : string) (parts : list string) : string :=
  match parts with
  | [] => ""
  | [x] => x
  | x :: rest => x ++ sep ++ join sep rest
  end.

Section ToString.

(** [Number.prototype.toString], which the model does not compute. *)
Variable Number_toString : JS.number -> string.

(** [String(v)]: an array is the comma-joined text of its items (null
    items are empty), an object is the fixed tag. *)
Fixpoint String_ (v : value) : string :=
  match v with
  | VNull => "null"
  | VBool true => "true"
  | VBool false => "false"
  | VNum n => Number_toString n
  | VStr s => s
  | VArr items =>
      join "," (map (fun item =>
                       match item with
                       | VNull => ""
                       | _ => String_ item
                       end) items)
  | VObj _ => "[object Object]"
  end.

Definition String_opt (o : option value) : string :=
  match o with
  | Some v => String_ v
  | None => "undefined"
  end.

End ToString.

(** [Object.keys(v)] paired with the values, for a value that is not a
    string: the indices of an array, the own keys of an object, nothing
    for the other primitives. *)
Fixpoint index_keys (i : nat) (items : list value) : list (string * value) :=
  match items with
  | [] => []
  | x :: rest =>
      (NilZero.string_of_uint (Nat.to_uint i), x) :: index_keys (S i) rest
  end.

Definition entries (v : value) : list (string * value) :=
  match v with
  | VObj fields => fields
  | VArr items => index_keys 0 items
  | _ => []
  end.

End Json.

(** ** Strings *)

Definition lower_ascii (c : ascii) : ascii :=
  let n := nat_of_ascii c in
  if andb (Nat.leb 65 n) (Nat.leb n 90) then ascii_of_nat (n + 32) else c.

(** [s.toLowerCase()] on the ASCII letters; other bytes are kept. *)
Fixpoint toLowerCase (s : string) : string :=
  match s with
  | EmptyString => EmptyString
  | String c rest => String (lower_ascii c) (toLowerCase rest)
  end.

Definition is_space (c : ascii) : bool :=
  let n := nat_of_ascii c in
  orb (Nat.eqb n 32) (andb (Nat.leb 9 n) (Nat.leb n 13)).

Fixpoint skip_spaces (s : string) : string :=
  match s with
  | String c rest => if is_space c then skip_spaces rest else s
  | EmptyString => EmptyString
  end.

Definition digit_of (c : ascii) : option Z :=
  let n := nat_of_ascii c in
  if andb (Nat.leb 48 n) (Nat.leb n 57) then Some (Z.of_nat (n - 48)) else None.

(** The longest prefix of decimal digits, read as a number: [acc] is the
    value so far, [None] until a digit was seen. *)
Fixpoint read_digits (s : string) (acc : option Z) : option Z :=
  match s with
  | String c rest =>
      match digit_of c with
      | Some d =>
          read_digits rest
            (Some (match acc with Some a => 10 * a + d | None => d end)%Z)
      | None => acc
      end
  | EmptyString => acc
  end.

(** [parseInt(s, 10)]: leading white space, an optional sign, then the
    longest run of digits; NaN when there is none. *)
Definition parseInt (s : string) : JS.number :=
  let t := skip_spaces s in
  let '(negative, body) :=
    match t with
    | String "-" rest => (true, rest)
    | String "+" rest => (false, rest)
    | _ => (false, t)
    end in
  match read_digits body None with
  | Some n => JS.of_Z (if negative then - n else n)
  | None => JS.NaN
  end.

(** *** The conversion of a text to a number

    [Number(s)], which [Math.min] and [Math.max] apply to an argument that
    is a text: white space around, then nothing (0), or a binary, octal or
    hexadecimal integer, or a decimal literal with an optional sign,
    fraction and exponent, or [Infinity] with an optional sign; any other
    text is not a number.  White space is the ASCII white space, and the
    value is the exact rational. *)

(** Decimal digits: their value on top of [acc], how many there were, and
    the rest of the text. *)
Fixpoint read_decimal (s : string) (acc : Z) (count : nat) : Z * nat * string :=
  match s with
  | String c rest =>
      match digit_of c with
      | Some d => read_decimal rest (10 * acc + d)%Z (S count)
      | None => (acc, count, s)
      end
  | EmptyString => (acc, count, s)
  end.

(** The value of a digit in a radix of at most 16. *)
Definition radix_digit (radix : Z) (c : ascii) : option Z :=
  let n := nat_of_ascii c in
  let v :=
    if andb (Nat.leb 48 n) (Nat.leb n 57) then Some (Z.of_nat (n - 48))
    else if andb (Nat.leb 97 n) (Nat.leb n 102) then Some (Z.of_nat (n - 87))
    else if andb (Nat.leb 65 n) (Nat.leb n 70) then Some (Z.of_nat (n - 55))
    else None in
  match v with
  | Some d => if (d <? radix)%Z then Some d else None
  | None => None
  end.

Fixpoint read_radix (radix : Z) (s : string) (acc : Z) (count : nat)
  : Z * nat * string :=
  match s with
  | String c rest =>
      match radix_digit radix c with
      | Some d => read_radix radix rest (radix * acc + d)%Z (S count)
      | None => (acc, count, s)
      end
  | EmptyString => (acc, count, s)
  end.

Definition all_space (s : string) : bool := String.eqb (skip_spaces s) "".

(** [0x], [0o] or [0b] and digits of that radix, up to the end. *)
Definition nondecimal (t : string) : option JS.number :=
  match t with
  | String "0" (String p body) =>
      let radix :=
        if orb (Ascii.eqb p "x") (Ascii.eqb p "X") then Some 16%Z
        else if orb (Ascii.eqb p "o") (Ascii.eqb p "O") then Some 8%Z
        else if orb (Ascii.eqb p "b") (Ascii.eqb p "B") then Some 2%Z
        else None in
      match radix with
      | Some r =>
          let '(n, count, rest) := read_radix r body 0 0 in
          if negb (Nat.eqb count 0) && all_space rest
          then Some (JS.of_Z n) else Some JS.NaN
      | None => None
      end
  | _ => None
  end.

(** The exponent part, when there is a well-formed one at the head of the
    text: its value and the rest. *)
Definition read_exponent (s : string) : Z * string :=
  match s with
  | String c rest =>
      if orb (Ascii.eqb c "e") (Ascii.eqb c "E")
      then
        let '(negative, body) :=
          match rest with
          | String "-" r => (true, r)
          | String "+" r => (false, r)
          | _ => (false, rest)
          end in
        let '(e, count, rest') := read_decimal body 0 0 in
        if Nat.eqb count 0 then (0%Z, s)
        else ((if negative then - e else e)%Z, rest')
      else (0%Z, s)
  | EmptyString => (0%Z, s)
  end.

(** An unsigned decimal literal at the head of the text: digits, with an
    optional fraction (one of the two sides of the point may be empty)
    and an optional exponent. *)
Definition unsigned_decimal (s : string) : option (Q * string) :=
  let '(int, n, rest) := read_decimal s 0 0 in
  match rest with
  | String "." rest1 =>
      let '(frac, k, rest2) := read_decimal rest1 0 0 in
      if Nat.eqb n 0 && Nat.eqb k 0 then None
      else
        let '(e, rest3) := read_exponent rest2 in
        Some (((inject_Z int + inject_Z frac / inject_Z (10 ^ Z.of_nat k))
               * Qpower (10 # 1) e)%Q, rest3)
  | _ =>
      if Nat.eqb n 0 then None
      else
        let '(e, rest3) := read_exponent rest in
        Some ((inject_Z int * Qpower (10 # 1) e)%Q, rest3)
  end.

Fixpoint drop (n : nat) (s : string) : string :=
  match n, s with
  | S n', String _ rest => drop n' rest
  | _, _ => s
  end.

Definition StringToNumber (s : string) : JS.number :=
  let t := skip_spaces s in
  if String.eqb t "" then JS.Fin 0
  else
    match nondecimal t with
    | Some n => n
    | None =>
        let '(negative, body) :=
          match t with
          | String "-" rest => (true, rest)
          | String "+" rest => (false, rest)
          | _ => (false, t)
          end in
        if String.prefix "Infinity" body
        then (if all_space (drop 8 body)
              then (if negative then JS.NegInf else JS.PosInf)
              else JS.NaN)
        else
          match unsigned_decimal body with
          | Some (q, rest) =>
              if all_space rest
              then JS.Fin (if negative then - q else q)%Q
              else JS.NaN
          | None => JS.NaN
          end
    end.

Section ToNumber.

(** [Number.prototype.toString], which the model does not compute. *)
Variable Number_toString : JS.number -> string.

(** ToNumber on a parsed value: an array is converted through its text,
    an object (whose text is the fixed tag) is not a number. *)
Definition ToNumber (v : Json.value) : JS.number :=
  match v with
  | Json.VNull => JS.Fin 0
  | Json.VBool b => if b then JS.Fin 1 else JS.Fin 0
  | Json.VNum n => n
  | Json.VStr text => StringToNumber text
  | Json.VArr _ => StringToNumber (Json.String_ Number_toString v)
  | Json.VObj _ => JS.NaN
  end.

End ToNumber.

(** [String(n)] for an integer. *)
Definition decimal_of_Z (z : Z) : string :=
  NilEmpty.string_of_int (Z.to_int z).

(** [a || b] on strings that may be undefined: the empty string is falsy. *)
Definition str_truthy (o : option string) : bool :=
  match o with
  | Some s => negb (String.eqb s "")
  | None => false
  end.

Definition str_or (a : option string) (d : string) : string :=
  match a with
  | Some s => if String.eqb s "" then d else s
  | None => d
  end.

Definition str_or_opt (a b : option string) : option string :=
  if str_truthy a then a else b.

(** ** Data model (types/index.ts and the Mongoose documents) *)

(** The string values of the enums. *)
Definition TestCategory_values : list string :=
  ["happy-path"; "edge-case"; "adversarial"; "compliance"; "interruption";
   "clarification"].

Definition CriteriaType_values : list string :=
  ["contains"; "not-contains"; "sentiment"; "action-taken";
   "information-collected"; "tone"; "custom-llm"].

Definition Priority_values : list string :=
  ["critical"; "high"; "medium"; "low"].

Definition includes (values : list string) (s : string) : bool :=
  existsb (String.eqb s) values.

Inductive TurnRole : Type :=
| RoleUser            (* 'user' *)
| RoleExpectedAgent   (* 'expected-agent' *)
| RoleActualAgent.    (* 'actual-agent' *)

Definition TurnRole_eqb (a b : TurnRole) : bool :=
  match a, b with
  | RoleUser, RoleUser
  | RoleExpectedAgent, RoleExpectedAgent
  | RoleActualAgent, RoleActualAgent => true
  | _, _ => false
  end.

Record ConversationTurn : Type := {
  turn_role : TurnRole;
  turn_content : string
}.

Inductive EvaluatorConfig : Type :=
| RegexEvaluator (pattern flags : string)
| KeywordEvaluator (keywords : list string) (matchAll : bool)
| LLMEvaluator (prompt : string) (threshold : JS.number)
| FunctionEvaluator (functionName : string).

Record SuccessCriteria : Type := {
  sc_id : string;
  sc_name : string;
  sc_description : string;
  sc_type : string;
  sc_evaluator : EvaluatorConfig;
  sc_weight : JS.number;
  sc_required : bool
}.

Record TestCase : Type := {
  tc_id : string;
  tc_suiteId : string;
  tc_name : string;
  tc_description : string;
  tc_category : string;
  tc_conversationScript : list ConversationTurn;
  tc_successCriteria : list SuccessCriteria;
  tc_priority : string;
  tc_tags : list string
}.

Record TestSuite : Type := {
  ts_id : string;
  ts_agentId : string;
  ts_name : string;
  ts_description : string;
  ts_testCases : list TestCase;
  ts_globalCriteria : list SuccessCriteria;
  ts_version : nat;
  ts_status : string
}.

(** A turn of a simulated conversation (HighLevelClient.ChatMessage). *)
Inductive ChatRole : Type :=
| ChatUser
| ChatAssistant.

Record ChatMessage : Type := {
  msg_role : ChatRole;
  msg_content : string
}.

Record ChatResponse : Type := {
  cr_message : string;
  cr_conversationId : string
}.

Record AgentConfig : Type := {
  ac_agentId : string;
  ac_systemPrompt : string
}.

Record Metrics : Type := {
  relevance : JS.number;
  accuracy : JS.number;
  completeness : JS.number;
  helpfulness : JS.number
}.

Record PerformanceMetrics : Type := {
  pm_relevance : JS.number;
  pm_accuracy : JS.number;
  pm_completeness : JS.number;
  pm_helpfulness : JS.number;
  pm_overall : JS.number
}.

Record CriteriaResult : Type := {
  cres_criterionId : string;
  cres_passed : bool;
  cres_score : JS.number;
  cres_reasoning : Json.value
}.

Record Evaluation : Type := {
  ev_testCaseId : string;
  ev_testCaseName : string;
  ev_passed : bool;
  ev_criteriaResults : list CriteriaResult;
  ev_overallScore : JS.number;
  ev_reasoning : Json.value;
  ev_confidence : JS.number;
  ev_conversation : list ChatMessage
}.

Record PromptChange : Type := {
  pc_type : string;
  pc_description : string;
  pc_targetedFailure : string
}.

Record BatchResults : Type := {
  br_evaluations : list Evaluation;
  br_passRate : JS.number;
  br_overallScore : JS.number;
  br_metrics : PerformanceMetrics
}.

Record BatchSummary : Type := {
  bs_passRate : JS.number;
  bs_evaluations : list Evaluation
}.

Record OptimizationResult : Type := {
  or_success : bool;
  or_iterations : nat;
  or_initialScore : JS.number;
  or_finalScore : JS.number;
  or_originalPrompt : string;
  or_optimizedPrompt : string;
  or_changes : list PromptChange;
  or_metrics : PerformanceMetrics;
  or_before : BatchSummary;
  or_after : BatchSummary
}.

(** models/OptimizedPrompt.ts *)
Record OptimizedPrompt : Type := {
  op_agentId : string;
  op_originalPrompt : string;
  op_optimizedPrompt : string;
  op_score : JS.number;
  op_iterations : nat
}.

(** models/OptimizationRecord.ts: the fields the delete hooks read. *)
Inductive OptimizationStatus : Type :=
| PENDING
| APPLIED
| VALIDATED
| ROLLED_BACK.

Definition OptimizationStatus_eqb (a b : OptimizationStatus) : bool :=
  match a, b with
  | PENDING, PENDING | APPLIED, APPLIED
  | VALIDATED, VALIDATED | ROLLED_BACK, ROLLED_BACK => true
  | _, _ => false
  end.

Record OptimizationRecord : Type := {
  rec_id : string;
  rec_agentId : string;
  rec_executionId : string;
  rec_status : OptimizationStatus
}.

(** ** Replies of the generation service, as [chatJSON] parses them *)

(** The reply to the judge prompt is the value [JSON.parse] gave, of any
    shape: the cast to the declared type checks nothing. *)

(** A success criterion as generated: the fields the normalisation reads.
    The weight is untyped because the code tests its runtime type. *)
Record RawCriterion : Type := {
  rc_name : option string;
  rc_criterion : option string;
  rc_description : option string;
  rc_type : option string;
  rc_evaluatorType : option string;
  rc_weight : option Json.value;
  rc_required : option bool
}.

(** A test case as generated: the script may come under three keys and
    its turns are untyped. *)
Record RawTestCase : Type := {
  rtc_name : option string;
  rtc_description : option string;
  rtc_category : option string;
  rtc_conversationScript : option (list Json.value);
  rtc_conversation : option (list Json.value);
  rtc_script : option (list Json.value);
  rtc_successCriteria : option (list RawCriterion);
  rtc_priority : option string;
  rtc_tags : option (list string)
}.

Record PromptAnalysis : Type := {
  pa_intents : list string;
  pa_constraints : list string;
  pa_expectedBehaviors : list string;
  pa_dataToCollect : list string;
  pa_tone : string;
  pa_summary : string
}.

Record InsightEvaluation : Type := {
  ie_testCaseId : string;
  ie_testCaseName : string;
  ie_passed : bool;
  ie_overallScore : JS.number;
  ie_reasoning : Json.value
}.

Record FailurePattern : Type := {
  fp_description : string;
  fp_affectedTestCases : list string;
  fp_suggestedFix : string
}.

Record Insights : Type := {
  in_failurePatterns : list FailurePattern;
  in_recommendations : list string;
  in_prioritizedFixes : list string
}.

Record Optimization : Type := {
  opt_optimizedPrompt : string;
  opt_changes : list PromptChange;
  opt_explanation : string
}.

(** ** Thrown values, effects and the monad of the services *)

(** What the HTTP client attaches to a failed request: the status and the
    [retry-after] header when the server sent one. *)
Record AxiosResponse : Type := {
  status : Z;
  retry_after : option string
}.

(** Values the services throw.  [AxiosError None] is a failure without a
    response (network error, timeout); [ThrownNull] is the [null] that
    [withRetry] throws when its loop never ran. *)
Inductive error : Type :=
| AxiosError (response : option AxiosResponse)
| Error (message : string)
| ThrownNull.

Inductive result (A : Type) : Type :=
| Ok (a : A)
| Throw (e : error).
Arguments Throw {A} e.

(** Calls that leave the process, in the order they are issued.  The
    events are ghost state: they let the statements count calls. *)
Inductive event : Type :=
| EvAttempt (attempt : nat)    (* [withRetry] calls its operation *)
| EvSleep (ms : JS.number)     (* a [setTimeout] is awaited *)
| EvGetOrCreateAgent (agentId : string)
| EvGetAgent (agentId : string)
| EvChat (agentId message : string) (conversationId : option string)
| EvEvaluateResponse (criterionName : string)
| EvGenerateInsights
| EvOptimizePrompt (currentPrompt : string)
| EvUpdateAgentPrompt (agentId newPrompt : string)
| EvAnalyzePrompt
| EvGenerateTestCases (category : string).

Section Monad.

(** [St] is the state of everything outside the function at hand. *)
Variable St : Type.

Definition M (A : Type) : Type := St -> result A * St.

Definition ret {A} (a : A) : M A := fun s => (Ok a, s).

Definition throw {A} (e : error) : M A := fun s => (Throw e, s).

Definition bind {A B} (m : M A) (k : A -> M B) : M B :=
  fun s =>
    match m s with
    | (Ok a, s') => k a s'
    | (Throw e, s') => (Throw e, s')
    end.

(** [try { m } catch (error) { h error }] *)
Definition try_catch {A} (m : M A) (h : error -> M A) : M A :=
  fun s =>
    match m s with
    | (Ok a, s') => (Ok a, s')
    | (Throw e, s') => h e s'
    end.

(** Effects of [f] on the items of a list, first to last. *)
Fixpoint mapM {A B} (f : A -> M B) (l : list A) : M (list B) :=
  match l with
  | [] => ret []
  | x :: rest =>
      bind (f x) (fun y => bind (mapM f rest) (fun ys => ret (y :: ys)))
  end.

End Monad.

Arguments mapM {St A B} f l.
Arguments ret {St A} a.
Arguments throw {St A} e.
Arguments bind {St A B} m k.
Arguments try_catch {St A} m h.

Declare Scope js_scope.
Delimit Scope js_scope with js.
Notation "x <- m ;; k" := (bind m (fun x => k))
  (at level 61, m at next level, right associativity) : js_scope.
Notation "m ;;; k" := (bind m (fun _ => k))
  (at level 61, right associativity) : js_scope.

(** ** State of a run and the collaborators *)

(** The state threaded through the services: [world] is whatever the
    collaborators depend on and change, [trace] the calls issued so far,
    the rest are the MongoDB collections in insertion order. *)
Record state (W : Type) : Type := {
  world : W;
  trace : list event;
  testSuites : list TestSuite;
  optimizedPrompts : list OptimizedPrompt;
  optimizationRecords : list OptimizationRecord
}.

Record EvaluateParams : Type := {
  ep_name : string;
  ep_description : string;
  ep_conversationTurns : list ChatMessage
}.

Record InsightParams : Type := {
  ip_evaluations : list InsightEvaluation;
  ip_passRate : JS.number;
  ip_overallScore : JS.number
}.

Record OptimizeParams : Type := {
  opp_currentPrompt : string;
  opp_failurePatterns : list FailurePattern;
  opp_recommendations : list string
}.

(** What lies outside the services.  A generation entry stands for one
    [chatJSON] call of LLMClient with the prompt text it builds: it
    returns the parsed reply or throws.  The HighLevel entries stand for
    the mock or the HTTP implementation alike. *)
Record Env (W : Type) : Type := {
  Number_toString : JS.number -> string;
  uuidv4 : W -> string * W;
  newObjectId : W -> string * W;
  isoDate : W -> string * W;
  getOrCreateAgent : string -> W -> result unit * W;
  hl_getAgent : string -> W -> result AgentConfig * W;
  hl_updateAgentPrompt : string -> string -> W -> result unit * W;
  hl_chat : string -> string -> option string -> W -> result ChatResponse * W;
  gen_analyzePrompt : string -> W -> result PromptAnalysis * W;
  gen_generateTestCases :
    PromptAnalysis -> string -> nat -> W -> result (option (list RawTestCase)) * W;
  gen_evaluateResponse : EvaluateParams -> W -> result Json.value * W;
  gen_generateInsights : InsightParams -> W -> result Insights * W;
  gen_optimizePrompt : OptimizeParams -> W -> result Optimization * W
}.

Section Effects.

Variable W : Type.

Definition set_world (w : W) (s : state W) : state W :=
  {| world := w; trace := trace s; testSuites := testSuites s;
     optimizedPrompts := optimizedPrompts s;
     optimizationRecords := optimizationRecords s |}.

Definition record_event (ev : event) (s : state W) : state W :=
  {| world := world s; trace := (trace s ++ [ev])%list; testSuites := testSuites s;
     optimizedPrompts := optimizedPrompts s;
     optimizationRecords := optimizationRecords s |}.

Definition log (ev : event) : M (state W) unit :=
  fun s => (Ok tt, record_event ev s).

(** A call to a collaborator that may throw. *)
Definition call {A} (ev : event) (f : W -> result A * W) : M (state W) A :=
  fun s =>
    let '(r, w) := f (world s) in
    (r, set_world w (record_event ev s)).

(** A call to a collaborator that cannot throw and is not traced. *)
Definition ask {A} (f : W -> A * W) : M (state W) A :=
  fun s =>
    let '(a, w) := f (world s) in
    (Ok a, set_world w s).

(** [await new Promise(resolve => setTimeout(resolve, ms))] *)
Definition sleep (ms : JS.number) : M (state W) unit := log (EvSleep ms).

End Effects.

Arguments log {W} ev.
Arguments call {W A} ev f.
Arguments ask {W A} f.
Arguments sleep {W} ms.

Local Open Scope js_scope.

(** ** LLMClient *)

Module LLMClient.

Section WithRetry.

Variables W T : Type.

(** The request [await operation()] performs: it acts on the world
    outside and returns or throws. *)
Variable operation : W -> result T * W.
Variable maxRetries : nat.

Definition perform : M (state W) T :=
  fun s =>
    let '(r, w) := operation (world s) in
    (r, set_world w s).

(** [status && status >= 400 && status < 500 && status !== 429] *)
Definition is_fatal_status (status : option Z) : bool :=
  match status with
  | Some st =>
      negb (st =? 0)%Z && (400 <=? st)%Z && (st <? 500)%Z && negb (st =? 429)%Z
  | None => false
  end.

Definition is_rate_limited (status : option Z) : bool :=
  match status with
  | Some st => (st =? 429)%Z
  | None => false
  end.

(** [Math.pow(2, attempt) * 1000] *)
Definition backoff_delay (attempt : nat) : JS.number :=
  JS.mul (JS.of_Z (2 ^ Z.of_nat attempt)) (JS.of_Z 1000).

(** [parseInt(headers['retry-after'] || '60', 10) * 1000] *)
Definition rate_limit_delay (response : option AxiosResponse) : JS.number :=
  let header :=
    match response with
    | Some r => retry_after r
    | None => None
    end in
  JS.mul (parseInt (str_or header "60")) (JS.of_Z 1000).

(** The [for] loop of [withRetry]: [remaining] is [maxRetries - attempt],
    [lastError] the value of the variable of that name.  The body of the
    [catch] either rethrows or goes round the loop, through [continue]
    after a rate limit, through the end of the block otherwise: both
    ways the loop header increments [attempt]. *)
Fixpoint withRetry_loop (remaining attempt : nat) (lastError : error)
  : M (state W) T :=
  match remaining with
  | O => throw lastError
  | S remaining' =>
      log (EvAttempt attempt) ;;;
      try_catch perform (fun error =>
        let next := withRetry_loop remaining' (S attempt) error in
        let generic :=
          (if (Z.of_nat attempt <? Z.of_nat maxRetries - 1)%Z
           then sleep (backoff_delay attempt)
           else ret tt) ;;; next in
        match error with
        | AxiosError response =>
            let status := option_map status response in
            if is_fatal_status status then throw error
            else if is_rate_limited status
                 then sleep (rate_limit_delay response) ;;; next
                 else generic
        | _ => generic
        end)
  end.

Definition withRetry : M (state W) T :=
  withRetry_loop maxRetries 0 ThrownNull.

End WithRetry.

Record EvaluateResult : Type := {
  er_passed : bool;
  er_score : JS.number;
  er_reasoning : Json.value;
  er_metrics : Metrics
}.

(** [{ relevance: 0, accuracy: 0, completeness: 0, helpfulness: 0 }] *)
Definition no_metrics : Json.value :=
  Json.VObj [("relevance", Json.VNum (JS.Fin 0));
             ("accuracy", Json.VNum (JS.Fin 0));
             ("completeness", Json.VNum (JS.Fin 0));
             ("helpfulness", Json.VNum (JS.Fin 0))].

Section Calls.

Variable W : Type.
Variable env : Env W.

(** [Math.max(0, Math.min(1, x || 0))], where [x] is the value under a
    key of the parsed reply: the two functions convert it to a number. *)
Definition clamp01 (x : option Json.value) : JS.number :=
  JS.Math_max (JS.Fin 0)
    (JS.Math_min (JS.Fin 1)
       (ToNumber (Number_toString env)
          (Json.or_value x (Json.VNum (JS.Fin 0))))).

(** The part of [evaluateResponse] after the reply is parsed.  Reading
    [metrics] off [null] throws, and so does, in the strict code of a
    class, the assignment [metrics.relevance = ...] when [metrics] is a
    number, a text or [true]. *)
Definition score_reply (data : Json.value) : result EvaluateResult :=
  match data with
  | Json.VNull =>
      Throw (Error "TypeError: Cannot read properties of null (reading 'metrics')")
  | _ =>
      let raw := Json.or_value (Json.get data "metrics") no_metrics in
      match raw with
      | Json.VObj _ | Json.VArr _ =>
          let metrics :=
            {| relevance := clamp01 (Json.get raw "relevance");
               accuracy := clamp01 (Json.get raw "accuracy");
               completeness := clamp01 (Json.get raw "completeness");
               helpfulness := clamp01 (Json.get raw "helpfulness") |} in
          let overallScore :=
            JS.div
              (JS.add (JS.add (JS.add (relevance metrics) (accuracy metrics))
                         (completeness metrics)) (helpfulness metrics))
              (JS.Fin 4) in
          Ok {| er_passed := JS.ge overallScore (JS.Fin (7 # 10));
                er_score :=
                  JS.Math_max (JS.Fin 0) (JS.Math_min (JS.Fin 1) overallScore);
                er_reasoning :=
                  Json.or_value (Json.get data "reasoning")
                    (Json.VStr "No reasoning provided");
                er_metrics := metrics |}
      | _ =>
          Throw (Error "TypeError: Cannot create property 'relevance' on a primitive")
      end
  end.

Definition evaluateResponse (params : EvaluateParams)
  : M (state W) EvaluateResult :=
  data <- call (EvEvaluateResponse (ep_name params))
               (gen_evaluateResponse env params) ;;
  (fun s => (score_reply data, s)).

Definition generateInsights (params : InsightParams) : M (state W) Insights :=
  call EvGenerateInsights (gen_generateInsights env params).

Definition optimizePrompt (params : OptimizeParams) : M (state W) Optimization :=
  call (EvOptimizePrompt (opp_currentPrompt params))
       (gen_optimizePrompt env params).

Definition analyzePrompt (systemPrompt : string) : M (state W) PromptAnalysis :=
  call EvAnalyzePrompt (gen_analyzePrompt env systemPrompt).

(** [return response.data.testCases || []] *)
Definition generateTestCases (analysis : PromptAnalysis) (category : string)
    (count : nat) : M (state W) (list RawTestCase) :=
  cases <- call (EvGenerateTestCases category)
                (gen_generateTestCases env analysis category count) ;;
  ret (match cases with Some l => l | None => [] end).

End Calls.

End LLMClient.

(** ** HighLevelClient *)

Module HighLevelClient.

Section Client.

Variable W : Type.
Variable env : Env W.

Definition chat (agentId message : string) (conversationId : option string)
  : M (state W) ChatResponse :=
  call (EvChat agentId message conversationId)
       (hl_chat env agentId message conversationId).

Definition getAgent (agentId : string) : M (state W) AgentConfig :=
  call (EvGetAgent agentId) (hl_getAgent env agentId).

Definition updateAgentPrompt (agentId newPrompt : string) : M (state W) unit :=
  call (EvUpdateAgentPrompt agentId newPrompt)
       (hl_updateAgentPrompt env agentId newPrompt).

(** The [for ... of] loop of [simulateConversation]. *)
Fixpoint simulate_loop (agentId : string) (messages : list string)
    (turns : list ChatMessage) (conversationId : option string)
  : M (state W) (list ChatMessage * option string) :=
  match messages with
  | [] => ret (turns, conversationId)
  | message :: rest =>
      let turns1 :=
        (turns ++ [{| msg_role := ChatUser; msg_content := message |}])%list in
      response <- chat agentId message conversationId ;;
      simulate_loop agentId rest
        (turns1 ++ [{| msg_role := ChatAssistant;
                       msg_content := cr_message response |}])%list
        (Some (cr_conversationId response))
  end.

Definition simulateConversation (agentId : string) (messages : list string)
  : M (state W) (list ChatMessage * option string) :=
  simulate_loop agentId messages [] None.

End Client.

End HighLevelClient.

(** ** Mongoose models *)

Module Models.

(** *** TestSuite.ts: schema validators *)

(** SuccessCriteriaSchema.weight: [min: 0], [max: 1] and the validator
    [if (this.required && v < 0.5) return false; return true]. *)
Definition weight_validator (this : SuccessCriteria) (v : JS.number) : bool :=
  if sc_required this && JS.lt v (JS.Fin (1 # 2)) then false else true.

Definition SuccessCriteria_valid (c : SuccessCriteria) : bool :=
  includes CriteriaType_values (sc_type c)
  && JS.ge (sc_weight c) (JS.Fin 0)
  && JS.le (sc_weight c) (JS.Fin 1)
  && weight_validator c (sc_weight c).

(** TestCaseSchema.conversationScript:
    [v.length > 0 && v[0].role === 'user'] *)
Definition conversationScript_validator (v : list ConversationTurn) : bool :=
  match v with
  | [] => false
  | first :: _ => TurnRole_eqb (turn_role first) RoleUser
  end.

(** [v.reduce((acc, c) => acc + c.weight, 0)] *)
Definition weight_sum (v : list SuccessCriteria) : JS.number :=
  fold_left (fun acc c => JS.add acc (sc_weight c)) v (JS.Fin 0).

(** TestCaseSchema.successCriteria:
    [if (v.length === 0) return false;
     return Math.abs(sum - 1) < 0.01] *)
Definition successCriteria_validator (v : list SuccessCriteria) : bool :=
  if Nat.eqb (List.length v) 0 then false
  else JS.lt (JS.Math_abs (JS.sub (weight_sum v) (JS.Fin 1))) (JS.Fin (1 # 100)).

Definition TestCase_valid (tc : TestCase) : bool :=
  includes TestCategory_values (tc_category tc)
  && conversationScript_validator (tc_conversationScript tc)
  && forallb SuccessCriteria_valid (tc_successCriteria tc)
  && successCriteria_validator (tc_successCriteria tc)
  && includes Priority_values (tc_priority tc).

(** TestSuiteSchema.testCases:
    [if (v.length === 0) return false;
     return names.length === new Set(names).size] *)
Definition testCases_validator (v : list TestCase) : bool :=
  if Nat.eqb (List.length v) 0 then false
  else
    let names := map tc_name v in
    Nat.eqb (List.length names) (List.length (nodup string_dec names)).

Definition TestSuite_valid (suite : TestSuite) : bool :=
  forallb TestCase_valid (ts_testCases suite)
  && testCases_validator (ts_testCases suite)
  && forallb SuccessCriteria_valid (ts_globalCriteria suite)
  && includes ["draft"; "active"; "archived"] (ts_status suite).

Section Collections.

Variable W : Type.
Variable env : Env W.

Definition set_testSuites (l : list TestSuite) (s : state W) : state W :=
  {| world := world s; trace := trace s; testSuites := l;
     optimizedPrompts := optimizedPrompts s;
     optimizationRecords := optimizationRecords s |}.

Definition set_optimizedPrompts (l : list OptimizedPrompt) (s : state W)
  : state W :=
  {| world := world s; trace := trace s; testSuites := testSuites s;
     optimizedPrompts := l;
     optimizationRecords := optimizationRecords s |}.

Definition set_optimizationRecords (l : list OptimizationRecord)
    (s : state W) : state W :=
  {| world := world s; trace := trace s; testSuites := testSuites s;
     optimizedPrompts := optimizedPrompts s;
     optimizationRecords := l |}.

(** [TestSuiteModel.create(doc)]: the document is validated against the
    schema, then stored under a fresh [_id] (the [id] given by the
    caller is not a path of the schema). *)
Definition TestSuiteModel_create (doc : TestSuite) : M (state W) TestSuite :=
  if TestSuite_valid doc then
    oid <- ask (newObjectId env) ;;
    (fun s =>
       let saved :=
         {| ts_id := oid; ts_agentId := ts_agentId doc; ts_name := ts_name doc;
            ts_description := ts_description doc;
            ts_testCases := ts_testCases doc;
            ts_globalCriteria := ts_globalCriteria doc;
            ts_version := ts_version doc; ts_status := ts_status doc |} in
       (Ok saved, set_testSuites (testSuites s ++ [saved])%list s))
  else throw (Error "TestSuite validation failed").

(** [TestSuiteModel.findOne({ agentId }).sort({ createdAt: -1 })] *)
Definition TestSuiteModel_findLatest (agentId : string)
  : M (state W) (option TestSuite) :=
  fun s =>
    (Ok (find (fun d => String.eqb (ts_agentId d) agentId) (rev (testSuites s))),
     s).

(** [TestSuiteModel.findById(suiteId)] *)
Definition TestSuiteModel_findById (suiteId : string)
  : M (state W) (option TestSuite) :=
  fun s => (Ok (find (fun d => String.eqb (ts_id d) suiteId) (testSuites s)), s).

(** *** OptimizedPrompt.ts *)

(** The collection after
    [findOneAndUpdate({ agentId }, update, { upsert: true, new: true })]:
    the first document of that agent takes the fields of [update], and
    [update] is inserted when there is none. *)
Fixpoint upsert (update : OptimizedPrompt) (docs : list OptimizedPrompt)
  : list OptimizedPrompt :=
  match docs with
  | [] => [update]
  | d :: rest =>
      if String.eqb (op_agentId d) (op_agentId update)
      then update :: rest
      else d :: upsert update rest
  end.

Definition OptimizedPromptModel_findOneAndUpdate (update : OptimizedPrompt)
  : M (state W) OptimizedPrompt :=
  fun s =>
    (Ok update, set_optimizedPrompts (upsert update (optimizedPrompts s)) s).

Definition OptimizedPromptModel_findOne (agentId : string)
    (docs : list OptimizedPrompt) : option OptimizedPrompt :=
  find (fun d => String.eqb (op_agentId d) agentId) docs.

End Collections.

(** *** OptimizationRecord.ts: the delete hooks *)

(** A call a hook makes to the [next] it is given. *)
Inductive next_call : Type :=
| Next
| NextError (e : error).

Definition dquote : string := String (ascii_of_nat 34) EmptyString.

Definition applied_message : string :=
  "Cannot delete optimization record with status " ++ dquote ++ "applied"
  ++ dquote ++ " - audit trail must be preserved".


(** [pre('deleteOne', { document: false, query: true }, async function(next) {
       const doc = await this.model.findOne(this.getFilter());
       if (doc && doc.status === APPLIED) { next(new Error(...)); }
       next();
     })] *)
Definition pre_deleteOne_query (filter : OptimizationRecord -> bool)
    (collection : list OptimizationRecord) : list next_call :=
  (match find filter collection with
   | Some doc =>
       if OptimizationStatus_eqb (rec_status doc) APPLIED
       then [NextError (Error applied_message)]
       else []
   | None => []
   end)
  ++ [Next].

(** The collection without the first document that matches. *)
Fixpoint remove_first (filter : OptimizationRecord -> bool)
    (collection : list OptimizationRecord) : list OptimizationRecord :=
  match collection with
  | [] => []
  | d :: rest => if filter d then rest else d :: remove_first filter rest
  end.

Section DeleteOne.

Variable W : Type.

(** How Mongoose settles a pre hook from the calls it made to [next]:
    [Some e] aborts the operation with [e], [None] lets it proceed. *)
Variable settle : list next_call -> option error.


(** [OptimizationRecordModel.deleteOne(filter)] *)
Definition deleteOne_query (filter : OptimizationRecord -> bool)
  : M (state W) unit :=
  fun s =>
    match settle (pre_deleteOne_query filter (optimizationRecords s)) with
    | Some e => (Throw e, s)
    | None =>
        (Ok tt,
         set_optimizationRecords
           (remove_first filter (optimizationRecords s)) s)
    end.

End DeleteOne.

(** The first call of [next] decides, later calls are ignored. *)
Definition first_call_wins (calls : list next_call) : option error :=
  match calls with
  | NextError e :: _ => Some e
  | _ => None
  end.

End Models.

(** *** OptimizationRecord.ts: the status hooks of [save] *)

Module RecordDocument.

(** A record document as the [save] hooks see it: its status, the status
    it had when it was read or last saved (which Mongoose keeps to tell
    whether the path is modified), Mongoose's [isNew] and
    [isModified('status')], and the property [_previousStatus] that the
    second hook puts on the object (it is not a path of the schema, so it
    lives and dies with the object). *)
Record Document : Type := {
  doc_status : OptimizationStatus;
  savedStatus : OptimizationStatus;
  isNew : bool;
  isModified_status : bool;
  _previousStatus : option OptimizationStatus
}.

Definition validTransitions (from : OptimizationStatus)
  : list OptimizationStatus :=
  match from with
  | PENDING => [APPLIED]
  | APPLIED => [VALIDATED; ROLLED_BACK]
  | VALIDATED => []
  | ROLLED_BACK => []
  end.

(** The values of the enum [OptimizationStatus]. *)
Definition status_text (st : OptimizationStatus) : string :=
  match st with
  | PENDING => "pending"
  | APPLIED => "applied"
  | VALIDATED => "validated"
  | ROLLED_BACK => "rolled-back"
  end.

Definition transition_message (previousStatus currentStatus : OptimizationStatus)
  : string :=
  "Invalid status transition from " ++ status_text previousStatus
  ++ " to " ++ status_text currentStatus.

(** [pre('save', function(next) {
       if (this.isModified('status') && !this.isNew) {
         ...
         if (previousStatus && !validTransitions[previousStatus]?.includes(currentStatus)) {
           next(new Error(...)); return;
         }
       }
       next();
     })]: the one call it makes to [next]. *)
Definition pre_save_validate (this : Document) : Models.next_call :=
  if isModified_status this && negb (isNew this)
  then
    let currentStatus := doc_status this in
    match _previousStatus this with
    | Some previousStatus =>
        if negb (existsb (OptimizationStatus_eqb currentStatus)
                   (validTransitions previousStatus))
        then Models.NextError
               (Error (transition_message previousStatus currentStatus))
        else Models.Next
    | None => Models.Next
    end
  else Models.Next.

(** [pre('save', function(next) {
       if (!this.isNew) { this._previousStatus = this.status; }
       next();
     })] *)
Definition pre_save_store (this : Document) : Document :=
  if negb (isNew this)
  then {| doc_status := doc_status this; savedStatus := savedStatus this;
          isNew := isNew this;
          isModified_status := isModified_status this;
          _previousStatus := Some (doc_status this) |}
  else this.

(** [doc.save()]: the two hooks run in the order they were registered; an
    error handed to [next] rejects the save before the second hook runs
    and leaves the object as it is; a save that goes through leaves the
    object not new, with no modified path and its status as the saved
    one.  The result is paired with the object after the call. *)
Definition save (this : Document) : result Document * Document :=
  match pre_save_validate this with
  | Models.NextError e => (Throw e, this)
  | Models.Next =>
      let stored := pre_save_store this in
      let saved :=
        {| doc_status := doc_status stored;
           savedStatus := doc_status stored; isNew := false;
           isModified_status := false;
           _previousStatus := _previousStatus stored |} in
      (Ok saved, saved)
  end.

(** [doc.status = st].  Mongoose has the path modified when the value
    assigned differs from the one that was read or last saved, and not
    modified when it is that value again; every path of a new document
    counts as modified. *)
Definition set_status (st : OptimizationStatus) (this : Document) : Document :=
  {| doc_status := st; savedStatus := savedStatus this; isNew := isNew this;
     isModified_status :=
       isNew this || negb (OptimizationStatus_eqb st (savedStatus this));
     _previousStatus := _previousStatus this |}.

(** [createOptimizationRecord]: [new OptimizationRecordModel({ ...,
    status: PENDING }).save()], on the fields above. *)
Definition createOptimizationRecord : result Document * Document :=
  save {| doc_status := PENDING; savedStatus := PENDING; isNew := true;
          isModified_status := true; _previousStatus := None |}.

End RecordDocument.

(** *** HighLevelClient.ts in mock mode, and the reset route of api.ts *)

Module MockClient.

(** An entry of [agentCache]. *)
Record CacheEntry : Type := {
  data : AgentConfig;
  timestamp : Z
}.

(** The module-level variables of HighLevelClient.ts, the clock read by
    [Date.now()] (milliseconds; it is read once per call here), and the
    two collections the mock client and the reset route work on.  Time
    passes between calls: the properties hold for every value of the
    clock. *)
Record MockState : Type := {
  currentMockPrompt : string;
  agentCache : list (string * CacheEntry);
  rateLimitedUntil : option Z;
  Date_now : Z;
  savedPrompts : list OptimizedPrompt;
  suites : list TestSuite
}.

Definition CACHE_TTL : Z := 5 * 60 * 1000.

(** [agentCache.get(agentId)] *)
Fixpoint cache_get (agentId : string) (cache : list (string * CacheEntry))
  : option CacheEntry :=
  match cache with
  | [] => None
  | (key, entry) :: rest =>
      if String.eqb key agentId then Some entry else cache_get agentId rest
  end.

(** [agentCache.set(agentId, entry)]: the entry of an existing key is
    replaced in place, a new key comes last. *)
Fixpoint cache_set (agentId : string) (entry : CacheEntry)
    (cache : list (string * CacheEntry)) : list (string * CacheEntry) :=
  match cache with
  | [] => [(agentId, entry)]
  | (key, old) :: rest =>
      if String.eqb key agentId then (key, entry) :: rest
      else (key, old) :: cache_set agentId entry rest
  end.

Definition with_cache (prompt : string) (cache : list (string * CacheEntry))
    (st : MockState) : MockState :=
  {| currentMockPrompt := prompt; agentCache := cache;
     rateLimitedUntil := rateLimitedUntil st; Date_now := Date_now st;
     savedPrompts := savedPrompts st; suites := suites st |}.

(** The prompt of an agent for which nothing was saved. *)
Definition bad_prompt : string :=
  "You are a customer service agent.

Answer customer questions.

Be helpful.".

(** [getMockAgent(agentId)] *)
Definition getMockAgent (agentId : string) (st : MockState)
  : AgentConfig * MockState :=
  match cache_get agentId (agentCache st) with
  | Some cached => (data cached, st)
  | None =>
      let savedOptimized :=
        Models.OptimizedPromptModel_findOne agentId (savedPrompts st) in
      let systemPrompt :=
        match savedOptimized with
        | Some saved => op_optimizedPrompt saved
        | None => bad_prompt
        end in
      let mockAgent :=
        {| ac_agentId := agentId; ac_systemPrompt := systemPrompt |} in
      (mockAgent,
       with_cache systemPrompt
         (cache_set agentId {| data := mockAgent; timestamp := Date_now st |}
            (agentCache st))
         st)
  end.

(** [getAgent(agentId)] when [useMock] is set. *)
Definition getAgent (agentId : string) (st : MockState)
  : AgentConfig * MockState :=
  match cache_get agentId (agentCache st) with
  | Some cached =>
      if (Date_now st - timestamp cached <? CACHE_TTL)%Z
      then (data cached, st)
      else getMockAgent agentId st
  | None => getMockAgent agentId st
  end.

(** [updateAgentPrompt(agentId, newPrompt)] when [useMock] is set. *)
Definition updateAgentPrompt (agentId newPrompt : string) (st : MockState)
  : MockState :=
  match cache_get agentId (agentCache st) with
  | Some cached =>
      with_cache newPrompt
        (cache_set agentId
           {| data := {| ac_agentId := ac_agentId (data cached);
                         ac_systemPrompt := newPrompt |};
              timestamp := Date_now st |}
           (agentCache st))
        st
  | None => with_cache newPrompt (agentCache st) st
  end.

(** [clearCache()] *)
Definition clearCache (st : MockState) : MockState := with_cache "" [] st.

(** [hay.includes(needle)] *)
Fixpoint includes (hay needle : string) : bool :=
  String.prefix needle hay
  || match hay with
     | EmptyString => false
     | String _ rest => includes rest needle
     end.

Definition checks (st : MockState) : list bool :=
  let prompt := toLowerCase (currentMockPrompt st) in
  [ includes prompt "dental" || includes prompt "clinic"
      || includes prompt "bright smile";
    includes prompt "cleaning" || includes prompt "whitening"
      || includes prompt "filling";
    includes prompt "$" || includes prompt "price" || includes prompt "99";
    includes prompt "monday" || includes prompt "hours"
      || includes prompt "8:00";
    includes prompt "sunday" || includes prompt "closed"
      || includes prompt "holiday";
    includes prompt "email" || includes prompt "confirm";
    includes prompt "february" || includes prompt "invalid"
      || includes prompt "28";
    includes prompt "clarif" || includes prompt "ambiguous"
      || includes prompt "what type";
    includes prompt "vaccination" || includes prompt "flu"
      || includes prompt "covid";
    Nat.ltb 400 (String.length (currentMockPrompt st)) ].

(** [getPromptQualityScore()]:
    [checks.filter(Boolean).length / checks.length] *)
Definition getPromptQualityScore (st : MockState) : JS.number :=
  JS.div (JS.of_nat (List.length (filter (fun b : bool => b) (checks st))))
    (JS.of_nat (List.length (checks st))).

(** [rateLimitedUntil && Date.now() < rateLimitedUntil] *)
Definition limited (st : MockState) : bool :=
  match rateLimitedUntil st with
  | Some until => negb (until =? 0)%Z && (Date_now st <? until)%Z
  | None => false
  end.

(** [Math.ceil((rateLimitedUntil - Date.now()) / 1000)] *)
Definition waitTime (st : MockState) : Z :=
  match rateLimitedUntil st with
  | Some until => - ((- (until - Date_now st)) / 1000)
  | None => 0
  end.

(** [checkRateLimit()] *)
Definition checkRateLimit (st : MockState) : result unit * MockState :=
  if limited st
  then (Throw (Error ("Rate limited. Please wait "
                      ++ decimal_of_Z (waitTime st) ++ " seconds.")),
        st)
  else (Ok tt,
        {| currentMockPrompt := currentMockPrompt st;
           agentCache := agentCache st;
           rateLimitedUntil := None; Date_now := Date_now st;
           savedPrompts := savedPrompts st; suites := suites st |}).

(** [getRateLimitStatus()]: [isLimited] and [retryAfter]. *)
Definition getRateLimitStatus (st : MockState) : bool * option Z :=
  if limited st then (true, Some (waitTime st)) else (false, None).

(** [OptimizedPromptModel.deleteOne({ agentId })] *)
Fixpoint deleteOne (agentId : string) (docs : list OptimizedPrompt)
  : list OptimizedPrompt :=
  match docs with
  | [] => []
  | d :: rest =>
      if String.eqb (op_agentId d) agentId then rest
      else d :: deleteOne agentId rest
  end.

(** [TestSuiteModel.deleteMany({ agentId })] *)
Definition deleteMany (agentId : string) (docs : list TestSuite)
  : list TestSuite :=
  filter (fun d => negb (String.eqb (ts_agentId d) agentId)) docs.

(** api.ts, [router.delete('/agents/:agentId/optimized-prompt', ...)]: the
    state after the three steps of the handler. *)
Definition delete_optimized_prompt (agentId : string) (st : MockState)
  : MockState :=
  clearCache
    {| currentMockPrompt := currentMockPrompt st;
       agentCache := agentCache st;
       rateLimitedUntil := rateLimitedUntil st; Date_now := Date_now st;
       savedPrompts := deleteOne agentId (savedPrompts st);
       suites := deleteMany agentId (suites st) |}.

(** api.ts, [router.get('/agents/:agentId/optimized-prompt', ...)]: the
    field [hasOptimized] of the answer. *)
Definition hasOptimized (agentId : string) (st : MockState) : bool :=
  match Models.OptimizedPromptModel_findOne agentId (savedPrompts st) with
  | Some _ => true
  | None => false
  end.

End MockClient.

(** ** OptimizerService *)

Module OptimizerService.

(** *** Normalisation of generated test cases *)

Section Normalize.

Variable W : Type.
Variable env : Env W.

(** The evaluator built from [String(sc.evaluatorType || 'llm').toLowerCase()]. *)
Definition normalizeEvaluator (sc : RawCriterion) : EvaluatorConfig :=
  let evalType := toLowerCase (str_or (rc_evaluatorType sc) "llm") in
  let llm :=
    LLMEvaluator
      (str_or (str_or_opt (rc_description sc) (rc_name sc)) "Evaluate response")
      (JS.Fin (7 # 10)) in
  if String.eqb evalType "llm" then llm
  else if String.eqb evalType "keyword"
       then KeywordEvaluator [str_or (rc_name sc) "keyword"] false
  else if String.eqb evalType "regex" then RegexEvaluator ".*" "i"
  else llm.

(** The callback of [(tc.successCriteria || []).map(...)]. *)
Definition normalizeCriterion (sc : RawCriterion) : M (state W) SuccessCriteria :=
  let evaluator := normalizeEvaluator sc in
  id <- ask (uuidv4 env) ;;
  ret {| sc_id := id;
         sc_name := str_or (str_or_opt (rc_name sc) (rc_criterion sc))
                      "Unnamed Criterion";
         sc_description := str_or (str_or_opt (rc_description sc) (rc_name sc))
                             "No description";
         sc_type := str_or (rc_type sc) "custom-llm";
         sc_evaluator := evaluator;
         sc_weight := match rc_weight sc with
                      | Some (Json.VNum n) => n
                      | _ => JS.Fin (33 # 100)
                      end;
         sc_required := match rc_required sc with
                        | Some b => b
                        | None => false
                        end |}.

Definition fallbackCriterion (id : string) : SuccessCriteria :=
  {| sc_id := id;
     sc_name := "Response Quality";
     sc_description := "Agent provides a helpful and appropriate response";
     sc_type := "custom-llm";
     sc_evaluator :=
       LLMEvaluator "Evaluate if the response is helpful" (JS.Fin (7 # 10));
     sc_weight := JS.Fin 1;
     sc_required := true |}.

(** Success criteria of a test case: the mapped list, and the fallback
    pushed when [successCriteria.length === 0]. *)
Definition normalizeCriteria (raw : option (list RawCriterion))
  : M (state W) (list SuccessCriteria) :=
  successCriteria <-
    mapM normalizeCriterion (match raw with Some l => l | None => [] end) ;;
  if Nat.eqb (List.length successCriteria) 0
  then id <- ask (uuidv4 env) ;; ret (successCriteria ++ [fallbackCriterion id])%list
  else ret successCriteria.

Definition agent_synonyms : list string :=
  ["agent"; "assistant"; "expected-agent"; "bot"; "ai"].

(** [String(turn.role || turn.speaker || turn.from || '').toLowerCase()] *)
Definition turnRole (turn : Json.value) : string :=
  toLowerCase
    (Json.String_opt (Number_toString env)
       (Json.or (Json.or (Json.or (Json.get turn "role") (Json.get turn "speaker"))
                   (Json.get turn "from"))
          (Some (Json.VStr "")))).

Definition normalizeRole (turn : Json.value) : TurnRole :=
  if includes agent_synonyms (turnRole turn) then RoleExpectedAgent else RoleUser.

Definition content_keys : list string :=
  ["content"; "text"; "message"; "utterance"; "input"; "output"].

(** The chain [if (turn.content) ... else if (turn.text) ...]: the first
    truthy property among the candidate keys. *)
Fixpoint first_truthy (turn : Json.value) (keys : list string)
  : option Json.value :=
  match keys with
  | [] => None
  | key :: rest =>
      if Json.truthy_opt (Json.get turn key) then Json.get turn key
      else first_truthy turn rest
  end.

(** The scan of [Object.keys(turn)] for a non-empty string that is not
    under the key [role]. *)
Fixpoint scan_strings (entries : list (string * Json.value)) : string :=
  match entries with
  | [] => ""
  | (key, Json.VStr text) :: rest =>
      if Nat.ltb 0 (String.length text) && negb (String.eqb key "role")
      then text
      else scan_strings rest
  | _ :: rest => scan_strings rest
  end.

Definition turnContent (turn : Json.value) (role : TurnRole) : string :=
  let content :=
    match turn with
    | Json.VStr text => text
    | _ =>
        match first_truthy turn content_keys with
        | Some v => Json.String_ (Number_toString env) v
        | None => scan_strings (Json.entries turn)
        end
    end in
  if String.eqb content ""
  then (if TurnRole_eqb role RoleUser then "Hello" else "How can I help you?")
  else content.

(** The callback of [rawScript.map(...)].  Reading a property of [null]
    throws a TypeError. *)
Definition normalizeTurn (turn : Json.value) : M (state W) ConversationTurn :=
  match turn with
  | Json.VNull => throw (Error "TypeError: Cannot read properties of null")
  | _ =>
      let role := normalizeRole turn in
      ret {| turn_role := role; turn_content := turnContent turn role |}
  end.

Definition greeting : ConversationTurn :=
  {| turn_role := RoleUser; turn_content := "Hello" |}.

(** [if (normalizedScript.length === 0 || normalizedScript[0].role !== 'user')
      normalizedScript.unshift({ role: 'user', content: 'Hello' })] *)
Definition ensureUserFirst (normalizedScript : list ConversationTurn)
  : list ConversationTurn :=
  match normalizedScript with
  | [] => [greeting]
  | first :: _ =>
      if negb (TurnRole_eqb (turn_role first) RoleUser)
      then greeting :: normalizedScript
      else normalizedScript
  end.

(** [tc.conversationScript || tcAny.conversation || tcAny.script || []] *)
Definition rawScript (tc : RawTestCase) : list Json.value :=
  match rtc_conversationScript tc with
  | Some l => l
  | None =>
      match rtc_conversation tc with
      | Some l => l
      | None =>
          match rtc_script tc with
          | Some l => l
          | None => []
          end
      end
  end.

Definition normalizeScript (tc : RawTestCase)
  : M (state W) (list ConversationTurn) :=
  normalizedScript <- mapM normalizeTurn (rawScript tc) ;;
  ret (ensureUserFirst normalizedScript).

(** The body of [for (const tc of generatedCases)]. *)
Definition transformTestCase (suiteId category : string) (tc : RawTestCase)
  : M (state W) TestCase :=
  successCriteria <- normalizeCriteria (rtc_successCriteria tc) ;;
  normalizedScript <- normalizeScript tc ;;
  id <- ask (uuidv4 env) ;;
  ret {| tc_id := id;
         tc_suiteId := suiteId;
         tc_name := str_or (rtc_name tc) "Unnamed Test";
         tc_description := str_or (rtc_description tc) "No description";
         tc_category := str_or (rtc_category tc) category;
         tc_conversationScript := normalizedScript;
         tc_successCriteria := successCriteria;
         tc_priority := str_or (rtc_priority tc) "medium";
         tc_tags := match rtc_tags tc with Some l => l | None => [] end |}.

Definition categories : list string := ["happy-path"; "edge-case"; "adversarial"].

(** The body of [for (const category of categories)]. *)
Definition generateCategory (analysis : PromptAnalysis) (suiteId category : string)
  : M (state W) (list TestCase) :=
  generatedCases <- LLMClient.generateTestCases env analysis category 2 ;;
  mapM (transformTestCase suiteId category) generatedCases.

Definition generateTestSuite (agentId : string) : M (state W) TestSuite :=
  call (EvGetOrCreateAgent agentId) (getOrCreateAgent env agentId) ;;;
  existingSuite <- Models.TestSuiteModel_findLatest agentId ;;
  match existingSuite with
  | Some suite => ret suite
  | None =>
      agentConfig <- HighLevelClient.getAgent env agentId ;;
      if Nat.ltb (String.length (ac_systemPrompt agentConfig)) 20
      then throw (Error "Agent prompt must be at least 20 characters")
      else
        analysis <- LLMClient.analyzePrompt env (ac_systemPrompt agentConfig) ;;
        suiteId <- ask (uuidv4 env) ;;
        perCategory <- mapM (generateCategory analysis suiteId) categories ;;
        date <- ask (isoDate env) ;;
        Models.TestSuiteModel_create env
          {| ts_id := suiteId;
             ts_agentId := agentId;
             ts_name := "Test Suite - " ++ date;
             ts_description :=
               "Auto-generated test suite for agent. " ++ pa_summary analysis;
             ts_testCases := List.concat perCategory;
             ts_globalCriteria := [];
             ts_version := 1;
             ts_status := "active" |}
  end.

End Normalize.

(** *** Running the tests *)

(** [xs.reduce((sum, x) => sum + f(x), 0)] *)
Definition sum_of {A} (f : A -> JS.number) (xs : list A) : JS.number :=
  fold_left (fun sum x => JS.add sum (f x)) xs (JS.Fin 0).

Definition average_of {A} (f : A -> JS.number) (xs : list A) : JS.number :=
  JS.div (sum_of f xs) (JS.of_nat (List.length xs)).

Section Run.

Variable W : Type.
Variable env : Env W.

(** The body of [for (const testCase of testCases)]: the evaluation and
    the metrics pushed on the two arrays. *)
Definition runTestCase (agentId : string) (testCase : TestCase)
  : M (state W) (Evaluation * PerformanceMetrics) :=
  let userMessages :=
    map turn_content
      (filter (fun t => TurnRole_eqb (turn_role t) RoleUser)
         (tc_conversationScript testCase)) in
  conversation <- HighLevelClient.simulateConversation env agentId userMessages ;;
  let turns := fst conversation in
  result <- LLMClient.evaluateResponse env
              {| ep_name := tc_name testCase;
                 ep_description := tc_description testCase;
                 ep_conversationTurns := turns |} ;;
  let m := LLMClient.er_metrics result in
  ret ({| ev_testCaseId := tc_id testCase;
          ev_testCaseName := tc_name testCase;
          ev_passed := LLMClient.er_passed result;
          ev_criteriaResults :=
            [{| cres_criterionId := tc_id testCase;
                cres_passed := LLMClient.er_passed result;
                cres_score := LLMClient.er_score result;
                cres_reasoning := LLMClient.er_reasoning result |}];
          ev_overallScore := LLMClient.er_score result;
          ev_reasoning := LLMClient.er_reasoning result;
          ev_confidence := JS.Fin (85 # 100);
          ev_conversation := turns |},
       {| pm_relevance := relevance m;
          pm_accuracy := accuracy m;
          pm_completeness := completeness m;
          pm_helpfulness := helpfulness m;
          pm_overall := LLMClient.er_score result |}).

(** The aggregation that follows the loop of [executeTests]. *)
Definition aggregate (evaluations : list Evaluation)
    (allMetrics : list PerformanceMetrics) : BatchResults :=
  let passRate :=
    JS.div (JS.of_nat (List.length (filter ev_passed evaluations)))
           (JS.of_nat (List.length evaluations)) in
  let overallScore := average_of ev_overallScore evaluations in
  {| br_evaluations := evaluations;
     br_passRate := passRate;
     br_overallScore := overallScore;
     br_metrics :=
       {| pm_relevance := average_of pm_relevance allMetrics;
          pm_accuracy := average_of pm_accuracy allMetrics;
          pm_completeness := average_of pm_completeness allMetrics;
          pm_helpfulness := average_of pm_helpfulness allMetrics;
          pm_overall := overallScore |} |}.

Definition executeTests (agentId : string) (testCases : list TestCase)
  : M (state W) BatchResults :=
  results <- mapM (runTestCase agentId) testCases ;;
  ret (aggregate (map fst results) (map snd results)).

(** *** The optimisation loop *)

(** The variables of [optimize] that the loop assigns. *)
Record LoopVars : Type := {
  bestScore : JS.number;
  bestPrompt : string;
  currentPrompt : string;
  allChanges : list PromptChange;
  iteration : nat
}.

Section Loop.

Variable agentId : string.
Variable suite : TestSuite.
Variable initialResults : BatchResults.

(** [suite.testCases[i]?.name || 'Unknown'] *)
Definition testCaseNameAt (i : nat) : string :=
  str_or (option_map tc_name (nth_error (ts_testCases suite) i)) "Unknown".

Fixpoint insightEvaluations (i : nat) (evaluations : list Evaluation)
  : list InsightEvaluation :=
  match evaluations with
  | [] => []
  | e :: rest =>
      {| ie_testCaseId := ev_testCaseId e;
         ie_testCaseName := testCaseNameAt i;
         ie_passed := ev_passed e;
         ie_overallScore := ev_overallScore e;
         ie_reasoning := ev_reasoning e |}
      :: insightEvaluations (S i) rest
  end.

(** [while (iteration < maxIterations && bestScore < 1.0)], with
    [remaining] standing for [maxIterations - iteration].  A [break]
    returns the variables as they are. *)
Fixpoint optimize_loop (remaining : nat) (v : LoopVars)
  : M (state W) LoopVars :=
  match remaining with
  | O => ret v
  | S remaining' =>
      if negb (JS.lt (bestScore v) (JS.Fin 1)) then ret v
      else
        let iteration' := S (iteration v) in
        let failedTests :=
          filter (fun e => negb (ev_passed e)) (br_evaluations initialResults) in
        if Nat.eqb (List.length failedTests) 0
        then ret {| bestScore := bestScore v; bestPrompt := bestPrompt v;
                    currentPrompt := currentPrompt v;
                    allChanges := allChanges v; iteration := iteration' |}
        else
          insights <- LLMClient.generateInsights env
            {| ip_evaluations :=
                 insightEvaluations 0 (br_evaluations initialResults);
               ip_passRate := br_passRate initialResults;
               ip_overallScore := br_overallScore initialResults |} ;;
          optimization <- LLMClient.optimizePrompt env
            {| opp_currentPrompt := currentPrompt v;
               opp_failurePatterns := in_failurePatterns insights;
               opp_recommendations := in_recommendations insights |} ;;
          HighLevelClient.updateAgentPrompt env agentId
            (opt_optimizedPrompt optimization) ;;;
          let currentPrompt' := opt_optimizedPrompt optimization in
          let allChanges' := (allChanges v ++ opt_changes optimization)%list in
          newResults <- executeTests agentId (ts_testCases suite) ;;
          if JS.gt (br_overallScore newResults) (bestScore v)
          then
            let v' := {| bestScore := br_overallScore newResults;
                         bestPrompt := currentPrompt';
                         currentPrompt := currentPrompt';
                         allChanges := allChanges';
                         iteration := iteration' |} in
            if JS.ge (bestScore v') (JS.Fin 1) then ret v'
            else optimize_loop remaining' v'
          else
            ret {| bestScore := bestScore v;
                   bestPrompt := currentPrompt';
                   currentPrompt := currentPrompt';
                   allChanges := allChanges';
                   iteration := iteration' |}
  end.

End Loop.

Definition summary (r : BatchResults) : BatchSummary :=
  {| bs_passRate := br_passRate r; bs_evaluations := br_evaluations r |}.

Definition optimize (agentId suiteId : string) (maxIterations : nat)
  : M (state W) OptimizationResult :=
  found <- Models.TestSuiteModel_findById suiteId ;;
  match found with
  | None => throw (Error "Test suite not found")
  | Some suite =>
      agentConfig <- HighLevelClient.getAgent env agentId ;;
      let originalPrompt := ac_systemPrompt agentConfig in
      initialResults <- executeTests agentId (ts_testCases suite) ;;
      let initialScore := br_overallScore initialResults in
      if JS.ge initialScore (JS.Fin 1)
      then
        ret {| or_success := true;
               or_iterations := 0;
               or_initialScore := initialScore;
               or_finalScore := initialScore;
               or_originalPrompt := originalPrompt;
               or_optimizedPrompt := originalPrompt;
               or_changes := [];
               or_metrics := br_metrics initialResults;
               or_before := summary initialResults;
               or_after := summary initialResults |}
      else
        v <- optimize_loop agentId suite initialResults maxIterations
               {| bestScore := initialScore; bestPrompt := originalPrompt;
                  currentPrompt := originalPrompt; allChanges := [];
                  iteration := 0 |} ;;
        finalResults <- executeTests agentId (ts_testCases suite) ;;
        (if JS.gt (br_overallScore finalResults) initialScore
         then
           Models.OptimizedPromptModel_findOneAndUpdate
             {| op_agentId := agentId;
                op_originalPrompt := originalPrompt;
                op_optimizedPrompt := bestPrompt v;
                op_score := br_overallScore finalResults;
                op_iterations := iteration v |} ;;;
           ret tt
         else ret tt) ;;;
        ret {| or_success := JS.gt (br_overallScore finalResults) initialScore;
               or_iterations := iteration v;
               or_initialScore := initialScore;
               or_finalScore := br_overallScore finalResults;
               or_originalPrompt := originalPrompt;
               or_optimizedPrompt := bestPrompt v;
               or_changes := allChanges v;
               or_metrics := br_metrics finalResults;
               or_before := summary initialResults;
               or_after := summary finalResults |}
  end.

End Run.

End OptimizerService.

(** ** A scripted environment, for concrete runs *)

Module Demo.

(** The world is a counter: it numbers the ids handed out and the calls
    to the judge, whose replies are given by [judge]. *)
Definition scripted (judge : nat -> result Json.value)
    (chat : string -> result ChatResponse)
    (cases : string -> option (list RawTestCase)) : Env nat :=
  {| Number_toString := fun _ => "0";
     uuidv4 := fun w => (NilZero.string_of_uint (Nat.to_uint w), S w);
     newObjectId := fun w => (NilZero.string_of_uint (Nat.to_uint w), S w);
     isoDate := fun w => ("2024-01-01", w);
     getOrCreateAgent := fun _ w => (Ok tt, w);
     hl_getAgent := fun agentId w =>
       (Ok {| ac_agentId := agentId;
              ac_systemPrompt := "You are a customer service agent." |}, w);
     hl_updateAgentPrompt := fun _ _ w => (Ok tt, w);
     hl_chat := fun _ message _ w => (chat message, w);
     gen_analyzePrompt := fun _ w =>
       (Ok {| pa_intents := []; pa_constraints := []; pa_expectedBehaviors := [];
              pa_dataToCollect := []; pa_tone := "friendly";
              pa_summary := "Books dental appointments." |}, w);
     gen_generateTestCases := fun _ category _ w => (Ok (cases category), w);
     gen_evaluateResponse := fun _ w => (judge w, S w);
     gen_generateInsights := fun _ w =>
       (Ok {| in_failurePatterns := []; in_recommendations := [];
              in_prioritizedFixes := [] |}, w);
     gen_optimizePrompt := fun _ w =>
       (Ok {| opt_optimizedPrompt := "You are the agent of a dental clinic.";
              opt_changes := []; opt_explanation := "" |}, w) |}.

Definition reply (rel acc com hel : Q) : Json.value :=
  Json.VObj
    [("passed", Json.VBool false);
     ("score", Json.VNum (JS.Fin 0));
     ("reasoning", Json.VStr "judged");
     ("metrics",
      Json.VObj [("relevance", Json.VNum (JS.Fin rel));
                 ("accuracy", Json.VNum (JS.Fin acc));
                 ("completeness", Json.VNum (JS.Fin com));
                 ("helpfulness", Json.VNum (JS.Fin hel))])].

(** A reply in which the relevance is a word. *)
Definition vague_reply : Json.value :=
  Json.VObj
    [("passed", Json.VBool true);
     ("score", Json.VNum (JS.Fin (9 # 10)));
     ("reasoning", Json.VStr "judged");
     ("metrics",
      Json.VObj [("relevance", Json.VStr "high");
                 ("accuracy", Json.VNum (JS.Fin (9 # 10)));
                 ("completeness", Json.VNum (JS.Fin (9 # 10)));
                 ("helpfulness", Json.VNum (JS.Fin (9 # 10)))])].

Definition echo (message : string) : result ChatResponse :=
  Ok {| cr_message := "You said: " ++ message; cr_conversationId := "mock-conv-1" |}.

Definition empty_state (w : nat) : state nat :=
  {| world := w; trace := []; testSuites := []; optimizedPrompts := [];
     optimizationRecords := [] |}.

Definition testCase (name : string) : TestCase :=
  {| tc_id := name; tc_suiteId := "suite-1"; tc_name := name;
     tc_description := "books a cleaning"; tc_category := "happy-path";
     tc_conversationScript :=
       [{| turn_role := RoleUser; turn_content := "I need a cleaning" |};
        {| turn_role := RoleExpectedAgent; turn_content := "Which day?" |}];
     tc_successCriteria := [];
     tc_priority := "high"; tc_tags := [] |}.

Definition suite : TestSuite :=
  {| ts_id := "suite-1"; ts_agentId := "agent-1"; ts_name := "Test Suite";
     ts_description := ""; ts_testCases := [testCase "t1"; testCase "t2"];
     ts_globalCriteria := []; ts_version := 1; ts_status := "active" |}.

Definition rate_limited : error :=
  AxiosError (Some {| status := 429; retry_after := None |}).

(** A request that is answered 429 three times and would succeed the
    fourth time; the world counts the requests. *)
Definition rate_limited_thrice (w : nat) : result string * nat :=
  if Nat.ltb w 3 then (Throw rate_limited, S w) else (Ok "done", S w).

(** A request refused with 403, and one that fails twice without a
    response before it succeeds. *)
Definition forbidden (w : nat) : result string * nat :=
  (Throw (AxiosError (Some {| status := 403; retry_after := None |})), S w).

Definition flaky (w : nat) : result string * nat :=
  if Nat.ltb w 2 then (Throw (AxiosError None), S w) else (Ok "done", S w).

Definition record (id : string) (st : OptimizationStatus) : OptimizationRecord :=
  {| rec_id := id; rec_agentId := "agent-1"; rec_executionId := "exec-1";
     rec_status := st |}.

Definition audit_state : state nat :=
  {| world := 0; trace := []; testSuites := []; optimizedPrompts := [];
     optimizationRecords :=
       [record "r1" PENDING; record "r2" APPLIED; record "r3" VALIDATED] |}.

Definition by_id (id : string) (r : OptimizationRecord) : bool :=
  String.eqb (rec_id r) id.

(** A judge that gives every metric the mark 1; and one that gives 1/4
    at its first two calls (the initial batch of [suite]) and 1/2 after. *)
Definition perfect_judge (w : nat) : result Json.value := Ok (reply 1 1 1 1).

Definition improving_judge (w : nat) : result Json.value :=
  Ok (if Nat.ltb w 2
      then reply (1 # 4) (1 # 4) (1 # 4) (1 # 4)
      else reply (1 # 2) (1 # 2) (1 # 2) (1 # 2)).

(** A database that holds [suite] and a best prompt of score 0.9 for the
    agent. *)
Definition stored_state : state nat :=
  {| world := 0; trace := []; testSuites := [suite];
     optimizedPrompts :=
       [{| op_agentId := "agent-1";
           op_originalPrompt := "You are a customer service agent.";
           op_optimizedPrompt := "You are the agent of a clinic.";
           op_score := JS.Fin (9 # 10);
           op_iterations := 1 |}];
     optimizationRecords := [] |}.

(** A judge that passes the first test of a batch and fails the second. *)
Definition mixed_judge (w : nat) : result Json.value :=
  Ok (if Nat.even w then reply 1 (9 # 10) (8 # 10) 1
      else reply (1 # 2) (1 # 4) (1 # 4) (1 # 2)).

(** A judge that passes every test with the mark 0.8. *)
Definition lenient_judge (w : nat) : result Json.value :=
  Ok (reply (8 # 10) (8 # 10) (8 # 10) (8 # 10)).

(** The scripted environment with another prompt for the agent. *)
Definition with_prompt (prompt : string) (env : Env nat) : Env nat :=
  {| Number_toString := Number_toString env;
     uuidv4 := uuidv4 env;
     newObjectId := newObjectId env;
     isoDate := isoDate env;
     getOrCreateAgent := getOrCreateAgent env;
     hl_getAgent := fun agentId w =>
       (Ok {| ac_agentId := agentId; ac_systemPrompt := prompt |}, w);
     hl_updateAgentPrompt := hl_updateAgentPrompt env;
     hl_chat := hl_chat env;
     gen_analyzePrompt := gen_analyzePrompt env;
     gen_generateTestCases := gen_generateTestCases env;
     gen_evaluateResponse := gen_evaluateResponse env;
     gen_generateInsights := gen_generateInsights env;
     gen_optimizePrompt := gen_optimizePrompt env |}.

(** A generated case whose script has a turn given as text and a turn
    with its text under [content] beside another property. *)
Definition loose_case : RawTestCase :=
  {| rtc_name := Some "Booking"; rtc_description := None; rtc_category := None;
     rtc_conversationScript :=
       Some [Json.VStr "I need a cleaning";
             Json.VObj [("speaker", Json.VStr "bot");
                        ("text", Json.VStr "ignored");
                        ("content", Json.VStr "Which day?")];
             Json.VObj [("role", Json.VStr "user")]];
     rtc_conversation := None; rtc_script := None; rtc_successCriteria := None;
     rtc_priority := None; rtc_tags := None |}.

(** A generated case with three criteria, none of which has a weight. *)
Definition unweighted (name : string) : RawCriterion :=
  {| rc_name := Some name; rc_criterion := None; rc_description := None;
     rc_type := None; rc_evaluatorType := None; rc_weight := None;
     rc_required := None |}.

Definition unweighted_case : RawTestCase :=
  {| rtc_name := Some "Booking"; rtc_description := None; rtc_category := None;
     rtc_conversationScript := Some [Json.VStr "I need a cleaning"];
     rtc_conversation := None; rtc_script := None;
     rtc_successCriteria :=
       Some [unweighted "polite"; unweighted "accurate"; unweighted "brief"];
     rtc_priority := None; rtc_tags := None |}.

(** A mock client that has served agent-1 and holds a saved prompt for
    it, and suites of two agents. *)
Definition saved_prompt (agentId prompt : string) : OptimizedPrompt :=
  {| op_agentId := agentId; op_originalPrompt := MockClient.bad_prompt;
     op_optimizedPrompt := prompt; op_score := JS.Fin (9 # 10);
     op_iterations := 2 |}.

Definition suite_of (agentId : string) : TestSuite :=
  {| ts_id := "suite-of-" ++ agentId; ts_agentId := agentId; ts_name := "Suite";
     ts_description := ""; ts_testCases := []; ts_globalCriteria := [];
     ts_version := 1; ts_status := "active" |}.

Definition mock_state : MockClient.MockState :=
  {| MockClient.currentMockPrompt := "You are the assistant of a dental clinic.";
     MockClient.agentCache :=
       [("agent-1",
         {| MockClient.data :=
              {| ac_agentId := "agent-1";
                 ac_systemPrompt := "You are the assistant of a dental clinic." |};
            MockClient.timestamp := 1000 |})];
     MockClient.rateLimitedUntil := Some 61000%Z;
     MockClient.Date_now := 2500;
     MockClient.savedPrompts :=
       [saved_prompt "agent-2" "Prices: cleaning $99.";
        saved_prompt "agent-1" "You are the assistant of a dental clinic."];
     MockClient.suites := [suite_of "agent-1"; suite_of "agent-2"; suite_of "agent-1"] |}.

(** One generated case per category, named after it: two weighted
    criteria, and a script whose speaker labels need normalising. *)
Definition generated (category : string) : option (list RawTestCase) :=
  Some [{| rtc_name := Some category;
           rtc_description := Some "generated";
           rtc_category := None;
           rtc_conversationScript :=
             Some [Json.VObj [("role", Json.VStr "user");
                              ("content", Json.VStr "I need a cleaning")];
                   Json.VObj [("speaker", Json.VStr "bot");
                              ("text", Json.VStr "Which day suits you?")]];
           rtc_conversation := None;
           rtc_script := None;
           rtc_successCriteria :=
             Some [{| rc_name := Some "Offers a date"; rc_criterion := None;
                      rc_description := None; rc_type := None;
                      rc_evaluatorType := Some "LLM";
                      rc_weight := Some (Json.VNum (JS.Fin (6 # 10)));
                      rc_required := Some true |};
                   {| rc_name := Some "Is polite"; rc_criterion := None;
                      rc_description := None; rc_type := Some "tone";
                      rc_evaluatorType := Some "keyword";
                      rc_weight := Some (Json.VNum (JS.Fin (4 # 10)));
                      rc_required := None |}];
           rtc_priority := None;
           rtc_tags := None |}].

End Demo.

(** * Vocabulary of the statements *)

(** ** Numbers and metrics *)

(** A number is a probability when it is finite and between 0 and 1. *)
Definition unit_interval (n : JS.number) : Prop :=
  exists q : Q, n = JS.Fin q /\ (0 <= q <= 1)%Q.

(** The number the reply holds under a key, when it holds one. *)
Definition as_number (x : option Json.value) : option JS.number :=
  match x with
  | Some (Json.VNum n) => Some n
  | _ => None
  end.

(** The key is missing or holds a number. *)
Definition numeric (x : option Json.value) : Prop :=
  match x with
  | None | Some (Json.VNum _) => True
  | Some _ => False
  end.

(** A reply of the type [evaluateResponse] declares for it: an object
    whose [metrics], when present, is an object that gives each of the
    four sub-metrics as a number or not at all. *)
Definition well_typed_metrics (raw : Json.value) : Prop :=
  match raw with
  | Json.VObj _ =>
      numeric (Json.get raw "relevance") /\ numeric (Json.get raw "accuracy")
      /\ numeric (Json.get raw "completeness")
      /\ numeric (Json.get raw "helpfulness")
  | _ => False
  end.

Definition well_typed_reply (data : Json.value) : Prop :=
  match data with
  | Json.VObj _ =>
      match Json.get data "metrics" with
      | Some raw => well_typed_metrics raw
      | None => True
      end
  | _ => False
  end.

(** Every reply of the judge has the declared type. *)
Definition well_typed_judge {W : Type} (env : Env W) : Prop :=
  forall (params : EvaluateParams) (w w' : W) (data : Json.value),
    gen_evaluateResponse env params w = (Ok data, w') -> well_typed_reply data.

(** The metrics object of a reply: its [metrics], or the zeros. *)
Definition metrics_of (data : Json.value) : Json.value :=
  Json.or_value (Json.get data "metrics") LLMClient.no_metrics.

(** What "clamped, not rejected" says of one metric: the stored value is
    a probability, it is the bound on the side the parsed value left the
    range, and the parsed value itself inside the range. *)
Definition clamped (parsed : option JS.number) (stored : JS.number) : Prop :=
  unit_interval stored
  /\ forall q : Q, parsed = Some (JS.Fin q) ->
       ((q < 0)%Q -> stored = JS.Fin 0)
       /\ ((1 < q)%Q -> stored = JS.Fin 1)
       /\ ((0 <= q <= 1)%Q -> exists c : Q, stored = JS.Fin c /\ (c == q)%Q).

(** ** Effects of a computation *)

(** The three collections are the same in both states. *)
Definition same_collections {W : Type} (s s' : state W) : Prop :=
  testSuites s' = testSuites s
  /\ optimizedPrompts s' = optimizedPrompts s
  /\ optimizationRecords s' = optimizationRecords s.

Definition keeps_collections {W A : Type} (m : M (state W) A) : Prop :=
  forall s : state W, same_collections s (snd (m s)).

(** Every event the computation adds to the trace satisfies [P]. *)
Definition emits {W : Type} (P : event -> Prop) {A : Type} (m : M (state W) A) : Prop :=
  forall s : state W,
  exists added : list event,
    trace (snd (m s)) = (trace s ++ added)%list /\ Forall P added.

(** The computation returns, whatever the state. *)
Definition returns {W A : Type} (m : M (state W) A) : Prop :=
  forall s : state W, exists (a : A) (s' : state W), m s = (Ok a, s').

(** ** Transcripts and scripts *)

Definition is_user (m : ChatMessage) : bool :=
  match msg_role m with
  | ChatUser => true
  | ChatAssistant => false
  end.

(** The roles of a transcript of [n] exchanges. *)
Definition alternating (n : nat) : list ChatRole :=
  List.concat (repeat [ChatUser; ChatAssistant] n).



Definition is_null (v : Json.value) : bool :=
  match v with
  | Json.VNull => true
  | _ => false
  end.

(** The turn [normalizeTurn] returns for a turn that is not null. *)
Definition normalizedTurn {W : Type} (env : Env W) (turn : Json.value) : ConversationTurn :=
  {| turn_role := OptimizerService.normalizeRole env turn;
     turn_content :=
       OptimizerService.turnContent env turn
         (OptimizerService.normalizeRole env turn) |}.

(** ** Weights of persisted test cases *)







(** ** Attempts and waits of the resilient caller *)

Definition is_attempt (ev : event) : bool :=
  match ev with
  | EvAttempt _ => true
  | _ => false
  end.

(** Number of times the operation was called, in a trace. *)
Definition attempts (tr : list event) : nat :=
  List.length (filter is_attempt tr).

(** A wait of [n] seconds, in the milliseconds [setTimeout] takes. *)
Definition seconds (n : Z) : JS.number := JS.Fin (inject_Z (n * 1000)).

(** The three ways the [catch] block of [withRetry] treats an error. *)
Inductive failure_kind : Type :=
| Fatal
| RateLimited (response : option AxiosResponse)
| Retryable.

Definition classify (e : error) : failure_kind :=
  match e with
  | AxiosError response =>
      if LLMClient.is_fatal_status (option_map status response) then Fatal
      else if LLMClient.is_rate_limited (option_map status response)
           then RateLimited response
           else Retryable
  | _ => Retryable
  end.

(** A failure without a response (network error, timeout) or with a 5xx
    status. *)
Inductive server_or_network : error -> Prop :=
| network_failure : server_or_network (AxiosError None)
| server_failure (r : AxiosResponse) :
    (500 <= status r)%Z -> server_or_network (AxiosError (Some r)).

(** Every wait recorded in the trace is followed by another attempt. *)
Definition every_wait_retried (tr : list event) : Prop :=
  forall (before after : list event) (ms : JS.number),
    tr = (before ++ EvSleep ms :: after)%list ->
    exists (k : nat) (rest : list event), after = EvAttempt k :: rest.

(** ** Calls and records of the optimisation loop *)

Definition is_optimization_call (ev : event) : bool :=
  match ev with
  | EvGenerateInsights | EvOptimizePrompt _ | EvUpdateAgentPrompt _ _ => true
  | _ => false
  end.

(** The calls a batch run issues: chat turns and judge calls. *)
Definition is_batch_call (ev : event) : Prop :=
  match ev with
  | EvChat _ _ _ | EvEvaluateResponse _ => True
  | _ => False
  end.

(** The record [optimize] writes for a result. *)
Definition best_prompt (agentId : string) (result : OptimizationResult)
  : OptimizedPrompt :=
  {| op_agentId := agentId;
     op_originalPrompt := or_originalPrompt result;
     op_optimizedPrompt := or_optimizedPrompt result;
     op_score := or_finalScore result;
     op_iterations := or_iterations result |}.

(** The score persisted for the agent did not go down from [s] to [s']. *)
Definition score_not_decreased {W : Type} (agentId : string) (s s' : state W) : Prop :=
  forall before after : OptimizedPrompt,
    Models.OptimizedPromptModel_findOne agentId (optimizedPrompts s) = Some before ->
    Models.OptimizedPromptModel_findOne agentId (optimizedPrompts s') = Some after ->
    JS.le (op_score before) (op_score after) = true.

(** ** Outcomes, traces and batches *)

(** What a run from [s] satisfies: [Q] of the value and final state when
    it returns, [E] of the thrown value and final state when it throws. *)
Definition post {W A : Type} (m : M (state W) A) (s : state W)
    (Q : A -> state W -> Prop) (E : error -> state W -> Prop) : Prop :=
  match m s with
  | (Ok a, s') => Q a s'
  | (Throw e, s') => E e s'
  end.

(** The events of [s'] are those of [s] followed by [added]. *)
Definition extends_trace {W : Type} (s s' : state W) (added : list event) : Prop :=
  trace s' = (trace s ++ added)%list.

(** The messages sent to the agent, and the tests judged, in a trace. *)
Definition chatted (tr : list event) : list string :=
  flat_map (fun ev => match ev with
                      | EvChat _ message _ => [message]
                      | _ => []
                      end) tr.

Definition judged (tr : list event) : list string :=
  flat_map (fun ev => match ev with
                      | EvEvaluateResponse name => [name]
                      | _ => []
                      end) tr.

(** The prompts applied to the agent, in a trace. *)
Definition applied_prompts (tr : list event) : list string :=
  flat_map (fun ev => match ev with
                      | EvUpdateAgentPrompt _ prompt => [prompt]
                      | _ => []
                      end) tr.

Definition count_events (p : event -> bool) (tr : list event) : nat :=
  List.length (filter p tr).

Definition is_insights_call (ev : event) : bool :=
  match ev with EvGenerateInsights => true | _ => false end.

Definition is_optimize_call (ev : event) : bool :=
  match ev with EvOptimizePrompt _ => true | _ => false end.

Definition is_update_call (ev : event) : bool :=
  match ev with EvUpdateAgentPrompt _ _ => true | _ => false end.

Definition is_generation_call (ev : event) : bool :=
  match ev with
  | EvAnalyzePrompt | EvGenerateTestCases _ => true
  | _ => false
  end.

(** The user turns of a test case, which [executeTests] sends. *)
Definition user_messages (tc : TestCase) : list string :=
  map turn_content
    (filter (fun t => TurnRole_eqb (turn_role t) RoleUser)
       (tc_conversationScript tc)).

(** The metrics of a batch are probabilities. *)
Definition metrics_in_range (m : PerformanceMetrics) : Prop :=
  unit_interval (pm_relevance m) /\ unit_interval (pm_accuracy m)
  /\ unit_interval (pm_completeness m) /\ unit_interval (pm_helpfulness m)
  /\ unit_interval (pm_overall m).

(** The evaluation and metrics [runTestCase] pushes for a test case. *)
Definition evaluation_of (tc : TestCase) (p : Evaluation * PerformanceMetrics) : Prop :=
  let '(e, m) := p in
  ev_testCaseId e = tc_id tc
  /\ ev_testCaseName e = tc_name tc
  /\ (forall q : Q, ev_overallScore e = JS.Fin q ->
        (ev_passed e = true <-> (7 # 10 <= q)%Q))
  /\ ev_criteriaResults e
     = [{| cres_criterionId := tc_id tc; cres_passed := ev_passed e;
           cres_score := ev_overallScore e; cres_reasoning := ev_reasoning e |}]
  /\ List.length (ev_conversation e) = 2 * List.length (user_messages tc)
  /\ map msg_content (filter is_user (ev_conversation e)) = user_messages tc
  /\ pm_overall m = ev_overallScore e.

(** The score and the metrics of an evaluation are probabilities. *)
Definition evaluation_in_range (p : Evaluation * PerformanceMetrics) : Prop :=
  unit_interval (ev_overallScore (fst p)) /\ metrics_in_range (snd p).

(** ** Generated suites *)

(** The latest suite stored for an agent. *)
Definition latest_suite (agentId : string) (suites : list TestSuite)
  : option TestSuite :=
  find (fun d => String.eqb (ts_agentId d) agentId) (rev suites).

(** How [generateTestSuite] came by the suite it returns: it found it as
    the latest suite of the agent, or created and stored it. *)
Inductive suite_origin {W : Type} (agentId : string) (s s' : state W)
    (suite : TestSuite) : Prop :=
| suite_reused :
    latest_suite agentId (testSuites s) = Some suite ->
    testSuites s' = testSuites s ->
    suite_origin agentId s s' suite
| suite_created :
    latest_suite agentId (testSuites s) = None ->
    testSuites s' = (testSuites s ++ [suite])%list ->
    ts_agentId suite = agentId ->
    Models.TestSuite_valid suite = true ->
    suite_origin agentId s s' suite.

(** The structure the schema demands of a suite: at least one test case,
    names that differ, scripts that start with a user turn, at least one
    criterion per test case and weights between 0 and 1. *)
Definition well_formed_suite (suite : TestSuite) : Prop :=
  ts_testCases suite <> []
  /\ NoDup (map tc_name (ts_testCases suite))
  /\ forall tc : TestCase,
       In tc (ts_testCases suite) ->
       (exists first rest,
           tc_conversationScript tc = first :: rest /\ turn_role first = RoleUser)
       /\ tc_successCriteria tc <> []
       /\ (forall c, In c (tc_successCriteria tc) -> unit_interval (sc_weight c))
       /\ In (tc_category tc) TestCategory_values
       /\ In (tc_priority tc) Priority_values.

(** The criterion carries no numeric weight. *)
Definition weightless (sc : RawCriterion) : Prop :=
  match rc_weight sc with
  | Some (Json.VNum _) => False
  | _ => True
  end.

(** Every stored suite has the structure the schema demands. *)
Definition stored_well_formed {W : Type} (s : state W) : Prop :=
  forall suite : TestSuite, In suite (testSuites s) -> well_formed_suite suite.

(** What one run of the loop did: the calls it added, and the variables
    it ended with. *)
Definition loop_summary (v v' : OptimizerService.LoopVars) (remaining : nat)
    (added : list event) : Prop :=
  OptimizerService.iteration v <= OptimizerService.iteration v'
  /\ OptimizerService.iteration v' <= OptimizerService.iteration v + remaining
  /\ count_events is_insights_call added = count_events is_optimize_call added
  /\ count_events is_update_call added = count_events is_optimize_call added
  /\ count_events is_optimize_call added
     <= OptimizerService.iteration v' - OptimizerService.iteration v
  /\ OptimizerService.currentPrompt v'
     = last (applied_prompts added) (OptimizerService.currentPrompt v)
  /\ (OptimizerService.bestPrompt v = OptimizerService.currentPrompt v ->
      OptimizerService.bestPrompt v' = OptimizerService.currentPrompt v').

(** ** Runs of the resilient caller *)

(** The operation never fails with status 429. *)
Definition never_rate_limited {W T : Type} (operation : W -> result T * W)
  : Prop :=
  forall (w w' : W) (e : error) (response : option AxiosResponse),
    operation w = (Throw e, w') -> classify e <> RateLimited response.

(** Attempts [from], ..., [last - 1] each followed by a wait of 2^attempt
    seconds, then attempt [last]. *)
Definition backoff_schedule (from last : nat) : list event :=
  (flat_map (fun i => [EvAttempt i; EvSleep (seconds (2 ^ Z.of_nat i))])
     (seq from (last - from))
   ++ [EvAttempt last])%list.


(** ** Status changes of a record *)

(** A document read from the collection: a fresh object, on which no
    hook has run. *)
Definition loaded (st : OptimizationStatus) : RecordDocument.Document :=
  {| RecordDocument.doc_status := st; RecordDocument.savedStatus := st;
     RecordDocument.isNew := false;
     RecordDocument.isModified_status := false;
     RecordDocument._previousStatus := None |}.

(** The statuses assigned and saved one after the other on one object:
    the statuses whose save went through, and the object at the end. *)
Fixpoint status_changes (sts : list OptimizationStatus)
    (this : RecordDocument.Document)
  : list OptimizationStatus * RecordDocument.Document :=
  match sts with
  | [] => ([], this)
  | st :: rest =>
      match RecordDocument.save (RecordDocument.set_status st this) with
      | (Ok _, after) =>
          let '(accepted, final) := status_changes rest after in
          (st :: accepted, final)
      | (Throw _, after) => status_changes rest after
      end
  end.

(** Each status is the one before, saved again, or is reached from it by
    a transition of the table. *)
Fixpoint follows_table (from : OptimizationStatus)
    (path : list OptimizationStatus) : Prop :=
  match path with
  | [] => True
  | st :: rest =>
      (st = from \/ In st (RecordDocument.validTransitions from))
      /\ follows_table st rest
  end.

(** How many times the status changes along the path. *)
Fixpoint changes (from : OptimizationStatus) (path : list OptimizationStatus)
  : nat :=
  match path with
  | [] => 0
  | st :: rest =>
      (if OptimizationStatus_eqb st from then 0 else 1) + changes st rest
  end.

(** The longest path of the table from a status. *)
Definition changes_left (from : OptimizationStatus) : nat :=
  match from with
  | PENDING => 2
  | APPLIED => 1
  | VALIDATED | ROLLED_BACK => 0
  end.

(** ** The mock client *)

(** The state when the clock reads [t]. *)
Definition at_time (t : Z) (st : MockClient.MockState) : MockClient.MockState :=
  {| MockClient.currentMockPrompt := MockClient.currentMockPrompt st;
     MockClient.agentCache := MockClient.agentCache st;
     MockClient.rateLimitedUntil := MockClient.rateLimitedUntil st;
     MockClient.Date_now := t;
     MockClient.savedPrompts := MockClient.savedPrompts st;
     MockClient.suites := MockClient.suites st |}.

(** The prompt the mock client gives an agent that is not cached: the
    optimised prompt saved for it, or the bad prompt. *)
Definition stored_prompt (agentId : string) (st : MockClient.MockState) : string :=
  match Models.OptimizedPromptModel_findOne agentId (MockClient.savedPrompts st) with
  | Some saved => op_optimizedPrompt saved
  | None => MockClient.bad_prompt
  end.

(** * Properties *)

(** ** Numbers *)

Lemma Qlt_bool_iff (p q : Q) : JS.Qlt_bool p q = true <-> (p < q)%Q.
Proof.
  unfold JS.Qlt_bool. rewrite negb_true_iff.
  split; intro H.
  - apply Qnot_le_lt. intro L. apply Qle_bool_iff in L. congruence.
  - destruct (Qle_bool q p) eqn:E; [|reflexivity].
    apply Qle_bool_iff in E. exfalso. apply (Qlt_not_le _ _ H E).
Qed.

Lemma Qle_bool_false (p q : Q) : Qle_bool p q = false -> (q < p)%Q.
Proof.
  intro H. apply Qnot_le_lt. intro L. apply Qle_bool_iff in L. congruence.
Qed.

Lemma clamp_finite (q : Q) :
  exists c : Q,
    JS.Math_max (JS.Fin 0) (JS.Math_min (JS.Fin 1) (JS.Fin q)) = JS.Fin c
    /\ (0 <= c <= 1)%Q
    /\ ((q < 0)%Q -> c = 0%Q)
    /\ ((1 < q)%Q -> c = 1%Q)
    /\ ((0 <= q <= 1)%Q -> (c == q)%Q).
Proof.
  unfold JS.Math_max, JS.Math_min; simpl.
  destruct (Qle_bool 1 q) eqn:H1; simpl.
  - exists 1%Q. apply Qle_bool_iff in H1.
    repeat split; try lra; intros; lra.
  - apply Qle_bool_false in H1.
    destruct (Qle_bool 0 q) eqn:H0.
    + exists q. apply Qle_bool_iff in H0. repeat split; try lra; intros; lra.
    + exists 0%Q. apply Qle_bool_false in H0. repeat split; try lra; intros; lra.
Qed.

Lemma or_default_finite (q : Q) :
  JS.or_default (Some (JS.Fin q)) (JS.Fin 0) = JS.Fin q
  \/ (q == 0)%Q /\ JS.or_default (Some (JS.Fin q)) (JS.Fin 0) = JS.Fin 0.
Proof.
  unfold JS.or_default, JS.truthy.
  destruct (Qeq_bool q 0) eqn:E; [right|left; reflexivity].
  split; [apply Qeq_bool_iff; exact E|reflexivity].
Qed.

Lemma clamp_number (n : JS.number) :
  (n = JS.NaN /\ JS.Math_max (JS.Fin 0) (JS.Math_min (JS.Fin 1) n) = JS.NaN)
  \/ unit_interval (JS.Math_max (JS.Fin 0) (JS.Math_min (JS.Fin 1) n)).
Proof.
  destruct n as [| |q|].
  - left. split; reflexivity.
  - right. exists 0%Q. split; [reflexivity|lra].
  - right. destruct (clamp_finite q) as (c & E & R & _). exists c.
    split; assumption.
  - right. exists 1%Q. split; [reflexivity|lra].
Qed.

Section Clamp.

Variable W : Type.
Variable env : Env W.

(** On a number or a missing key the clamp is the one on numbers. *)
Lemma clamp01_numeric (x : option Json.value) :
  numeric x ->
  LLMClient.clamp01 env x
  = JS.Math_max (JS.Fin 0)
      (JS.Math_min (JS.Fin 1) (JS.or_default (as_number x) (JS.Fin 0))).
Proof.
  unfold LLMClient.clamp01, Json.or_value.
  destruct x as [[| |n| | |]|]; cbn; try contradiction; intros _; [|reflexivity].
  unfold JS.or_default. destruct (JS.truthy n); reflexivity.
Qed.

(** The clamp of the judge: when the reply holds a number under a metric
    (in or out of range, an infinity, NaN) or nothing, the stored value is
    a probability. *)
Lemma clamp01_range (x : option Json.value) :
  numeric x -> unit_interval (LLMClient.clamp01 env x).
Proof.
  intro Hx. rewrite (clamp01_numeric x Hx). unfold unit_interval.
  assert (Hz : exists q : Q,
             JS.Math_max (JS.Fin 0) (JS.Math_min (JS.Fin 1) (JS.Fin 0)) = JS.Fin q
             /\ (0 <= q <= 1)%Q).
  { destruct (clamp_finite 0) as (c & E & R & _). exists c. split; assumption. }
  destruct (as_number x) as [[| |q|]|]; try exact Hz.
  - destruct (or_default_finite q) as [E|[_ E]]; rewrite E; [|exact Hz].
    destruct (clamp_finite q) as (c & Ec & R & _). exists c. split; assumption.
  - exists 1%Q. split; [reflexivity|lra].
Qed.

Lemma clamp01_in_range (q : Q) :
  (0 <= q <= 1)%Q ->
  exists c : Q,
    LLMClient.clamp01 env (Some (Json.VNum (JS.Fin q))) = JS.Fin c /\ (c == q)%Q.
Proof.
  intros Hq. rewrite clamp01_numeric by exact I. cbn [as_number].
  destruct (or_default_finite q) as [E|[Z E]]; rewrite E.
  - destruct (clamp_finite q) as (c & Ec & _ & _ & _ & Hc).
    exists c. split; [exact Ec|]. apply Hc. exact Hq.
  - destruct (clamp_finite 0) as (c & Ec & _ & _ & _ & Hc).
    exists c. split; [exact Ec|]. rewrite Z. apply Hc. lra.
Qed.

Lemma clamp01_above (q : Q) :
  (1 < q)%Q -> LLMClient.clamp01 env (Some (Json.VNum (JS.Fin q))) = JS.Fin 1.
Proof.
  intros Hq. rewrite clamp01_numeric by exact I. cbn [as_number].
  destruct (or_default_finite q) as [E|[Z E]]; [rewrite E|lra].
  destruct (clamp_finite q) as (c & Ec & _ & _ & Hc & _).
  rewrite Ec, (Hc Hq). reflexivity.
Qed.

Lemma clamp01_below (q : Q) :
  (q < 0)%Q -> LLMClient.clamp01 env (Some (Json.VNum (JS.Fin q))) = JS.Fin 0.
Proof.
  intros Hq. rewrite clamp01_numeric by exact I. cbn [as_number].
  destruct (or_default_finite q) as [E|[Z E]]; [rewrite E|lra].
  destruct (clamp_finite q) as (c & Ec & _ & Hc & _ & _).
  rewrite Ec, (Hc Hq). reflexivity.
Qed.

(** Whatever the reply holds under a metric, the stored value is a
    probability or is not a number. *)
Lemma clamp01_cases (x : option Json.value) :
  LLMClient.clamp01 env x = JS.NaN \/ unit_interval (LLMClient.clamp01 env x).
Proof.
  unfold LLMClient.clamp01.
  destruct (clamp_number (ToNumber (Number_toString env)
                            (Json.or_value x (Json.VNum (JS.Fin 0)))))
    as [[_ E]|H]; [left; exact E|right; exact H].
Qed.

End Clamp.

(** ** Effects: what a computation leaves alone *)

Section Frames.

Variable W : Type.

Lemma same_collections_refl (s : state W) : same_collections s s.
Proof. repeat split. Qed.

Lemma same_collections_trans (s1 s2 s3 : state W) :
  same_collections s1 s2 -> same_collections s2 s3 -> same_collections s1 s3.
Proof.
  intros (A1 & B1 & C1) (A2 & B2 & C2). repeat split; congruence.
Qed.

Lemma keeps_ret {A} (a : A) : keeps_collections (ret a : M (state W) A).
Proof. intro s. apply same_collections_refl. Qed.

Lemma keeps_throw {A} (e : error) : keeps_collections (throw e : M (state W) A).
Proof. intro s. apply same_collections_refl. Qed.

Lemma keeps_bind {A B} (m : M (state W) A) (k : A -> M (state W) B) :
  keeps_collections m -> (forall a, keeps_collections (k a)) ->
  keeps_collections (bind m k).
Proof.
  intros Hm Hk s. unfold bind. specialize (Hm s).
  destruct (m s) as [[a|e] s1]; cbn [snd] in *.
  - apply (same_collections_trans Hm). apply Hk.
  - exact Hm.
Qed.

Lemma keeps_try_catch {A} (m : M (state W) A) (h : error -> M (state W) A) :
  keeps_collections m -> (forall e, keeps_collections (h e)) ->
  keeps_collections (try_catch m h).
Proof.
  intros Hm Hh s. unfold try_catch. specialize (Hm s).
  destruct (m s) as [[a|e] s1]; cbn [snd] in *.
  - exact Hm.
  - apply (same_collections_trans Hm). apply Hh.
Qed.

Lemma keeps_log (ev : event) : keeps_collections (log ev : M (state W) unit).
Proof. intro s. repeat split. Qed.

Lemma keeps_call {A} (ev : event) (f : W -> result A * W) :
  keeps_collections (call ev f).
Proof.
  intro s. unfold call. destruct (f (world s)) as [r w]. repeat split.
Qed.

Lemma keeps_ask {A} (f : W -> A * W) : keeps_collections (ask f).
Proof.
  intro s. unfold ask. destruct (f (world s)) as [a w]. repeat split.
Qed.

Lemma keeps_mapM {A B} (f : A -> M (state W) B) (l : list A) :
  (forall a, keeps_collections (f a)) -> keeps_collections (mapM f l).
Proof.
  intro Hf. induction l as [|x rest IH]; cbn [mapM].
  - apply keeps_ret.
  - apply keeps_bind; [apply Hf|]. intro y.
    apply keeps_bind; [exact IH|]. intro ys. apply keeps_ret.
Qed.

Lemma emits_nothing {A} (P : event -> Prop) (m : M (state W) A) :
  (forall s, trace (snd (m s)) = trace s) -> emits P m.
Proof.
  intros H s. exists []. rewrite app_nil_r. split; [apply H|constructor].
Qed.

Lemma emits_ret {A} (P : event -> Prop) (a : A) :
  emits P (ret a : M (state W) A).
Proof. apply emits_nothing. reflexivity. Qed.

Lemma emits_throw {A} (P : event -> Prop) (e : error) :
  emits P (throw e : M (state W) A).
Proof. apply emits_nothing. reflexivity. Qed.

Lemma emits_bind {A B} (P : event -> Prop) (m : M (state W) A)
    (k : A -> M (state W) B) :
  emits P m -> (forall a, emits P (k a)) -> emits P (bind m k).
Proof.
  intros Hm Hk s. unfold bind. destruct (Hm s) as (l1 & E1 & F1).
  destruct (m s) as [[a|e] s1]; cbn [snd] in *.
  - destruct (Hk a s1) as (l2 & E2 & F2).
    exists (l1 ++ l2)%list. rewrite E2, E1, app_assoc.
    split; [reflexivity|apply Forall_app; split; assumption].
  - exists l1. split; assumption.
Qed.

Lemma emits_call {A} (P : event -> Prop) (ev : event) (f : W -> result A * W) :
  P ev -> emits P (call ev f).
Proof.
  intros H s. unfold call. destruct (f (world s)) as [r w].
  exists [ev]. split; [reflexivity|repeat constructor; exact H].
Qed.

Lemma emits_ask {A} (P : event -> Prop) (f : W -> A * W) : emits P (ask f).
Proof.
  apply emits_nothing. intro s. unfold ask.
  destruct (f (world s)) as [a w]. reflexivity.
Qed.

Lemma emits_mapM {A B} (P : event -> Prop) (f : A -> M (state W) B)
    (l : list A) :
  (forall a, emits P (f a)) -> emits P (mapM f l).
Proof.
  intro Hf. induction l as [|x rest IH]; cbn [mapM].
  - apply emits_ret.
  - apply emits_bind; [apply Hf|]. intro y.
    apply emits_bind; [exact IH|]. intro ys. apply emits_ret.
Qed.

Lemma returns_ret {A} (a : A) : returns (ret a : M (state W) A).
Proof. intro s. exists a, s. reflexivity. Qed.

Lemma returns_bind {A B} (m : M (state W) A) (k : A -> M (state W) B) :
  returns m -> (forall a, returns (k a)) -> returns (bind m k).
Proof.
  intros Hm Hk s. unfold bind. destruct (Hm s) as (a & s1 & ->). apply Hk.
Qed.

Lemma returns_ask {A} (f : W -> A * W) : returns (ask f).
Proof.
  intro s. unfold ask. destruct (f (world s)) as [a w]. eexists _, _. reflexivity.
Qed.

Lemma returns_mapM {A B} (f : A -> M (state W) B) (l : list A) :
  (forall a, returns (f a)) -> returns (mapM f l).
Proof.
  intro Hf. induction l as [|x rest IH]; cbn [mapM].
  - apply returns_ret.
  - apply returns_bind; [apply Hf|]. intro y.
    apply returns_bind; [exact IH|]. intro ys. apply returns_ret.
Qed.

Lemma mapM_length {A B} (f : A -> M (state W) B) (l : list A) :
  forall (s s' : state W) (ys : list B),
    mapM f l s = (Ok ys, s') -> List.length ys = List.length l.
Proof.
  induction l as [|x rest IH]; cbn [mapM]; intros s s' ys H.
  - inversion H. reflexivity.
  - unfold bind in H at 1. destruct (f x s) as [[y|e] s1]; [|discriminate].
    unfold bind in H at 1.
    destruct (mapM f rest s1) as [[ys1|e] s2] eqn:E; [|discriminate].
    inversion H; subst. cbn. f_equal. exact (IH _ _ _ E).
Qed.

End Frames.

Create HintDb frames.
#[local] Hint Resolve keeps_ret keeps_throw keeps_bind keeps_try_catch keeps_log
  keeps_call keeps_ask keeps_mapM : frames.
#[local] Hint Resolve emits_ret emits_throw emits_bind emits_call emits_ask
  emits_mapM : frames.
#[local] Hint Resolve returns_ret returns_bind returns_ask returns_mapM : frames.

(** ** The judge *)

(** The mean of four stored metrics, its clamp and the pass flag: all
    four are probabilities and so is the score, or one is not a number
    and neither is the score. *)
Lemma mean_cases (a b c d : JS.number) :
  a = JS.NaN \/ unit_interval a -> b = JS.NaN \/ unit_interval b ->
  c = JS.NaN \/ unit_interval c -> d = JS.NaN \/ unit_interval d ->
  let overall := JS.div (JS.add (JS.add (JS.add a b) c) d) (JS.Fin 4) in
  let score := JS.Math_max (JS.Fin 0) (JS.Math_min (JS.Fin 1) overall) in
  (exists rel acc com hel sc : Q,
      a = JS.Fin rel /\ b = JS.Fin acc /\ c = JS.Fin com /\ d = JS.Fin hel
      /\ score = JS.Fin sc
      /\ (sc == (rel + acc + com + hel) / 4)%Q
      /\ (0 <= sc <= 1)%Q
      /\ (JS.ge overall (JS.Fin (7 # 10)) = true <-> (7 # 10 <= sc)%Q))
  \/ ((a = JS.NaN \/ b = JS.NaN \/ c = JS.NaN \/ d = JS.NaN)
      /\ score = JS.NaN
      /\ JS.ge overall (JS.Fin (7 # 10)) = false).
Proof.
  intros [->|(rel & -> & Ra)]; [intros; right; split; [auto|split; reflexivity]|].
  intros [->|(acc & -> & Rb)]; [intros; right; split; [auto|split; reflexivity]|].
  intros [->|(com & -> & Rc)]; [intros; right; split; [auto|split; reflexivity]|].
  intros [->|(hel & -> & Rd)]; [intros; right; split; [auto|split; reflexivity]|].
  intros overall score. left.
  assert (Ho : (0 <= (rel + acc + com + hel) / 4 <= 1)%Q).
  { split.
    - apply Qle_shift_div_l; lra.
    - apply Qle_shift_div_r; lra. }
  destruct (clamp_finite ((rel + acc + com + hel) / 4)) as (sc & Es & Rs & _ & _ & Hs).
  specialize (Hs Ho).
  exists rel, acc, com, hel, sc.
  subst overall score.
  change (JS.div (JS.add (JS.add (JS.add (JS.Fin rel) (JS.Fin acc)) (JS.Fin com))
                    (JS.Fin hel)) (JS.Fin 4))
    with (JS.Fin ((rel + acc + com + hel) / 4)).
  repeat split; try assumption; try tauto.
  - intro P. unfold JS.ge, JS.le in P. apply Qle_bool_iff in P. rewrite Hs. exact P.
  - intro P. unfold JS.ge, JS.le. apply Qle_bool_iff. rewrite <- Hs. exact P.
Qed.

Section Judge.

Variable W : Type.
Variable env : Env W.

Lemma clamp01_clamped (x : option Json.value) :
  numeric x -> clamped (as_number x) (LLMClient.clamp01 env x).
Proof.
  intro Hx. split; [apply clamp01_range; exact Hx|].
  intros q Hq.
  assert (x = Some (Json.VNum (JS.Fin q))) as ->.
  { destruct x as [[| |n| | |]|]; try discriminate Hq.
    injection Hq as ->. reflexivity. }
  repeat split.
  - apply clamp01_below.
  - apply clamp01_above.
  - apply clamp01_in_range.
Qed.

(** The result of [score_reply], in terms of the metrics object. *)
Lemma score_reply_shape (data : Json.value) (r : LLMClient.EvaluateResult) :
  LLMClient.score_reply env data = Ok r ->
  let raw := metrics_of data in
  let m := LLMClient.er_metrics r in
  let overall :=
    JS.div (JS.add (JS.add (JS.add (relevance m) (accuracy m)) (completeness m))
              (helpfulness m)) (JS.Fin 4) in
  relevance m = LLMClient.clamp01 env (Json.get raw "relevance")
  /\ accuracy m = LLMClient.clamp01 env (Json.get raw "accuracy")
  /\ completeness m = LLMClient.clamp01 env (Json.get raw "completeness")
  /\ helpfulness m = LLMClient.clamp01 env (Json.get raw "helpfulness")
  /\ LLMClient.er_score r
     = JS.Math_max (JS.Fin 0) (JS.Math_min (JS.Fin 1) overall)
  /\ LLMClient.er_passed r = JS.ge overall (JS.Fin (7 # 10)).
Proof.
  unfold LLMClient.score_reply, metrics_of.
  destruct data; try discriminate;
    (destruct (Json.or_value _ LLMClient.no_metrics); try discriminate;
     intro H; injection H as <-; cbn; repeat split; reflexivity).
Qed.

(** Whatever the reply, a result has a score that is a probability and
    decides the pass flag, or a score that is not a number and a pass
    flag that is false. *)
Lemma score_reply_cases (data : Json.value) (r : LLMClient.EvaluateResult) :
  LLMClient.score_reply env data = Ok r ->
  let m := LLMClient.er_metrics r in
  (exists rel acc com hel sc : Q,
      relevance m = JS.Fin rel /\ accuracy m = JS.Fin acc
      /\ completeness m = JS.Fin com /\ helpfulness m = JS.Fin hel
      /\ LLMClient.er_score r = JS.Fin sc
      /\ (sc == (rel + acc + com + hel) / 4)%Q
      /\ (0 <= sc <= 1)%Q
      /\ (LLMClient.er_passed r = true <-> (7 # 10 <= sc)%Q))
  \/ ((relevance m = JS.NaN \/ accuracy m = JS.NaN
       \/ completeness m = JS.NaN \/ helpfulness m = JS.NaN)
      /\ LLMClient.er_score r = JS.NaN
      /\ LLMClient.er_passed r = false).
Proof.
  intros H m.
  destruct (score_reply_shape data H) as (Er & Ea & Ec & Eh & Es & Ep).
  fold m in Er, Ea, Ec, Eh, Es, Ep. rewrite Es, Ep.
  apply mean_cases.
  - rewrite Er. apply clamp01_cases.
  - rewrite Ea. apply clamp01_cases.
  - rewrite Ec. apply clamp01_cases.
  - rewrite Eh. apply clamp01_cases.
Qed.

Lemma score_reply_passed (data : Json.value) (r : LLMClient.EvaluateResult) :
  LLMClient.score_reply env data = Ok r ->
  forall q : Q,
    LLMClient.er_score r = JS.Fin q ->
    (LLMClient.er_passed r = true <-> (7 # 10 <= q)%Q).
Proof.
  intros H q Hq.
  destruct (score_reply_cases data H)
    as [(rel & acc & com & hel & sc & _ & _ & _ & _ & Es & _ & _ & Hp)|(_ & Es & _)].
  - rewrite Es in Hq. injection Hq as <-. exact Hp.
  - rewrite Es in Hq. discriminate.
Qed.

Lemma metrics_of_typed (data : Json.value) :
  well_typed_reply data -> well_typed_metrics (metrics_of data).
Proof.
  unfold well_typed_reply, metrics_of.
  destruct data as [| | | | |fields]; try contradiction.
  destruct (Json.get (Json.VObj fields) "metrics") as [raw|]; cbn.
  - destruct raw; try contradiction. intro H. exact H.
  - intros _. cbn. repeat split.
Qed.

(** A reply of the declared type gets a result whose metrics are the
    parsed ones, clamped. *)
Lemma score_reply_typed (data : Json.value) :
  well_typed_reply data ->
  exists r : LLMClient.EvaluateResult,
    LLMClient.score_reply env data = Ok r
    /\ (let raw := metrics_of data in
        clamped (as_number (Json.get raw "relevance"))
          (relevance (LLMClient.er_metrics r))
        /\ clamped (as_number (Json.get raw "accuracy"))
             (accuracy (LLMClient.er_metrics r))
        /\ clamped (as_number (Json.get raw "completeness"))
             (completeness (LLMClient.er_metrics r))
        /\ clamped (as_number (Json.get raw "helpfulness"))
             (helpfulness (LLMClient.er_metrics r))).
Proof.
  intro Ht. pose proof (metrics_of_typed data Ht) as Hm.
  assert (Hr : exists r, LLMClient.score_reply env data = Ok r).
  { unfold LLMClient.score_reply. fold (metrics_of data).
    destruct data; try contradiction.
    destruct (metrics_of _); try contradiction. eexists. reflexivity. }
  destruct Hr as (r & Hr). exists r. split; [exact Hr|].
  destruct (score_reply_shape data Hr) as (Er & Ea & Ec & Eh & _).
  cbn zeta. rewrite Er, Ea, Ec, Eh.
  unfold well_typed_metrics in Hm.
  destruct (metrics_of data); try contradiction.
  destruct Hm as (H1 & H2 & H3 & H4).
  split; [|split; [|split]]; apply clamp01_clamped; assumption.
Qed.


End Judge.




(** A reply that is [null], and one whose [metrics] is a text, make
    [evaluateResponse] throw. *)
Example evaluateResponse_throws :
  (exists (e : error) (s' : state nat),
      LLMClient.evaluateResponse
        (Demo.scripted (fun _ => Ok Json.VNull) Demo.echo (fun _ => None))
        {| ep_name := "t1"; ep_description := ""; ep_conversationTurns := [] |}
        (Demo.empty_state 0) = (Throw e, s'))
  /\ (exists (e : error) (s' : state nat),
         LLMClient.evaluateResponse
           (Demo.scripted
              (fun _ => Ok (Json.VObj [("metrics", Json.VStr "good")]))
              Demo.echo (fun _ => None))
           {| ep_name := "t1"; ep_description := ""; ep_conversationTurns := [] |}
           (Demo.empty_state 0) = (Throw e, s')).
Proof. split; eexists; eexists; vm_compute; reflexivity. Qed.

(** ** The conversation simulator *)

Section Simulator.

Variable W : Type.
Variable env : Env W.
Variable agentId : string.

Lemma simulate_loop_spec (messages : list string) :
  forall (turns0 : list ChatMessage) (cid0 : option string) (s : state W),
    match HighLevelClient.simulate_loop env agentId messages turns0 cid0 s with
    | (Ok (turns, _), _) =>
        exists added : list ChatMessage,
          turns = (turns0 ++ added)%list
          /\ List.length added = 2 * List.length messages
          /\ map msg_role added = alternating (List.length messages)
          /\ map msg_content (filter is_user added) = messages
    | (Throw e, _) =>
        exists (message : string) (cid : option string) (w w' : W),
          In message messages
          /\ hl_chat env agentId message cid w = (Throw e, w')
    end.
Proof.
  induction messages as [|message rest IH]; intros turns0 cid0 s.
  - cbn. exists []. rewrite app_nil_r. repeat split.
  - cbn [HighLevelClient.simulate_loop].
    unfold bind at 1. unfold HighLevelClient.chat at 1. unfold call at 1.
    destruct (hl_chat env agentId message cid0 (world s)) as [[response|e] w'] eqn:Hchat.
    + match goal with
      | |- context [HighLevelClient.simulate_loop env agentId rest ?t ?c ?st] =>
          specialize (IH t c st);
          destruct (HighLevelClient.simulate_loop env agentId rest t c st)
            as [[[turns cid]|e] s']
      end.
      * destruct IH as (added & -> & Hlen & Hroles & Hcontents).
        exists ({| msg_role := ChatUser; msg_content := message |}
                :: {| msg_role := ChatAssistant; msg_content := cr_message response |}
                :: added).
        repeat split.
        -- rewrite <- !app_assoc. reflexivity.
        -- cbn [List.length]. rewrite Hlen. lia.
        -- cbn. rewrite Hroles. reflexivity.
        -- cbn. rewrite Hcontents. reflexivity.
      * destruct IH as (m & c & w1 & w2 & Hin & Hthrow).
        exists m, c, w1, w2. split; [right; exact Hin|exact Hthrow].
    + exists message, cid0, (world s), w'. split; [left; reflexivity|exact Hchat].
Qed.

End Simulator.

(** C10.  For every agent and every list of N scripted user messages,
    [simulateConversation] returns a transcript unless a chat call threw;
    the transcript has exactly 2N turns, its roles are user, assistant,
    user, assistant, ..., and the contents of its user turns are the
    input messages in their order. *)
Theorem simulateConversation_transcript :
  forall (W : Type) (env : Env W) (agentId : string) (messages : list string)
         (s : state W),
    match HighLevelClient.simulateConversation env agentId messages s with
    | (Ok (turns, _), _) =>
        List.length turns = 2 * List.length messages
        /\ map msg_role turns = alternating (List.length messages)
        /\ map msg_content (filter is_user turns) = messages
    | (Throw e, _) =>
        exists (message : string) (cid : option string) (w w' : W),
          In message messages
          /\ hl_chat env agentId message cid w = (Throw e, w')
    end.
Proof.
  intros W env agentId messages s.
  unfold HighLevelClient.simulateConversation.
  pose proof (simulate_loop_spec env agentId messages [] None s) as H.
  destruct (HighLevelClient.simulate_loop env agentId messages [] None s)
    as [[[turns cid]|e] s'].
  - destruct H as (added & -> & Hlen & Hroles & Hcontents).
    cbn [app]. auto.
  - exact H.
Qed.

(** A run of three messages against the scripted agent. *)
Example simulateConversation_run :
  fst (HighLevelClient.simulateConversation
         (Demo.scripted (fun _ => Throw ThrownNull) Demo.echo (fun _ => None))
         "agent-1" ["hi"; "book"; "bye"] (Demo.empty_state 0))
  = Ok ([{| msg_role := ChatUser; msg_content := "hi" |};
         {| msg_role := ChatAssistant; msg_content := "You said: hi" |};
         {| msg_role := ChatUser; msg_content := "book" |};
         {| msg_role := ChatAssistant; msg_content := "You said: book" |};
         {| msg_role := ChatUser; msg_content := "bye" |};
         {| msg_role := ChatAssistant; msg_content := "You said: bye" |}],
        Some "mock-conv-1").
Proof. reflexivity. Qed.

(** ** Normalisation of the turns *)

Section Turns.

Variable W : Type.
Variable env : Env W.






Lemma includes_In (values : list string) (s : string) :
  includes values s = true <-> In s values.
Proof.
  unfold includes. rewrite existsb_exists. split.
  - intros (x & Hin & Heq). apply String.eqb_eq in Heq. subst. exact Hin.
  - intro Hin. exists s. split; [exact Hin|apply String.eqb_refl].
Qed.

End Turns.



(** ** Normalisation of the script *)

Section Script.

Variable W : Type.
Variable env : Env W.

Lemma normalizeTurn_not_null (turn : Json.value) (s : state W) :
  is_null turn = false ->
  OptimizerService.normalizeTurn env turn s = (Ok (normalizedTurn env turn), s).
Proof. destruct turn; (discriminate || reflexivity). Qed.

Lemma mapM_normalizeTurn (l : list Json.value) (s : state W) :
  (existsb is_null l = false
   /\ mapM (OptimizerService.normalizeTurn env) l s
      = (Ok (map (normalizedTurn env) l), s))
  \/ (existsb is_null l = true
      /\ exists e, mapM (OptimizerService.normalizeTurn env) l s = (Throw e, s)).
Proof.
  induction l as [|turn rest IH].
  - left. split; reflexivity.
  - cbn [mapM existsb map]. unfold bind.
    destruct (is_null turn) eqn:Hturn; cbn [orb].
    + right. split; [reflexivity|]. destruct turn; try discriminate.
      eexists. reflexivity.
    + rewrite (normalizeTurn_not_null _ _ Hturn).
      destruct IH as [(Hn & ->)|(Hn & e & ->)].
      * left. split; [exact Hn|reflexivity].
      * right. split; [exact Hn|]. exists e. reflexivity.
Qed.

Lemma existsb_is_null (l : list Json.value) :
  existsb is_null l = true <-> In Json.VNull l.
Proof.
  rewrite existsb_exists. split.
  - intros (x & Hin & Hx). destruct x; try discriminate. exact Hin.
  - intro Hin. exists Json.VNull. split; [exact Hin|reflexivity].
Qed.

Lemma ensureUserFirst_spec (l : list ConversationTurn) :
  OptimizerService.ensureUserFirst l
  = (if Models.conversationScript_validator l then l
     else OptimizerService.greeting :: l)
  /\ Models.conversationScript_validator (OptimizerService.ensureUserFirst l) = true.
Proof.
  destruct l as [|first rest]; [split; reflexivity|].
  cbn. destruct (TurnRole_eqb (turn_role first) RoleUser) eqn:E; cbn.
  - split; [reflexivity|exact E].
  - split; reflexivity.
Qed.

(** The criteria never make the transformation throw. *)
Lemma normalizeCriterion_returns (sc : RawCriterion) :
  returns (OptimizerService.normalizeCriterion env sc).
Proof.
  unfold OptimizerService.normalizeCriterion.
  apply returns_bind; [apply returns_ask|]. intro id. apply returns_ret.
Qed.

Lemma normalizeCriteria_returns (raw : option (list RawCriterion)) :
  returns (OptimizerService.normalizeCriteria env raw).
Proof.
  unfold OptimizerService.normalizeCriteria.
  apply returns_bind.
  - apply returns_mapM. apply normalizeCriterion_returns.
  - intro cs. destruct (Nat.eqb _ _).
    + apply returns_bind; [apply returns_ask|]. intro. apply returns_ret.
    + apply returns_ret.
Qed.

End Script.

(** C7.  A generated test case is transformed into a TestCase unless one
    of its turns is null (reading the role of such a turn throws).  The
    script of the TestCase is the list of normalised turns, with the
    greeting user turn "Hello" put in front exactly when that list is
    empty or does not start with a user turn; so the script is never
    empty, its first turn is a user turn, and it passes the validator of
    the schema. *)
Theorem transformTestCase_script :
  forall (W : Type) (env : Env W) (suiteId category : string)
         (tc : RawTestCase) (s : state W),
    match OptimizerService.transformTestCase env suiteId category tc s with
    | (Ok t, _) =>
        let normalized := map (normalizedTurn env) (OptimizerService.rawScript tc) in
        ~ In Json.VNull (OptimizerService.rawScript tc)
        /\ tc_conversationScript t
           = (if Models.conversationScript_validator normalized then normalized
              else {| turn_role := RoleUser; turn_content := "Hello" |} :: normalized)
        /\ (exists first rest,
              tc_conversationScript t = first :: rest /\ turn_role first = RoleUser)
        /\ Models.conversationScript_validator (tc_conversationScript t) = true
    | (Throw _, _) => In Json.VNull (OptimizerService.rawScript tc)
    end.
Proof.
  intros W env suiteId category tc s.
  unfold OptimizerService.transformTestCase.
  unfold bind at 1.
  destruct (normalizeCriteria_returns env (rtc_successCriteria tc) s)
    as (criteria & s1 & ->).
  unfold bind at 1. unfold OptimizerService.normalizeScript. unfold bind at 1.
  destruct (mapM_normalizeTurn env (OptimizerService.rawScript tc) s1)
    as [(Hn & ->)|(Hn & e & ->)].
  - cbn [ret]. unfold bind, ask, ret.
    destruct (uuidv4 env (world s1)) as [id w]. cbn [tc_conversationScript].
    destruct (ensureUserFirst_spec
                (map (normalizedTurn env) (OptimizerService.rawScript tc)))
      as (Heq & Hvalid).
    repeat split.
    + intro Hin. apply existsb_is_null in Hin. congruence.
    + exact Heq.
    + destruct (OptimizerService.ensureUserFirst _) as [|first rest];
        [discriminate|].
      exists first, rest. split; [reflexivity|].
      cbn in Hvalid. destruct (turn_role first); (reflexivity || discriminate).
    + exact Hvalid.
  - apply existsb_is_null. exact Hn.
Qed.

(** Two generated scripts: one that starts with the agent, under the key
    [conversation] and with the speaker under [speaker]; and an empty one. *)
Example transformTestCase_run :
  let env := Demo.scripted (fun _ => Throw ThrownNull) Demo.echo (fun _ => None) in
  let tc script :=
    {| rtc_name := Some "Booking"; rtc_description := None; rtc_category := None;
       rtc_conversationScript := None; rtc_conversation := Some script;
       rtc_script := None; rtc_successCriteria := None; rtc_priority := None;
       rtc_tags := None |} in
  match OptimizerService.transformTestCase env "suite-1" "happy-path"
          (tc [Json.VObj [("speaker", Json.VStr "bot"); ("text", Json.VStr "Welcome")];
               Json.VStr "I need a cleaning"])
          (Demo.empty_state 0) with
  | (Ok t, _) =>
      tc_conversationScript t
      = [{| turn_role := RoleUser; turn_content := "Hello" |};
         {| turn_role := RoleExpectedAgent; turn_content := "Welcome" |};
         {| turn_role := RoleUser; turn_content := "I need a cleaning" |}]
  | _ => False
  end
  /\ match OptimizerService.transformTestCase env "suite-1" "happy-path" (tc [])
            (Demo.empty_state 0) with
     | (Ok t, _) =>
         tc_conversationScript t = [{| turn_role := RoleUser; turn_content := "Hello" |}]
     | _ => False
     end.
Proof. split; reflexivity. Qed.

(** ** Criteria weights of persisted test cases *)




Section PersistedSuites.

Variable W : Type.
Variable env : Env W.





Lemma keeps_normalizeCriteria (raw : option (list RawCriterion)) :
  keeps_collections (OptimizerService.normalizeCriteria env raw).
Proof.
  unfold OptimizerService.normalizeCriteria, OptimizerService.normalizeCriterion.
  apply keeps_bind; [auto 6 with frames|].
  intro cs. destruct (Nat.eqb _ _); auto with frames.
Qed.

Lemma keeps_normalizeTurn (turn : Json.value) :
  keeps_collections (OptimizerService.normalizeTurn env turn).
Proof. destruct turn; cbn; auto with frames. Qed.

Lemma keeps_transformTestCase (suiteId category : string) (tc : RawTestCase) :
  keeps_collections (OptimizerService.transformTestCase env suiteId category tc).
Proof.
  unfold OptimizerService.transformTestCase, OptimizerService.normalizeScript.
  apply keeps_bind; [apply keeps_normalizeCriteria|]. intro cs.
  apply keeps_bind.
  - apply keeps_bind; [|auto with frames].
    apply keeps_mapM. apply keeps_normalizeTurn.
  - auto with frames.
Qed.

Lemma keeps_generateCategory (analysis : PromptAnalysis)
    (suiteId category : string) :
  keeps_collections (OptimizerService.generateCategory env analysis suiteId category).
Proof.
  unfold OptimizerService.generateCategory, LLMClient.generateTestCases.
  apply keeps_bind; [auto with frames|]. intro cases.
  apply keeps_mapM. intro tc. apply keeps_transformTestCase.
Qed.



End PersistedSuites.



(** ** The resilient caller *)

Section Retry.

Variables W T : Type.
Variable operation : W -> result T * W.
Variable maxRetries : nat.

Lemma withRetry_loop_unfold (remaining attempt : nat) (lastError : error)
    (s : state W) :
  LLMClient.withRetry_loop operation maxRetries (S remaining) attempt lastError s
  = let s0 := record_event (EvAttempt attempt) s in
    match operation (world s) with
    | (Ok v, w) => (Ok v, set_world w s0)
    | (Throw e, w) =>
        let s1 := set_world w s0 in
        match classify e with
        | Fatal => (Throw e, s1)
        | RateLimited response =>
            LLMClient.withRetry_loop operation maxRetries remaining (S attempt) e
              (record_event (EvSleep (LLMClient.rate_limit_delay response)) s1)
        | Retryable =>
            LLMClient.withRetry_loop operation maxRetries remaining (S attempt) e
              (if (Z.of_nat attempt <? Z.of_nat maxRetries - 1)%Z
               then record_event (EvSleep (LLMClient.backoff_delay attempt)) s1
               else s1)
        end
    end.
Proof.
  cbn [LLMClient.withRetry_loop].
  unfold bind at 1. unfold log at 1. unfold try_catch, LLMClient.perform.
  cbn [world record_event].
  destruct (operation (world s)) as [[v|e] w]; [reflexivity|].
  cbn zeta. unfold classify.
  destruct e as [response|msg|].
  - destruct (LLMClient.is_fatal_status _); [reflexivity|].
    destruct (LLMClient.is_rate_limited _); [reflexivity|].
    unfold bind, sleep, log, ret.
    destruct (Z.of_nat attempt <? Z.of_nat maxRetries - 1)%Z; reflexivity.
  - unfold bind, sleep, log, ret.
    destruct (Z.of_nat attempt <? Z.of_nat maxRetries - 1)%Z; reflexivity.
  - unfold bind, sleep, log, ret.
    destruct (Z.of_nat attempt <? Z.of_nat maxRetries - 1)%Z; reflexivity.
Qed.

Lemma attempts_app (a b : list event) : attempts (a ++ b) = attempts a + attempts b.
Proof. unfold attempts. rewrite filter_app, length_app. reflexivity. Qed.

(** The loop calls the operation at most [remaining] times. *)
Lemma withRetry_loop_attempts (remaining : nat) :
  forall (attempt : nat) (lastError : error) (s : state W),
  exists added : list event,
    trace (snd (LLMClient.withRetry_loop operation maxRetries remaining attempt
                  lastError s))
    = (trace s ++ added)%list
    /\ attempts added <= remaining.
Proof.
  induction remaining as [|remaining IH]; intros attempt lastError s.
  - exists []. cbn. rewrite app_nil_r. split; [reflexivity|apply Nat.le_refl].
  - rewrite withRetry_loop_unfold. cbn zeta.
    destruct (operation (world s)) as [[v|e] w].
    + exists [EvAttempt attempt]. split; [reflexivity|cbn; lia].
    + destruct (classify e) as [|response|].
      * exists [EvAttempt attempt]. split; [reflexivity|cbn; lia].
      * match goal with
        | |- context [LLMClient.withRetry_loop _ _ _ _ _ ?st] =>
            destruct (IH (S attempt) e st) as (added & E & Hle)
        end.
        exists (EvAttempt attempt
                :: EvSleep (LLMClient.rate_limit_delay response) :: added).
        rewrite E. cbn [trace record_event set_world].
        rewrite <- !app_assoc. split; [reflexivity|].
        change (attempts (EvAttempt attempt :: EvSleep _ :: added))
          with (S (attempts added)). lia.
      * destruct (Z.of_nat attempt <? Z.of_nat maxRetries - 1)%Z.
        -- match goal with
           | |- context [LLMClient.withRetry_loop _ _ _ _ _ ?st] =>
               destruct (IH (S attempt) e st) as (added & E & Hle)
           end.
           exists (EvAttempt attempt
                   :: EvSleep (LLMClient.backoff_delay attempt) :: added).
           rewrite E. cbn [trace record_event set_world].
           rewrite <- !app_assoc. split; [reflexivity|].
           change (attempts (EvAttempt attempt :: EvSleep _ :: added))
             with (S (attempts added)). lia.
        -- match goal with
           | |- context [LLMClient.withRetry_loop _ _ _ _ _ ?st] =>
               destruct (IH (S attempt) e st) as (added & E & Hle)
           end.
           exists (EvAttempt attempt :: added).
           rewrite E. cbn [trace record_event set_world].
           rewrite <- !app_assoc. split; [reflexivity|].
           change (attempts (EvAttempt attempt :: added))
             with (S (attempts added)). lia.
Qed.

End Retry.

Lemma classify_fatal (r : AxiosResponse) :
  (400 <= status r < 500)%Z -> status r <> 429%Z ->
  classify (AxiosError (Some r)) = Fatal.
Proof.
  intros [Hlo Hhi] Hne. unfold classify, LLMClient.is_fatal_status. cbn.
  replace (status r =? 0)%Z with false by (symmetry; apply Z.eqb_neq; lia).
  replace (400 <=? status r)%Z with true by (symmetry; apply Z.leb_le; lia).
  replace (status r <? 500)%Z with true by (symmetry; apply Z.ltb_lt; lia).
  replace (status r =? 429)%Z with false by (symmetry; apply Z.eqb_neq; lia).
  reflexivity.
Qed.

Lemma classify_rate_limited (r : AxiosResponse) :
  status r = 429%Z -> classify (AxiosError (Some r)) = RateLimited (Some r).
Proof.
  intro H. unfold classify, LLMClient.is_fatal_status, LLMClient.is_rate_limited.
  cbn. rewrite H. reflexivity.
Qed.

Lemma classify_retryable (e : error) :
  server_or_network e -> classify e = Retryable.
Proof.
  intros [|r Hr]; [reflexivity|].
  unfold classify, LLMClient.is_fatal_status, LLMClient.is_rate_limited. cbn.
  replace (status r <? 500)%Z with false by (symmetry; apply Z.ltb_ge; lia).
  replace (status r =? 429)%Z with false by (symmetry; apply Z.eqb_neq; lia).
  rewrite !andb_false_r. reflexivity.
Qed.

Lemma backoff_delay_seconds (attempt : nat) :
  LLMClient.backoff_delay attempt = seconds (2 ^ Z.of_nat attempt).
Proof. reflexivity. Qed.

(** C5, as the code has it.  [withRetry] with its default budget calls
    the operation at most 3 times, rate-limited attempts included.  When
    attempt number [attempt] (0, 1 or 2) fails:
    - with a 4xx status other than 429, the error is rethrown at once, no
      wait and no further attempt;
    - with a 5xx status or without a response, the call waits 2^attempt
      seconds and goes to the next attempt if one remains, and rethrows
      without waiting after the third attempt;
    - with status 429, the call waits the [retry-after] seconds (60 when
      the header is absent, 5 for the header "5") and goes to the next
      attempt if one remains; after the third attempt it still waits, and
      then rethrows: a rate-limited attempt uses up an attempt like any
      other failure. *)
Theorem withRetry_policy :
  forall (W T : Type) (operation : W -> result T * W),
    (forall s : state W,
        exists added : list event,
          trace (snd (LLMClient.withRetry operation 3 s)) = (trace s ++ added)%list
          /\ attempts added <= 3)
    /\ (forall (attempt : nat) (lastError e : error) (s : state W) (w : W),
           attempt < 3 ->
           operation (world s) = (Throw e, w) ->
           let loop := LLMClient.withRetry_loop operation 3 in
           let s1 := set_world w (record_event (EvAttempt attempt) s) in
           (forall r : AxiosResponse,
               e = AxiosError (Some r) ->
               (400 <= status r < 500)%Z -> status r <> 429%Z ->
               loop (3 - attempt) attempt lastError s = (Throw e, s1))
           /\ (server_or_network e ->
               (attempt < 2 ->
                loop (3 - attempt) attempt lastError s
                = loop (3 - S attempt) (S attempt) e
                    (record_event (EvSleep (seconds (2 ^ Z.of_nat attempt))) s1))
               /\ (attempt = 2 ->
                   loop (3 - attempt) attempt lastError s = (Throw e, s1)))
           /\ (forall r : AxiosResponse,
                  e = AxiosError (Some r) -> status r = 429%Z ->
                  let s2 :=
                    record_event
                      (EvSleep (LLMClient.rate_limit_delay (Some r))) s1 in
                  (retry_after r = None ->
                   LLMClient.rate_limit_delay (Some r) = seconds 60)
                  /\ (attempt < 2 ->
                      loop (3 - attempt) attempt lastError s
                      = loop (3 - S attempt) (S attempt) e s2)
                  /\ (attempt = 2 ->
                      loop (3 - attempt) attempt lastError s = (Throw e, s2))))
    /\ LLMClient.rate_limit_delay
         (Some {| status := 429; retry_after := Some "5" |}) = seconds 5.
Proof.
  intros W T operation. split; [|split].
  - intro s. apply withRetry_loop_attempts.
  - intros attempt lastError e s w Hlt Hop loop s1.
    assert (Hcases : attempt = 0 \/ attempt = 1 \/ attempt = 2) by lia.
    split; [|split].
    + intros r -> Hrange Hne. subst loop s1.
      destruct Hcases as [-> | [-> | ->]];
        cbn [Nat.sub]; rewrite withRetry_loop_unfold, Hop; cbn zeta;
        rewrite (classify_fatal r Hrange Hne); reflexivity.
    + intro Hkind. pose proof (classify_retryable Hkind) as Hc. subst loop s1.
      split.
      * intro H2.
        assert (Hc2 : attempt = 0 \/ attempt = 1) by lia.
        destruct Hc2 as [-> | ->];
          cbn [Nat.sub]; rewrite withRetry_loop_unfold, Hop; cbn zeta;
          rewrite Hc; reflexivity.
      * intros ->. cbn [Nat.sub]. rewrite withRetry_loop_unfold, Hop. cbn zeta.
        rewrite Hc. reflexivity.
    + intros r -> H429 s2. pose proof (classify_rate_limited r H429) as Hc.
      subst loop s2 s1. split; [|split].
      * intro Hnone. unfold LLMClient.rate_limit_delay. rewrite Hnone. reflexivity.
      * intro H2.
        assert (Hc2 : attempt = 0 \/ attempt = 1) by lia.
        destruct Hc2 as [-> | ->];
          cbn [Nat.sub]; rewrite withRetry_loop_unfold, Hop; cbn zeta;
          rewrite Hc; reflexivity.
      * intros ->. cbn [Nat.sub]. rewrite withRetry_loop_unfold, Hop. cbn zeta.
        rewrite Hc. reflexivity.
  - reflexivity.
Qed.

(** The policy at a request refused with 403 on the first attempt. *)
Lemma withRetry_policy_witness :
  LLMClient.withRetry Demo.forbidden 3 (Demo.empty_state 0)
  = (Throw (AxiosError (Some {| status := 403; retry_after := None |})),
     set_world 1 (record_event (EvAttempt 0) (Demo.empty_state 0))).
Proof.
  destruct (@withRetry_policy nat string Demo.forbidden) as (_ & Hstep & _).
  destruct (Hstep 0 ThrownNull
              (AxiosError (Some {| status := 403; retry_after := None |}))
              (Demo.empty_state 0) 1)
    as (Hfatal & _); [lia|reflexivity|].
  apply (Hfatal {| status := 403; retry_after := None |});
    [reflexivity|cbn; lia|cbn; lia].
Defined.

(** C5, as stated, fails: the claim has every rate-limit wait followed by
    a retry.  A request answered 429 three times is called three times;
    after the third wait [withRetry] throws the 429 error, although the
    fourth request would have succeeded. *)
Lemma withRetry_rate_limit_not_retried :
  fst (LLMClient.withRetry Demo.rate_limited_thrice 3 (Demo.empty_state 0))
  = Throw Demo.rate_limited
  /\ trace (snd (LLMClient.withRetry Demo.rate_limited_thrice 3 (Demo.empty_state 0)))
     = [EvAttempt 0; EvSleep (seconds 60); EvAttempt 1; EvSleep (seconds 60);
        EvAttempt 2; EvSleep (seconds 60)]
  /\ fst (Demo.rate_limited_thrice 3) = Ok "done"
  /\ ~ every_wait_retried
         (trace (snd (LLMClient.withRetry Demo.rate_limited_thrice 3
                        (Demo.empty_state 0)))).
Proof.
  split; [reflexivity|]. split; [reflexivity|]. split; [reflexivity|].
  intro H.
  destruct (H [EvAttempt 0; EvSleep (seconds 60); EvAttempt 1; EvSleep (seconds 60);
               EvAttempt 2] [] (seconds 60) eq_refl) as (k & rest & E).
  discriminate E.
Qed.

(** Backoff waits, unlike rate-limit waits, are always followed by a
    retry: two failures without a response, then success. *)
Example withRetry_flaky_run :
  LLMClient.withRetry Demo.flaky 3 (Demo.empty_state 0)
  = (Ok "done",
     {| world := 3;
        trace := [EvAttempt 0; EvSleep (seconds 1); EvAttempt 1;
                  EvSleep (seconds 2); EvAttempt 2];
        testSuites := []; optimizedPrompts := []; optimizationRecords := [] |}).
Proof. reflexivity. Qed.

(** ** The audit trail *)




(** A record that is not applied is deleted. *)
Example pending_record_deleted :
  Models.deleteOne_query Models.first_call_wins (Demo.by_id "r1") Demo.audit_state
  = (Ok tt,
     Models.set_optimizationRecords
       [Demo.record "r2" APPLIED; Demo.record "r3" VALIDATED] Demo.audit_state).
Proof. reflexivity. Qed.

(** ** Running a batch *)

(** Case analysis on the condition of the first conditional of the goal. *)
Ltac case_if :=
  match goal with
  | |- context [if ?c then _ else _] => destruct c eqn:?
  end.

Section Batch.

Variable W : Type.
Variable env : Env W.

Lemma keeps_simulate_loop (agentId : string) (messages : list string) :
  forall turns cid,
    keeps_collections (HighLevelClient.simulate_loop env agentId messages turns cid).
Proof.
  induction messages as [|m rest IH]; intros turns cid; cbn.
  - apply keeps_ret.
  - apply keeps_bind; [apply keeps_call|]. intro r. apply IH.
Qed.

Lemma emits_simulate_loop (agentId : string) (messages : list string) :
  forall turns cid,
    emits is_batch_call
      (HighLevelClient.simulate_loop env agentId messages turns cid).
Proof.
  induction messages as [|m rest IH]; intros turns cid; cbn.
  - apply emits_ret.
  - apply emits_bind; [apply emits_call; exact I|]. intro r. apply IH.
Qed.

(** A step that returns or throws without touching the state. *)
Lemma keeps_pure {A} (r : result A) :
  keeps_collections (fun s : state W => (r, s)).
Proof. intro s. apply same_collections_refl. Qed.

Lemma emits_pure (P : event -> Prop) {A} (r : result A) :
  emits P (fun s : state W => (r, s)).
Proof.
  intro s. exists []. split; [cbn; rewrite app_nil_r; reflexivity|constructor].
Qed.

Lemma keeps_runTestCase (agentId : string) (tc : TestCase) :
  keeps_collections (OptimizerService.runTestCase env agentId tc).
Proof.
  unfold OptimizerService.runTestCase, HighLevelClient.simulateConversation,
    LLMClient.evaluateResponse.
  apply keeps_bind; [apply keeps_simulate_loop|]. intro c.
  apply keeps_bind; [|intro; apply keeps_ret].
  apply keeps_bind; [apply keeps_call|intro; apply keeps_pure].
Qed.

Lemma emits_runTestCase (agentId : string) (tc : TestCase) :
  emits is_batch_call (OptimizerService.runTestCase env agentId tc).
Proof.
  unfold OptimizerService.runTestCase, HighLevelClient.simulateConversation,
    LLMClient.evaluateResponse.
  apply emits_bind; [apply emits_simulate_loop|]. intro c.
  apply emits_bind; [|intro; apply emits_ret].
  apply emits_bind; [apply emits_call; exact I|intro; apply emits_pure].
Qed.

Lemma keeps_executeTests (agentId : string) (testCases : list TestCase) :
  keeps_collections (OptimizerService.executeTests env agentId testCases).
Proof.
  unfold OptimizerService.executeTests.
  apply keeps_bind; [|intro; apply keeps_ret].
  apply keeps_mapM. intro tc. apply keeps_runTestCase.
Qed.

Lemma emits_executeTests (agentId : string) (testCases : list TestCase) :
  emits is_batch_call (OptimizerService.executeTests env agentId testCases).
Proof.
  unfold OptimizerService.executeTests.
  apply emits_bind; [|intro; apply emits_ret].
  apply emits_mapM. intro tc. apply emits_runTestCase.
Qed.

Lemma keeps_optimize_loop (agentId : string) (suite : TestSuite)
    (initialResults : BatchResults) (remaining : nat) :
  forall v,
    keeps_collections
      (OptimizerService.optimize_loop env agentId suite initialResults remaining v).
Proof.
  induction remaining as [|remaining IH]; intro v; cbn.
  - apply keeps_ret.
  - case_if; [apply keeps_ret|].
    case_if; [apply keeps_ret|].
    apply keeps_bind; [apply keeps_call|]. intro insights.
    apply keeps_bind; [apply keeps_call|]. intro optimization.
    apply keeps_bind; [apply keeps_call|]. intros _.
    apply keeps_bind; [apply keeps_executeTests|]. intro newResults.
    case_if; [|apply keeps_ret].
    case_if; [apply keeps_ret|apply IH].
Qed.

End Batch.

(** C4: what the code does on an empty batch.  [executeTests] on zero
    test cases does not throw: it divides 0 by 0 and returns NaN as pass
    rate, as overall score and as every aggregate metric. *)
Theorem executeTests_empty_batch :
  forall (W : Type) (env : Env W) (agentId : string) (s : state W),
    OptimizerService.executeTests env agentId [] s
    = (Ok {| br_evaluations := [];
             br_passRate := JS.NaN;
             br_overallScore := JS.NaN;
             br_metrics :=
               {| pm_relevance := JS.NaN; pm_accuracy := JS.NaN;
                  pm_completeness := JS.NaN; pm_helpfulness := JS.NaN;
                  pm_overall := JS.NaN |} |}, s).
Proof. intros W env agentId s. reflexivity. Qed.

(** ** The optimisation loop *)

Lemma batch_call_not_optimization (ev : event) :
  is_batch_call ev -> is_optimization_call ev = false.
Proof. destruct ev; cbn; (reflexivity || contradiction). Qed.

(** C2.  When the initial batch run returns a score of at least 1.0,
    [optimize] returns at once, in the state the batch run left: the
    result is a success with [iterations = 0], no change and the original
    prompt, its final score and metrics are the initial ones, its before
    and after test results are equal, no insight, optimise or prompt
    update call was issued, and nothing was persisted. *)
Theorem optimize_converged :
  forall (W : Type) (env : Env W) (agentId suiteId : string) (maxIterations : nat)
         (s s2 : state W) (suite : TestSuite) (agentConfig : AgentConfig) (w1 : W)
         (initialResults : BatchResults),
    find (fun d => String.eqb (ts_id d) suiteId) (testSuites s) = Some suite ->
    hl_getAgent env agentId (world s) = (Ok agentConfig, w1) ->
    OptimizerService.executeTests env agentId (ts_testCases suite)
      (set_world w1 (record_event (EvGetAgent agentId) s))
    = (Ok initialResults, s2) ->
    JS.ge (br_overallScore initialResults) (JS.Fin 1) = true ->
    exists result : OptimizationResult,
      OptimizerService.optimize env agentId suiteId maxIterations s = (Ok result, s2)
      /\ or_success result = true
      /\ or_iterations result = 0
      /\ or_changes result = []
      /\ or_optimizedPrompt result = or_originalPrompt result
      /\ or_initialScore result = br_overallScore initialResults
      /\ or_finalScore result = or_initialScore result
      /\ or_metrics result = br_metrics initialResults
      /\ or_before result = or_after result
      /\ (exists added : list event,
            trace s2 = (trace s ++ added)%list
            /\ forallb (fun ev => negb (is_optimization_call ev)) added = true)
      /\ optimizedPrompts s2 = optimizedPrompts s.
Proof.
  intros W env agentId suiteId maxIterations s s2 suite agentConfig w1
    initialResults Hfind Hget Hexec Hge.
  eexists. split.
  - unfold OptimizerService.optimize.
    unfold bind at 1. unfold Models.TestSuiteModel_findById. rewrite Hfind.
    unfold bind at 1. unfold HighLevelClient.getAgent. unfold call at 1.
    rewrite Hget.
    unfold bind at 1. rewrite Hexec. rewrite Hge. reflexivity.
  - cbn [or_success or_iterations or_changes or_optimizedPrompt or_originalPrompt
         or_initialScore or_finalScore or_metrics or_before or_after].
    repeat (split; [reflexivity|]).
    split.
    + destruct (emits_executeTests env agentId (ts_testCases suite)
                  (set_world w1 (record_event (EvGetAgent agentId) s)))
        as (added & E & Hall).
      rewrite Hexec in E. cbn [snd trace set_world record_event] in E.
      exists (EvGetAgent agentId :: added). split.
      * rewrite E, <- app_assoc. reflexivity.
      * cbn. apply forallb_forall. intros ev Hin.
        rewrite Forall_forall in Hall.
        rewrite (batch_call_not_optimization _ (Hall ev Hin)). reflexivity.
    + destruct (keeps_executeTests env agentId (ts_testCases suite)
                  (set_world w1 (record_event (EvGetAgent agentId) s)))
        as (_ & E & _).
      rewrite Hexec in E. exact E.
Qed.

(** The judge marks every test 1: the run stops after the initial batch
    of two tests, four calls after the agent was read. *)
Lemma optimize_converged_witness :
  exists (result : OptimizationResult) (s2 : state nat),
    OptimizerService.optimize
      (Demo.scripted Demo.perfect_judge Demo.echo (fun _ => None))
      "agent-1" "suite-1" 2 Demo.stored_state = (Ok result, s2)
    /\ or_iterations result = 0
    /\ or_before result = or_after result
    /\ trace s2
       = [EvGetAgent "agent-1";
          EvChat "agent-1" "I need a cleaning" None; EvEvaluateResponse "t1";
          EvChat "agent-1" "I need a cleaning" None; EvEvaluateResponse "t2"]
    /\ optimizedPrompts s2 = optimizedPrompts Demo.stored_state.
Proof.
  pose (env := Demo.scripted Demo.perfect_judge Demo.echo (fun _ => None)).
  pose (run := OptimizerService.executeTests env "agent-1" (ts_testCases Demo.suite)
                 (set_world 0 (record_event (EvGetAgent "agent-1") Demo.stored_state))).
  destruct (fst run) as [initialResults|e] eqn:Hres;
    [|vm_compute in Hres; discriminate].
  assert (Hexec : run = (Ok initialResults, snd run))
    by (rewrite <- Hres; destruct run; reflexivity).
  destruct (@optimize_converged nat env "agent-1" "suite-1" 2 Demo.stored_state
              (snd run) Demo.suite
              {| ac_agentId := "agent-1";
                 ac_systemPrompt := "You are a customer service agent." |}
              0 initialResults eq_refl eq_refl Hexec)
    as (result & Hrun & _ & Hiter & _ & _ & _ & _ & _ & Hsame & _ & Hdb).
  - vm_compute in Hres. injection Hres as <-. reflexivity.
  - exists result, (snd run).
    split; [exact Hrun|]. split; [exact Hiter|]. split; [exact Hsame|].
    split; [reflexivity|exact Hdb].
Defined.

(** ** Persisting the best prompt *)

Lemma gt_irrefl (a : JS.number) : JS.gt a a = false.
Proof.
  destruct a as [| |q|]; try reflexivity.
  unfold JS.gt, JS.lt, JS.Qlt_bool.
  replace (Qle_bool q q) with true; [reflexivity|].
  symmetry. apply Qle_bool_iff. apply Qle_refl.
Qed.

Lemma upsert_findOne (update : OptimizedPrompt) (docs : list OptimizedPrompt) :
  Models.OptimizedPromptModel_findOne (op_agentId update) (Models.upsert update docs)
  = Some update.
Proof.
  unfold Models.OptimizedPromptModel_findOne.
  induction docs as [|d rest IH]; cbn.
  - rewrite String.eqb_refl. reflexivity.
  - destruct (String.eqb (op_agentId d) (op_agentId update)) eqn:E; cbn.
    + rewrite String.eqb_refl. reflexivity.
    + rewrite E. exact IH.
Qed.

Lemma upsert_other (update : OptimizedPrompt) (docs : list OptimizedPrompt)
    (agentId : string) :
  agentId <> op_agentId update ->
  Models.OptimizedPromptModel_findOne agentId (Models.upsert update docs)
  = Models.OptimizedPromptModel_findOne agentId docs.
Proof.
  intro Hne. unfold Models.OptimizedPromptModel_findOne.
  assert (Hu : String.eqb (op_agentId update) agentId = false)
    by (apply String.eqb_neq; congruence).
  induction docs as [|d rest IH]; cbn.
  - rewrite Hu. reflexivity.
  - destruct (String.eqb (op_agentId d) (op_agentId update)) eqn:E; cbn.
    + apply String.eqb_eq in E. rewrite E, Hu. reflexivity.
    + destruct (String.eqb (op_agentId d) agentId); [reflexivity|exact IH].
Qed.

Lemma upsert_agents (update : OptimizedPrompt) (docs : list OptimizedPrompt) :
  forall a : string,
    In a (map op_agentId (Models.upsert update docs)) ->
    a = op_agentId update \/ In a (map op_agentId docs).
Proof.
  induction docs as [|d rest IH]; cbn; intros a Hin.
  - destruct Hin as [<-|[]]. left. reflexivity.
  - destruct (String.eqb (op_agentId d) (op_agentId update)) eqn:E; cbn in Hin.
    + destruct Hin as [<-|Hin]; [left; reflexivity|right; right; exact Hin].
    + destruct Hin as [<-|Hin]; [right; left; reflexivity|].
      destruct (IH a Hin) as [->|H]; [left; reflexivity|right; right; exact H].
Qed.

(** An upsert keeps the collection at one record per agent at most. *)
Lemma upsert_NoDup (update : OptimizedPrompt) (docs : list OptimizedPrompt) :
  NoDup (map op_agentId docs) ->
  NoDup (map op_agentId (Models.upsert update docs)).
Proof.
  induction docs as [|d rest IH]; cbn; intro Hnd.
  - constructor; [intros []|constructor].
  - inversion Hnd as [|a l Hnotin Hrest]; subst.
    destruct (String.eqb (op_agentId d) (op_agentId update)) eqn:E; cbn.
    + apply String.eqb_eq in E. rewrite <- E. constructor; assumption.
    + constructor; [|apply IH; exact Hrest].
      intro Hin. destruct (upsert_agents _ _ _ Hin) as [Heq|Hold].
      * apply String.eqb_neq in E. contradiction.
      * contradiction.
Qed.

Section Persist.

Variable W : Type.
Variable env : Env W.

(** What [optimize] leaves in the collection of best prompts. *)
Lemma optimize_collection (agentId suiteId : string) (maxIterations : nat)
    (s : state W) :
  match OptimizerService.optimize env agentId suiteId maxIterations s with
  | (Ok result, s') =>
      optimizedPrompts s'
      = (if JS.gt (or_finalScore result) (or_initialScore result)
         then Models.upsert
                {| op_agentId := agentId;
                   op_originalPrompt := or_originalPrompt result;
                   op_optimizedPrompt := or_optimizedPrompt result;
                   op_score := or_finalScore result;
                   op_iterations := or_iterations result |}
                (optimizedPrompts s)
         else optimizedPrompts s)
  | (Throw _, s') => optimizedPrompts s' = optimizedPrompts s
  end.
Proof.
  unfold OptimizerService.optimize.
  unfold bind at 1. unfold Models.TestSuiteModel_findById.
  destruct (find _ (testSuites s)) as [suite|]; [|reflexivity].
  unfold bind at 1.
  pose proof (keeps_call (EvGetAgent agentId) (hl_getAgent env agentId) s) as K1.
  fold (HighLevelClient.getAgent env agentId) in K1.
  destruct (HighLevelClient.getAgent env agentId s) as [[agentConfig|e] s1];
    cbn [snd] in K1; destruct K1 as (_ & K1 & _); [|exact K1].
  unfold bind at 1.
  pose proof (keeps_executeTests env agentId (ts_testCases suite) s1) as K2.
  destruct (OptimizerService.executeTests env agentId (ts_testCases suite) s1)
    as [[initialResults|e] s2];
    cbn [snd] in K2; destruct K2 as (_ & K2 & _); [|congruence].
  case_if.
  - cbn [ret or_finalScore or_initialScore].
    rewrite gt_irrefl. congruence.
  - unfold bind at 1.
    match goal with
    | |- context [OptimizerService.optimize_loop env agentId suite initialResults
                    maxIterations ?v0 s2] =>
        pose proof (keeps_optimize_loop env agentId suite initialResults
                      maxIterations v0 s2) as K3;
        destruct (OptimizerService.optimize_loop env agentId suite initialResults
                    maxIterations v0 s2) as [[v|e] s3]
    end;
      cbn [snd] in K3; destruct K3 as (_ & K3 & _); [|congruence].
    unfold bind at 1.
    pose proof (keeps_executeTests env agentId (ts_testCases suite) s3) as K4.
    destruct (OptimizerService.executeTests env agentId (ts_testCases suite) s3)
      as [[finalResults|e] s4];
      cbn [snd] in K4; destruct K4 as (_ & K4 & _); [|congruence].
    unfold bind at 1.
    destruct (JS.gt (br_overallScore finalResults)
                (br_overallScore initialResults)) eqn:Hgt.
    + unfold bind, Models.OptimizedPromptModel_findOneAndUpdate, ret.
      cbn [or_finalScore or_initialScore or_originalPrompt or_optimizedPrompt
           or_iterations optimizedPrompts Models.set_optimizedPrompts].
      rewrite Hgt. congruence.
    + unfold bind, ret.
      cbn [or_finalScore or_initialScore]. rewrite Hgt. congruence.
Qed.

End Persist.

(** C3, as the code has it.  A run of [optimize] that throws, or whose
    final score does not exceed its initial score, leaves the collection
    of best prompts as it was.  A run whose final score exceeds its
    initial score upserts one record under the agent identity: the record
    found for the agent afterwards carries the final score of the run,
    which is greater than the initial score of that same run, the records
    of the other agents are untouched, and a collection with at most one
    record per agent stays so.  The score is compared with the initial
    score of the run, not with the record persisted before. *)
Theorem optimize_persists_improvement :
  forall (W : Type) (env : Env W) (agentId suiteId : string) (maxIterations : nat)
         (s : state W),
    match OptimizerService.optimize env agentId suiteId maxIterations s with
    | (Ok result, s') =>
        (JS.gt (or_finalScore result) (or_initialScore result) = false ->
         optimizedPrompts s' = optimizedPrompts s)
        /\ (JS.gt (or_finalScore result) (or_initialScore result) = true ->
            optimizedPrompts s'
            = Models.upsert (best_prompt agentId result) (optimizedPrompts s)
            /\ Models.OptimizedPromptModel_findOne agentId (optimizedPrompts s')
               = Some (best_prompt agentId result)
            /\ (forall other : string,
                   other <> agentId ->
                   Models.OptimizedPromptModel_findOne other (optimizedPrompts s')
                   = Models.OptimizedPromptModel_findOne other (optimizedPrompts s)))
        /\ (NoDup (map op_agentId (optimizedPrompts s)) ->
            NoDup (map op_agentId (optimizedPrompts s')))
    | (Throw _, s') => optimizedPrompts s' = optimizedPrompts s
    end.
Proof.
  intros W env agentId suiteId maxIterations s.
  pose proof (optimize_collection env agentId suiteId maxIterations s) as H.
  destruct (OptimizerService.optimize env agentId suiteId maxIterations s)
    as [[result|e] s']; [|exact H].
  fold (best_prompt agentId result) in H.
  destruct (JS.gt (or_finalScore result) (or_initialScore result)).
  - split; [discriminate|]. split.
    + intros _. rewrite H. split; [reflexivity|]. split.
      * apply (upsert_findOne (best_prompt agentId result)).
      * intros other Hne. apply upsert_other. exact Hne.
    + intro Hnd. rewrite H. apply upsert_NoDup. exact Hnd.
  - split; [intros _; exact H|]. split; [discriminate|].
    rewrite H. trivial.
Qed.

(** The run of the scripted agent whose judge marks 1/4 first and 1/2
    afterwards: the final score exceeds the initial score, and the record
    of the agent is replaced by one that carries the final score. *)
Lemma optimize_persists_improvement_witness :
  exists (result : OptimizationResult) (s' : state nat),
    OptimizerService.optimize
      (Demo.scripted Demo.improving_judge Demo.echo (fun _ => None))
      "agent-1" "suite-1" 2 Demo.stored_state = (Ok result, s')
    /\ JS.gt (or_finalScore result) (or_initialScore result) = true
    /\ optimizedPrompts s' = [best_prompt "agent-1" result].
Proof.
  pose proof (@optimize_persists_improvement nat
                (Demo.scripted Demo.improving_judge Demo.echo (fun _ => None))
                "agent-1" "suite-1" 2 Demo.stored_state) as H.
  destruct (OptimizerService.optimize _ _ _ _ _) as [[result|e] s'] eqn:Hrun;
    [|vm_compute in Hrun; discriminate].
  exists result, s'. split; [reflexivity|].
  assert (Hgt : JS.gt (or_finalScore result) (or_initialScore result) = true)
    by (vm_compute in Hrun; injection Hrun as <- _; reflexivity).
  split; [exact Hgt|].
  destruct H as (_ & Hup & _). destruct (Hup Hgt) as (-> & _). reflexivity.
Defined.

(** C3, as stated, fails: the score persisted for an agent can go down.
    The database holds a best prompt of score 0.9 for the agent; a run
    whose initial score is 1/4 and final score 1/2 replaces it by a
    record of score 1/2. *)
Lemma persisted_score_decreases :
  ~ score_not_decreased "agent-1" Demo.stored_state
      (snd (OptimizerService.optimize
              (Demo.scripted Demo.improving_judge Demo.echo (fun _ => None))
              "agent-1" "suite-1" 2 Demo.stored_state)).
Proof.
  intro H.
  specialize (H {| op_agentId := "agent-1";
                   op_originalPrompt := "You are a customer service agent.";
                   op_optimizedPrompt := "You are the agent of a clinic.";
                   op_score := JS.Fin (9 # 10);
                   op_iterations := 1 |}
                {| op_agentId := "agent-1";
                   op_originalPrompt := "You are a customer service agent.";
                   op_optimizedPrompt := "You are the agent of a dental clinic.";
                   op_score := JS.Fin (4096 # 8192);
                   op_iterations := 2 |}
                eq_refl eq_refl).
  vm_compute in H. discriminate H.
Qed.

(** * Further properties *)

(** ** Outcomes of composed computations *)

Section Outcomes.

Variable W : Type.

Lemma post_bind {A B} (m : M (state W) A) (k : A -> M (state W) B) (s : state W)
    (Q : B -> state W -> Prop) (E : error -> state W -> Prop) :
  post m s (fun a s1 => post (k a) s1 Q E) E -> post (bind m k) s Q E.
Proof.
  unfold post, bind. destruct (m s) as [[a|e] s1]; trivial.
Qed.

Lemma post_weaken {A} (m : M (state W) A) (s : state W)
    (Q Q' : A -> state W -> Prop) (E E' : error -> state W -> Prop) :
  post m s Q E ->
  (forall a s', Q a s' -> Q' a s') -> (forall e s', E e s' -> E' e s') ->
  post m s Q' E'.
Proof.
  unfold post. destruct (m s) as [[a|e] s1]; auto.
Qed.

Lemma post_conj {A} (m : M (state W) A) (s : state W)
    (Q Q' : A -> state W -> Prop) (E E' : error -> state W -> Prop) :
  post m s Q E -> post m s Q' E' ->
  post m s (fun a s' => Q a s' /\ Q' a s') (fun e s' => E e s' /\ E' e s').
Proof.
  unfold post. destruct (m s) as [[a|e] s1]; auto.
Qed.

Lemma post_keeps {A} (m : M (state W) A) (s : state W) :
  keeps_collections m ->
  post m s (fun _ s' => same_collections s s') (fun _ s' => same_collections s s').
Proof.
  intro H. specialize (H s). unfold post. destruct (m s) as [[a|e] s1]; exact H.
Qed.

Lemma post_emits {A} (P : event -> Prop) (m : M (state W) A) (s : state W) :
  emits P m ->
  post m s (fun _ s' => exists added, extends_trace s s' added /\ Forall P added)
           (fun _ s' => exists added, extends_trace s s' added /\ Forall P added).
Proof.
  intro H. specialize (H s). unfold post. destruct (m s) as [[a|e] s1]; exact H.
Qed.

Lemma extends_trace_refl (s : state W) : extends_trace s s [].
Proof. unfold extends_trace. rewrite app_nil_r. reflexivity. Qed.

Lemma extends_trace_trans (s1 s2 s3 : state W) (a b : list event) :
  extends_trace s1 s2 a -> extends_trace s2 s3 b -> extends_trace s1 s3 (a ++ b).
Proof.
  unfold extends_trace. intros H1 H2. rewrite H2, H1, app_assoc. reflexivity.
Qed.

(** Each value [mapM] returns comes from a run of [f] on its item. *)
Lemma mapM_Forall2 {A B} (f : A -> M (state W) B) (l : list A) :
  forall (s s' : state W) (ys : list B),
    mapM f l s = (Ok ys, s') ->
    Forall2 (fun x y => exists s1 s2, f x s1 = (Ok y, s2)) l ys.
Proof.
  induction l as [|x rest IH]; cbn [mapM]; intros s s' ys H.
  - inversion H. constructor.
  - unfold bind in H at 1. destruct (f x s) as [[y|e] s1] eqn:Ex; [|discriminate].
    unfold bind in H at 1.
    destruct (mapM f rest s1) as [[ys1|e] s2] eqn:E; [|discriminate].
    inversion H; subst. constructor; [exists s, s1; exact Ex|exact (IH _ _ _ E)].
Qed.

End Outcomes.

(** ** Aggregates of a batch *)

Lemma inject_nat_succ (n : nat) :
  (inject_Z (Z.of_nat (S n)) == inject_Z (Z.of_nat n) + 1)%Q.
Proof.
  rewrite Nat2Z.inj_succ. unfold Z.succ. rewrite inject_Z_plus. reflexivity.
Qed.

Lemma inject_nat_nonneg (n : nat) : (0 <= inject_Z (Z.of_nat n))%Q.
Proof.
  change 0%Q with (inject_Z 0). rewrite <- Zle_Qle. apply Nat2Z.is_nonneg.
Qed.

Lemma inject_nat_le (n m : nat) :
  n <= m -> (inject_Z (Z.of_nat n) <= inject_Z (Z.of_nat m))%Q.
Proof. intro H. rewrite <- Zle_Qle. apply Nat2Z.inj_le. exact H. Qed.

Lemma sum_from_bounds {A} (f : A -> JS.number) (xs : list A) :
  Forall (fun x => unit_interval (f x)) xs ->
  forall a : Q,
  exists q : Q,
    fold_left (fun sum x => JS.add sum (f x)) xs (JS.Fin a) = JS.Fin q
    /\ (a <= q <= a + inject_Z (Z.of_nat (List.length xs)))%Q.
Proof.
  induction 1 as [|x rest (v & Hv & Hr) Hrest IH]; intro a.
  - exists a. split; [reflexivity|].
    cbn [List.length Z.of_nat]. change (inject_Z 0) with 0%Q. lra.
  - cbn [fold_left]. rewrite Hv. cbn [JS.add].
    destruct (IH (a + v)%Q) as (q & Hq & Hb).
    exists q. split; [exact Hq|].
    cbn [List.length]. rewrite inject_nat_succ. lra.
Qed.

Lemma inject_nat_pos (n : nat) : 0 < n -> (1 <= inject_Z (Z.of_nat n))%Q.
Proof.
  intro H. change 1%Q with (inject_Z 1). rewrite <- Zle_Qle. lia.
Qed.

(** A count over a length. *)
Lemma ratio_range (k n : nat) :
  k <= n -> 0 < n ->
  exists q : Q,
    JS.div (JS.of_nat k) (JS.of_nat n) = JS.Fin q
    /\ (0 <= q <= 1)%Q
    /\ (q == inject_Z (Z.of_nat k) / inject_Z (Z.of_nat n))%Q.
Proof.
  intros Hk Hn. unfold JS.of_nat. cbn [JS.div].
  pose proof (inject_nat_pos Hn) as H1.
  pose proof (inject_nat_nonneg k) as H0.
  pose proof (inject_nat_le Hk) as Hle.
  destruct (Qeq_bool (inject_Z (Z.of_nat n)) 0) eqn:E.
  - apply Qeq_bool_iff in E. lra.
  - eexists. split; [reflexivity|]. split; [|reflexivity]. split.
    + apply Qle_shift_div_l; lra.
    + apply Qle_shift_div_r; lra.
Qed.

(** The mean of probabilities over a non-empty list is a probability. *)
Lemma average_of_range {A} (f : A -> JS.number) (xs : list A) :
  xs <> [] ->
  Forall (fun x => unit_interval (f x)) xs ->
  unit_interval (OptimizerService.average_of f xs).
Proof.
  intros Hne Hall. unfold OptimizerService.average_of, OptimizerService.sum_of.
  destruct (@sum_from_bounds _ f xs Hall 0) as (q & Hq & Hb). rewrite Hq.
  destruct xs as [|x rest]; [contradiction|].
  set (n := inject_Z (Z.of_nat (List.length (x :: rest)))) in *.
  assert (Hn : (1 <= n)%Q).
  { subst n. cbn [List.length]. rewrite inject_nat_succ.
    pose proof (inject_nat_nonneg (List.length rest)). lra. }
  unfold JS.of_nat. fold n. cbn [JS.div].
  destruct (Qeq_bool n 0) eqn:E.
  - apply Qeq_bool_iff in E. lra.
  - exists (q / n)%Q. split; [reflexivity|]. split.
    + apply Qle_shift_div_l; lra.
    + apply Qle_shift_div_r; lra.
Qed.

Section BatchResults.

Variable W : Type.
Variable env : Env W.

(** What [runTestCase] returns for a test case: the evaluation and the
    metrics built from the result the judge's reply was given. *)
Lemma runTestCase_result (agentId : string) (tc : TestCase)
    (s s' : state W) (p : Evaluation * PerformanceMetrics) :
  OptimizerService.runTestCase env agentId tc s = (Ok p, s') ->
  exists (turns : list ChatMessage) (params : EvaluateParams) (w w' : W)
         (data : Json.value) (result : LLMClient.EvaluateResult),
    gen_evaluateResponse env params w = (Ok data, w')
    /\ LLMClient.score_reply env data = Ok result
    /\ List.length turns = 2 * List.length (user_messages tc)
    /\ map msg_content (filter is_user turns) = user_messages tc
    /\ p = ({| ev_testCaseId := tc_id tc;
               ev_testCaseName := tc_name tc;
               ev_passed := LLMClient.er_passed result;
               ev_criteriaResults :=
                 [{| cres_criterionId := tc_id tc;
                     cres_passed := LLMClient.er_passed result;
                     cres_score := LLMClient.er_score result;
                     cres_reasoning := LLMClient.er_reasoning result |}];
               ev_overallScore := LLMClient.er_score result;
               ev_reasoning := LLMClient.er_reasoning result;
               ev_confidence := JS.Fin (85 # 100);
               ev_conversation := turns |},
            {| pm_relevance := relevance (LLMClient.er_metrics result);
               pm_accuracy := accuracy (LLMClient.er_metrics result);
               pm_completeness := completeness (LLMClient.er_metrics result);
               pm_helpfulness := helpfulness (LLMClient.er_metrics result);
               pm_overall := LLMClient.er_score result |}).
Proof.
  unfold OptimizerService.runTestCase, HighLevelClient.simulateConversation.
  fold (user_messages tc).
  unfold bind at 1.
  pose proof (simulate_loop_spec env agentId (user_messages tc) [] None s) as Hsim.
  destruct (HighLevelClient.simulate_loop env agentId (user_messages tc) [] None s)
    as [[[turns cid]|e] s1]; [|discriminate].
  destruct Hsim as (added & -> & Hlen & _ & Hcontents). cbn [app fst].
  unfold bind at 1. unfold LLMClient.evaluateResponse, bind, call, ret.
  destruct (gen_evaluateResponse env _ (world s1)) as [[data|e] w] eqn:Hgen;
    [|discriminate].
  destruct (LLMClient.score_reply env data) as [result|e] eqn:Hscore;
    [|discriminate].
  intro H. injection H as <- _.
  eexists _, _, _, _, data, result.
  split; [exact Hgen|]. split; [exact Hscore|].
  split; [exact Hlen|]. split; [exact Hcontents|reflexivity].
Qed.

Lemma runTestCase_evaluation (agentId : string) (tc : TestCase)
    (s s' : state W) (p : Evaluation * PerformanceMetrics) :
  OptimizerService.runTestCase env agentId tc s = (Ok p, s') ->
  evaluation_of tc p.
Proof.
  intro H.
  destruct (runTestCase_result _ _ _ H)
    as (turns & params & w & w' & data & result & _ & Hscore & Hlen & Hc & ->).
  cbn [evaluation_of ev_testCaseId ev_testCaseName ev_overallScore ev_passed
       ev_criteriaResults ev_conversation ev_reasoning pm_overall].
  repeat (split; [reflexivity|]).
  split; [exact (score_reply_passed env data Hscore)|].
  split; [reflexivity|]. split; [exact Hlen|]. split; [exact Hc|reflexivity].
Qed.

(** With a judge whose replies have the declared type, the score and the
    metrics are probabilities. *)
Lemma runTestCase_in_range (agentId : string) (tc : TestCase)
    (s s' : state W) (p : Evaluation * PerformanceMetrics) :
  well_typed_judge env ->
  OptimizerService.runTestCase env agentId tc s = (Ok p, s') ->
  evaluation_in_range p.
Proof.
  intros Hjudge H.
  destruct (runTestCase_result _ _ _ H)
    as (turns & params & w & w' & data & result & Hgen & Hscore & _ & _ & ->).
  pose proof (Hjudge _ _ _ _ Hgen) as Ht.
  destruct (score_reply_typed env data Ht) as (r & Hr & HR & HA & HC & HH).
  rewrite Hscore in Hr. injection Hr as <-.
  assert (Hs : unit_interval (LLMClient.er_score result)).
  { destruct (score_reply_cases env data Hscore)
      as [(rel & acc & com & hel & sc & _ & _ & _ & _ & Es & _ & R & _)|(Hnan & _)].
    - exists sc. split; assumption.
    - exfalso. destruct HR as ((x1 & E1 & _) & _), HA as ((x2 & E2 & _) & _),
        HC as ((x3 & E3 & _) & _), HH as ((x4 & E4 & _) & _).
      destruct Hnan as [N|[N|[N|N]]]; congruence. }
  split; [exact Hs|].
  unfold metrics_in_range.
  cbn [snd pm_relevance pm_accuracy pm_completeness pm_helpfulness pm_overall].
  split; [apply HR|]. split; [apply HA|]. split; [apply HC|].
  split; [apply HH|exact Hs].
Qed.

Lemma executeTests_results (agentId : string) (testCases : list TestCase)
    (s s' : state W) (r : BatchResults) :
  OptimizerService.executeTests env agentId testCases s = (Ok r, s') ->
  exists results : list (Evaluation * PerformanceMetrics),
    Forall2 evaluation_of testCases results
    /\ (well_typed_judge env -> Forall evaluation_in_range results)
    /\ r = OptimizerService.aggregate (map fst results) (map snd results).
Proof.
  unfold OptimizerService.executeTests, bind, ret.
  destruct (mapM (OptimizerService.runTestCase env agentId) testCases s)
    as [[results|e] s1] eqn:E; [|discriminate].
  intro H. inversion H; subst; clear H.
  exists results. split; [|split; [|reflexivity]].
  - apply mapM_Forall2 in E.
    induction E as [|tc p l l' (s1 & s2 & Hrun) _ IH]; constructor; [|exact IH].
    exact (runTestCase_evaluation _ _ _ Hrun).
  - intro Hjudge. apply mapM_Forall2 in E.
    induction E as [|tc p l l' (s1 & s2 & Hrun) _ IH]; constructor; [|exact IH].
    exact (runTestCase_in_range _ _ _ Hjudge Hrun).
Qed.

End BatchResults.

Lemma Forall2_evaluations (testCases : list TestCase)
    (results : list (Evaluation * PerformanceMetrics)) :
  Forall2 evaluation_of testCases results ->
  List.length results = List.length testCases
  /\ map ev_testCaseId (map fst results) = map tc_id testCases
  /\ map ev_testCaseName (map fst results) = map tc_name testCases
  /\ Forall (fun e => forall q, ev_overallScore e = JS.Fin q ->
                       (ev_passed e = true <-> (7 # 10 <= q)%Q))
       (map fst results).
Proof.
  induction 1 as [|tc [e m] l l' H _ IH].
  - repeat split; constructor.
  - destruct IH as (Hlen & Hid & Hname & Hpass).
    destruct H as (Eid & Ename & Hp & _).
    cbn [map fst snd List.length].
    split; [congruence|]. split; [congruence|]. split; [congruence|].
    constructor; assumption.
Qed.

Lemma Forall_in_range (results : list (Evaluation * PerformanceMetrics)) :
  Forall evaluation_in_range results ->
  Forall (fun e => unit_interval (ev_overallScore e)) (map fst results)
  /\ Forall metrics_in_range (map snd results).
Proof.
  induction 1 as [|[e m] l (Hs & Hm) _ (IH1 & IH2)]; cbn [map fst snd].
  - split; constructor.
  - split; constructor; assumption.
Qed.

(** X1.  With a judge whose replies have the declared type, a batch run
    of a non-empty list that returns has one evaluation per test case, in
    the order of the test cases; every evaluation score, the pass rate,
    the overall score and the five aggregate metrics are between 0 and 1;
    and the run, returned or thrown, leaves the three collections as they
    were. *)
Theorem executeTests_aggregates :
  forall (W : Type) (env : Env W) (agentId : string) (testCases : list TestCase)
         (s : state W),
    well_typed_judge env ->
    testCases <> [] ->
    match OptimizerService.executeTests env agentId testCases s with
    | (Ok r, s') =>
        List.length (br_evaluations r) = List.length testCases
        /\ map ev_testCaseId (br_evaluations r) = map tc_id testCases
        /\ map ev_testCaseName (br_evaluations r) = map tc_name testCases
        /\ Forall (fun e => unit_interval (ev_overallScore e)) (br_evaluations r)
        /\ unit_interval (br_passRate r)
        /\ unit_interval (br_overallScore r)
        /\ metrics_in_range (br_metrics r)
        /\ same_collections s s'
    | (Throw _, s') => same_collections s s'
    end.
Proof.
  intros W env agentId testCases s Hjudge Hne.
  pose proof (keeps_executeTests env agentId testCases s) as Hkeep.
  destruct (OptimizerService.executeTests env agentId testCases s)
    as [[r|e] s'] eqn:Hrun; cbn [snd] in Hkeep; [|exact Hkeep].
  destruct (executeTests_results _ _ _ _ Hrun) as (results & Hall & Hrange & ->).
  destruct (Forall2_evaluations Hall) as (Hlen & Hid & Hname & _).
  destruct (Forall_in_range (Hrange Hjudge)) as (Hscore & Hm).
  assert (Hne' : map fst results <> []).
  { destruct results; [|discriminate]. destruct testCases; [|discriminate].
    contradiction. }
  assert (Hne'' : map snd results <> []).
  { destruct results; [|discriminate]. contradiction Hne'. reflexivity. }
  cbn [OptimizerService.aggregate br_evaluations br_passRate br_overallScore
       br_metrics].
  split; [rewrite length_map; exact Hlen|].
  split; [exact Hid|]. split; [exact Hname|]. split; [exact Hscore|].
  assert (Hoverall : unit_interval
            (OptimizerService.average_of ev_overallScore (map fst results)))
    by (apply average_of_range; assumption).
  split.
  { destruct (@ratio_range (List.length (filter ev_passed (map fst results)))
                (List.length (map fst results))) as (q & Eq & Hq & _).
    - apply filter_length_le.
    - destruct (map fst results); [contradiction|cbn; lia].
    - exists q. split; assumption. }
  split; [exact Hoverall|].
  split; [|exact Hkeep].
  unfold metrics_in_range.
  cbn [pm_relevance pm_accuracy pm_completeness pm_helpfulness pm_overall].
  assert (Havg : forall f : PerformanceMetrics -> JS.number,
             (forall m, metrics_in_range m -> unit_interval (f m)) ->
             unit_interval (OptimizerService.average_of f (map snd results))).
  { intros f Hf. apply average_of_range; [exact Hne''|].
    eapply Forall_impl; [|exact Hm]. exact Hf. }
  split; [apply Havg; intros m Hmr; apply Hmr|].
  split; [apply Havg; intros m Hmr; apply Hmr|].
  split; [apply Havg; intros m Hmr; apply Hmr|].
  split; [apply Havg; intros m Hmr; apply Hmr|].
  exact Hoverall.
Qed.

(** A batch of two tests, one passed and one failed. *)
Lemma executeTests_aggregates_witness :
  well_typed_judge (Demo.scripted Demo.mixed_judge Demo.echo (fun _ => None))
  /\ exists (r : BatchResults) (s' : state nat),
       OptimizerService.executeTests
         (Demo.scripted Demo.mixed_judge Demo.echo (fun _ => None))
         "agent-1" (ts_testCases Demo.suite) Demo.stored_state = (Ok r, s')
       /\ List.length (br_evaluations r) = 2
       /\ unit_interval (br_passRate r)
       /\ unit_interval (br_overallScore r)
       /\ metrics_in_range (br_metrics r).
Proof.
  assert (Hjudge : well_typed_judge
                     (Demo.scripted Demo.mixed_judge Demo.echo (fun _ => None))).
  { intros params w w' data H. cbn in H. unfold Demo.mixed_judge in H.
    injection H as <- _. destruct (Nat.even w); cbn; repeat split. }
  split; [exact Hjudge|].
  pose proof (@executeTests_aggregates nat
                (Demo.scripted Demo.mixed_judge Demo.echo (fun _ => None))
                "agent-1" (ts_testCases Demo.suite) Demo.stored_state Hjudge) as H.
  destruct (OptimizerService.executeTests _ _ _ _) as [[r|e] s'] eqn:Hrun;
    [|vm_compute in Hrun; discriminate].
  destruct H as (Hlen & _ & _ & _ & Hp & Ho & Hm & _); [discriminate|].
  exists r, s'. repeat split; try assumption; apply Hm.
Defined.

(** With a judge that answers a word for a metric, the score of the
    batch is not a number. *)
Example executeTests_not_a_number :
  match OptimizerService.executeTests
          (Demo.scripted (fun _ => Ok Demo.vague_reply) Demo.echo (fun _ => None))
          "agent-1" (ts_testCases Demo.suite) Demo.stored_state with
  | (Ok r, _) =>
      br_overallScore r = JS.NaN /\ pm_relevance (br_metrics r) = JS.NaN
      /\ exists q : Q, br_passRate r = JS.Fin q /\ (q == 0)%Q
  | (Throw _, _) => False
  end.
Proof.
  vm_compute. split; [reflexivity|]. split; [reflexivity|].
  eexists. split; reflexivity.
Qed.


Lemma filter_length_none {A} (p : A -> bool) (l : list A) :
  List.length (filter p l) = 0 <-> (forall x, In x l -> p x = false).
Proof.
  induction l as [|x rest IH]; cbn.
  - split; [intros _ y []|reflexivity].
  - destruct (p x) eqn:E; cbn.
    + split; [discriminate|]. intro H. specialize (H x (or_introl eq_refl)).
      congruence.
    + split.
      * intros H y [<-|Hy]; [exact E|]. apply IH; assumption.
      * intro H. apply IH. intros y Hy. apply H. right. exact Hy.
Qed.





(** ** Calls of a batch *)

Lemma chatted_app (a b : list event) : chatted (a ++ b) = (chatted a ++ chatted b)%list.
Proof. apply flat_map_app. Qed.

Lemma judged_app (a b : list event) : judged (a ++ b) = (judged a ++ judged b)%list.
Proof. apply flat_map_app. Qed.

Section BatchCalls.

Variable W : Type.
Variable env : Env W.

Lemma simulate_loop_calls (agentId : string) (messages : list string) :
  forall turns cid (s : state W),
    post (HighLevelClient.simulate_loop env agentId messages turns cid) s
      (fun _ s' => exists added, extends_trace s s' added
                                 /\ chatted added = messages /\ judged added = [])
      (fun _ _ => True).
Proof.
  induction messages as [|m rest IH]; intros turns cid s.
  - exists []. split; [apply extends_trace_refl|split; reflexivity].
  - cbn [HighLevelClient.simulate_loop]. apply post_bind.
    unfold post at 1, HighLevelClient.chat, call.
    destruct (hl_chat env agentId m cid (world s)) as [[response|e] w]; [|exact I].
    eapply post_weaken; [apply IH| |trivial].
    intros _ s' (added & Hext & Hchat & Hjudge).
    exists (EvChat agentId m cid :: added). split; [|split].
    + unfold extends_trace in *. rewrite Hext. cbn. rewrite <- app_assoc. reflexivity.
    + unfold chatted in *. cbn [flat_map app]. rewrite Hchat. reflexivity.
    + exact Hjudge.
Qed.

Lemma runTestCase_calls (agentId : string) (tc : TestCase) (s : state W) :
  post (OptimizerService.runTestCase env agentId tc) s
    (fun _ s' => exists added, extends_trace s s' added
                               /\ chatted added = user_messages tc
                               /\ judged added = [tc_name tc])
    (fun _ _ => True).
Proof.
  unfold OptimizerService.runTestCase, HighLevelClient.simulateConversation.
  fold (user_messages tc). apply post_bind.
  eapply post_weaken; [apply simulate_loop_calls| |trivial].
  intros conversation s1 (added & Hext & Hchat & Hjudge).
  apply post_bind. unfold LLMClient.evaluateResponse. apply post_bind.
  unfold post at 1, call.
  destruct (gen_evaluateResponse env _ (world s1)) as [[data|e] w]; [|exact I].
  unfold post at 1.
  destruct (LLMClient.score_reply env data) as [result|e]; [|exact I].
  cbn. exists (added ++ [EvEvaluateResponse (tc_name tc)])%list. split; [|split].
  - unfold extends_trace in *. cbn. rewrite Hext, app_assoc. reflexivity.
  - rewrite chatted_app, Hchat. apply app_nil_r.
  - rewrite judged_app, Hjudge. reflexivity.
Qed.

Lemma mapM_runTestCase_calls (agentId : string) (testCases : list TestCase) :
  forall s : state W,
    post (mapM (OptimizerService.runTestCase env agentId) testCases) s
      (fun _ s' => exists added, extends_trace s s' added
                                 /\ chatted added = flat_map user_messages testCases
                                 /\ judged added = map tc_name testCases)
      (fun _ _ => True).
Proof.
  induction testCases as [|tc rest IH]; intro s.
  - exists []. split; [apply extends_trace_refl|split; reflexivity].
  - cbn [mapM]. apply post_bind.
    eapply post_weaken; [apply runTestCase_calls| |trivial].
    intros y s1 (a1 & H1 & C1 & J1). apply post_bind.
    eapply post_weaken; [apply IH| |trivial].
    intros ys s2 (a2 & H2 & C2 & J2). cbn.
    exists (a1 ++ a2)%list. split; [exact (extends_trace_trans H1 H2)|]. split.
    + rewrite chatted_app, C1, C2. reflexivity.
    + rewrite judged_app, J1, J2. reflexivity.
Qed.

End BatchCalls.

(** X3.  A batch run that returns has sent to the agent exactly the user
    turns of the scripts, test case after test case and in script order
    (the expected-agent turns are never sent), and has called the judge
    once per test case, in order. *)
Theorem executeTests_calls :
  forall (W : Type) (env : Env W) (agentId : string) (testCases : list TestCase)
         (s : state W),
    match OptimizerService.executeTests env agentId testCases s with
    | (Ok _, s') =>
        exists added : list event,
          trace s' = (trace s ++ added)%list
          /\ chatted added = flat_map user_messages testCases
          /\ judged added = map tc_name testCases
    | (Throw _, _) => True
    end.
Proof.
  intros W env agentId testCases s.
  pose proof (mapM_runTestCase_calls env agentId testCases s) as H.
  unfold OptimizerService.executeTests, bind, ret. unfold post in H.
  destruct (mapM (OptimizerService.runTestCase env agentId) testCases s)
    as [[results|e] s']; [exact H|exact I].
Qed.

(** ** Calls of the optimisation loop *)

Lemma count_events_app (p : event -> bool) (a b : list event) :
  count_events p (a ++ b) = count_events p a + count_events p b.
Proof. unfold count_events. rewrite filter_app, length_app. reflexivity. Qed.

Lemma applied_prompts_app (a b : list event) :
  applied_prompts (a ++ b) = (applied_prompts a ++ applied_prompts b)%list.
Proof. apply flat_map_app. Qed.

Lemma last_default_irrelevant {A} (l : list A) (d d' : A) :
  l <> [] -> last l d = last l d'.
Proof.
  induction l as [|x rest IH]; intro H; [contradiction|].
  destruct rest as [|y rest']; [reflexivity|].
  change (last (y :: rest') d = last (y :: rest') d'). apply IH. discriminate.
Qed.

Lemma last_app_default {A} (a b : list A) (d : A) :
  last (a ++ b) d = last b (last a d).
Proof.
  induction a as [|x rest IH]; [reflexivity|].
  destruct rest as [|y rest'].
  - destruct b as [|z b']; [reflexivity|].
    change (last (z :: b') d = last (z :: b') x).
    apply last_default_irrelevant. discriminate.
  - change (last ((y :: rest') ++ b) d = last b (last (y :: rest') d)).
    exact IH.
Qed.

(** A batch issues no call of the optimisation kind. *)
Lemma batch_calls_quiet (b : list event) :
  Forall is_batch_call b ->
  count_events is_insights_call b = 0
  /\ count_events is_optimize_call b = 0
  /\ count_events is_update_call b = 0
  /\ applied_prompts b = [].
Proof.
  induction 1 as [|ev rest Hev _ (I1 & I2 & I3 & I4)]; [repeat split|].
  unfold count_events, applied_prompts in *.
  destruct ev; try contradiction; cbn; auto.
Qed.

Section LoopCalls.

Variable W : Type.
Variable env : Env W.
Variable agentId : string.
Variable suite : TestSuite.
Variable initialResults : BatchResults.

Lemma loop_summary_refl (v : OptimizerService.LoopVars) (remaining : nat) :
  loop_summary v v remaining [].
Proof. unfold loop_summary. cbn. repeat split; auto; lia. Qed.

Lemma optimize_loop_summary (remaining : nat) :
  forall (v : OptimizerService.LoopVars) (s : state W),
    post (OptimizerService.optimize_loop env agentId suite initialResults remaining v) s
      (fun v' s' => exists added, extends_trace s s' added
                                  /\ loop_summary v v' remaining added)
      (fun _ _ => True).
Proof.
  induction remaining as [|remaining IH]; intros v s.
  - exists []. split; [apply extends_trace_refl|apply loop_summary_refl].
  - cbn [OptimizerService.optimize_loop].
    case_if.
    { exists []. split; [apply extends_trace_refl|apply loop_summary_refl]. }
    case_if.
    { exists []. split; [apply extends_trace_refl|].
      unfold loop_summary. cbn. repeat split; auto; lia. }
    apply post_bind. unfold post at 1, LLMClient.generateInsights, call.
    destruct (gen_generateInsights env _ (world s)) as [[insights|e] w1]; [|exact I].
    apply post_bind. unfold post at 1, LLMClient.optimizePrompt, call.
    cbn [world set_world record_event].
    destruct (gen_optimizePrompt env _ w1) as [[optimization|e] w2]; [|exact I].
    apply post_bind. unfold post at 1, HighLevelClient.updateAgentPrompt, call.
    cbn [world set_world record_event].
    destruct (hl_updateAgentPrompt env agentId _ w2) as [[[]|e] w3]; [|exact I].
    apply post_bind.
    eapply post_weaken;
      [apply post_emits, (emits_executeTests env agentId (ts_testCases suite))
      | |trivial].
    intros newResults s4 (b & Hb & Fb). cbn beta.
    destruct (batch_calls_quiet Fb) as (B1 & B2 & B3 & B4).
    set (pre := [EvGenerateInsights;
                 EvOptimizePrompt (OptimizerService.currentPrompt v);
                 EvUpdateAgentPrompt agentId (opt_optimizedPrompt optimization)]).
    assert (Hpre : extends_trace s s4 (pre ++ b)).
    { unfold extends_trace in *. rewrite Hb. cbn [trace set_world record_event].
      subst pre. rewrite <- !app_assoc. reflexivity. }
    assert (Cpre : count_events is_insights_call (pre ++ b) = 1
                   /\ count_events is_optimize_call (pre ++ b) = 1
                   /\ count_events is_update_call (pre ++ b) = 1
                   /\ applied_prompts (pre ++ b)
                      = [opt_optimizedPrompt optimization]).
    { rewrite !count_events_app, applied_prompts_app, B1, B2, B3, B4.
      repeat split. }
    destruct Cpre as (P1 & P2 & P3 & P4).
    set (pb := (pre ++ b)%list) in *. clearbody pb.
    case_if.
    + case_if.
      * exists pb. split; [exact Hpre|].
        unfold loop_summary. cbn [OptimizerService.iteration
          OptimizerService.currentPrompt OptimizerService.bestPrompt].
        rewrite P1, P2, P3, P4. cbn [last]. repeat split; auto; lia.
      * eapply post_weaken; [apply IH| |trivial].
        intros v' s' (added & Hext & Hsum).
        exists (pb ++ added)%list.
        split; [exact (extends_trace_trans Hpre Hext)|].
        unfold loop_summary in *.
        cbn [OptimizerService.iteration OptimizerService.currentPrompt
             OptimizerService.bestPrompt] in Hsum.
        destruct Hsum as (H1 & H2 & H3 & H4 & H5 & H6 & H7).
        rewrite !count_events_app, applied_prompts_app, last_app_default,
          P1, P2, P3, P4.
        cbn [last]. repeat split; auto; lia.
    + exists pb. split; [exact Hpre|].
      unfold loop_summary. cbn [OptimizerService.iteration
        OptimizerService.currentPrompt OptimizerService.bestPrompt].
      rewrite P1, P2, P3, P4. cbn [last]. repeat split; auto; lia.
Qed.

End LoopCalls.

Section OptimizeCalls.

Variable W : Type.
Variable env : Env W.

(** With no failed evaluation in the initial results the loop makes no
    call: it stops at its first test of [failedTests]. *)
Lemma optimize_loop_no_failures (agentId : string) (suite : TestSuite)
    (initialResults : BatchResults) (remaining : nat)
    (v : OptimizerService.LoopVars) (s : state W) :
  post (OptimizerService.optimize_loop env agentId suite initialResults remaining v) s
    (fun v' s' =>
       (forall e, In e (br_evaluations initialResults) -> ev_passed e = true) ->
       s' = s
       /\ OptimizerService.allChanges v' = OptimizerService.allChanges v
       /\ OptimizerService.bestPrompt v' = OptimizerService.bestPrompt v
       /\ OptimizerService.iteration v' <= OptimizerService.iteration v + 1)
    (fun _ _ => True).
Proof.
  destruct remaining as [|remaining]; cbn [OptimizerService.optimize_loop].
  - cbn. intros _. repeat split; lia.
  - case_if; [cbn; intros _; repeat split; lia|].
    case_if; [cbn; intros _; repeat split; lia|].
    match goal with
    | H : Nat.eqb (List.length ?l) 0 = false |- _ => rename H into Hfailed
    end.
    eapply post_weaken with (Q := fun _ _ => True) (E := fun _ _ => True);
      [unfold post; destruct (bind _ _ s) as [[? |?] ?]; exact I| |trivial].
    intros v' s' _ Hall. exfalso.
    assert (Hnone : List.length
              (filter (fun e => negb (ev_passed e)) (br_evaluations initialResults))
            = 0).
    { apply filter_length_none. intros e He. rewrite (Hall e He). reflexivity. }
    rewrite Hnone in Hfailed. discriminate.
Qed.

(** A run of [optimize] that returns: the calls it added and what it
    reports. *)
Lemma optimize_summary (agentId suiteId : string) (maxIterations : nat)
    (s : state W) :
  post (OptimizerService.optimize env agentId suiteId maxIterations) s
    (fun result s' =>
       exists added : list event,
         extends_trace s s' added
         /\ or_iterations result <= maxIterations
         /\ count_events is_insights_call added = count_events is_optimize_call added
         /\ count_events is_update_call added = count_events is_optimize_call added
         /\ count_events is_optimize_call added <= or_iterations result
         /\ or_optimizedPrompt result
            = last (applied_prompts added) (or_originalPrompt result)
         /\ ((forall e, In e (bs_evaluations (or_before result)) ->
                        ev_passed e = true) ->
             count_events is_optimize_call added = 0
             /\ or_changes result = []
             /\ or_optimizedPrompt result = or_originalPrompt result
             /\ or_iterations result <= 1))
    (fun _ _ => True).
Proof.
  unfold OptimizerService.optimize.
  apply post_bind. unfold post at 1, Models.TestSuiteModel_findById.
  destruct (find _ (testSuites s)) as [suite|]; [|exact I].
  apply post_bind. unfold post at 1, HighLevelClient.getAgent, call.
  destruct (hl_getAgent env agentId (world s)) as [[agentConfig|e] w1]; [|exact I].
  apply post_bind.
  eapply post_weaken;
    [apply post_emits, (emits_executeTests env agentId (ts_testCases suite))
    | |trivial].
  intros initialResults s2 (b0 & H0 & F0). cbn beta.
  destruct (batch_calls_quiet F0) as (B1 & B2 & B3 & B4).
  assert (Hpre : extends_trace s s2 (EvGetAgent agentId :: b0)).
  { unfold extends_trace in *. rewrite H0. cbn [trace set_world record_event].
    rewrite <- app_assoc. reflexivity. }
  assert (Cpre : count_events is_insights_call (EvGetAgent agentId :: b0) = 0
                 /\ count_events is_optimize_call (EvGetAgent agentId :: b0) = 0
                 /\ count_events is_update_call (EvGetAgent agentId :: b0) = 0
                 /\ applied_prompts (EvGetAgent agentId :: b0) = []).
  { repeat split; assumption. }
  destruct Cpre as (P1 & P2 & P3 & P4).
  set (pb := EvGetAgent agentId :: b0) in *. clearbody pb.
  case_if.
  - exists pb. split; [exact Hpre|].
    cbn [or_iterations or_optimizedPrompt or_originalPrompt or_changes].
    rewrite P1, P2, P3, P4. cbn [last]. repeat split; auto; lia.
  - apply post_bind.
    eapply post_weaken;
      [apply post_conj;
         [apply optimize_loop_summary|apply optimize_loop_no_failures]
      | |intros; exact I].
    intros v s3 ((al & Hl & Hsum) & Hquiet). cbn beta.
    apply post_bind.
    eapply post_weaken;
      [apply post_emits, (emits_executeTests env agentId (ts_testCases suite))
      | |trivial].
    intros finalResults s4 (bf & Hf & Ff). cbn beta.
    destruct (batch_calls_quiet Ff) as (F1 & F2 & F3 & F4).
    apply post_bind.
    assert (Hpersist :
              forall m : M (state W) unit,
                (m = ret tt
                 \/ exists u, m = bind (Models.OptimizedPromptModel_findOneAndUpdate u)
                                   (fun _ => ret tt)) ->
                post m s4 (fun _ s5 => trace s5 = trace s4) (fun _ _ => True)).
    { intros m [-> | (u & ->)]; reflexivity. }
    eapply post_weaken; [apply Hpersist| |trivial].
    { case_if; [right; eexists; reflexivity|left; reflexivity]. }
    intros u5 s5 H5. cbn beta.
    exists ((pb ++ al) ++ bf)%list. split.
    { unfold extends_trace in *. rewrite H5, Hf, Hl, Hpre, !app_assoc. reflexivity. }
    unfold loop_summary in Hsum.
    cbn [OptimizerService.iteration OptimizerService.currentPrompt
         OptimizerService.bestPrompt] in Hsum.
    destruct Hsum as (S1 & S2 & S3 & S4 & S5 & S6 & S7).
    cbn [or_iterations or_optimizedPrompt or_originalPrompt or_changes or_before
         OptimizerService.summary bs_evaluations].
    rewrite !count_events_app, !applied_prompts_app, !last_app_default,
      P1, P2, P3, P4, F1, F2, F3, F4.
    cbn [last].
    split; [lia|]. split; [lia|]. split; [lia|]. split; [lia|].
    split; [rewrite (S7 eq_refl); exact S6|].
    intro Hall. destruct (Hquiet Hall) as (E3 & Hc & Hb & Hi).
    cbn [OptimizerService.allChanges OptimizerService.bestPrompt
         OptimizerService.iteration] in Hc, Hb, Hi.
    assert (al = []).
    { unfold extends_trace in Hl. rewrite E3 in Hl.
      apply (f_equal (@List.length event)) in Hl. rewrite length_app in Hl.
      destruct al; [reflexivity|cbn in Hl; lia]. }
    subst al. cbn. repeat split; auto; lia.
Qed.

End OptimizeCalls.


(** X5.  The optimised prompt a run of [optimize] reports is the prompt of
    the last update it sent to the agent, whether or not that candidate
    improved the score, and the original prompt when it sent none: the
    agent is left with the prompt that is reported. *)
Theorem optimize_reports_last_applied :
  forall (W : Type) (env : Env W) (agentId suiteId : string) (maxIterations : nat)
         (s : state W),
    match OptimizerService.optimize env agentId suiteId maxIterations s with
    | (Ok result, s') =>
        exists added : list event,
          trace s' = (trace s ++ added)%list
          /\ or_optimizedPrompt result
             = last (applied_prompts added) (or_originalPrompt result)
    | (Throw _, _) => True
    end.
Proof.
  intros W env agentId suiteId maxIterations s.
  pose proof (optimize_summary env agentId suiteId maxIterations s) as H.
  unfold post in H.
  destruct (OptimizerService.optimize env agentId suiteId maxIterations s)
    as [[result|e] s']; [|exact I].
  destruct H as (added & Hext & _ & _ & _ & _ & Hlast & _).
  exists added. split; assumption.
Qed.

(** X6.  When every evaluation of the initial batch passed, a run of
    [optimize] issues no insight, optimise or update call even if the
    score is below 1.0: it reports the original prompt, no change and at
    most one iteration. *)
Theorem optimize_all_passed :
  forall (W : Type) (env : Env W) (agentId suiteId : string) (maxIterations : nat)
         (s : state W),
    match OptimizerService.optimize env agentId suiteId maxIterations s with
    | (Ok result, s') =>
        (forall e, In e (bs_evaluations (or_before result)) -> ev_passed e = true) ->
        or_optimizedPrompt result = or_originalPrompt result
        /\ or_changes result = []
        /\ or_iterations result <= 1
        /\ exists added : list event,
             trace s' = (trace s ++ added)%list
             /\ forallb (fun ev => negb (is_optimization_call ev)) added = true
    | (Throw _, _) => True
    end.
Proof.
  intros W env agentId suiteId maxIterations s.
  pose proof (optimize_summary env agentId suiteId maxIterations s) as H.
  unfold post in H.
  destruct (OptimizerService.optimize env agentId suiteId maxIterations s)
    as [[result|e] s']; [|exact I].
  destruct H as (added & Hext & _ & H1 & H2 & _ & _ & Hquiet).
  intro Hall. destruct (Hquiet Hall) as (H0 & Hc & Hp & Hi).
  repeat (split; [assumption|]).
  exists added. split; [exact Hext|].
  rewrite H0 in H1, H2. unfold count_events in *.
  apply forallb_forall. intros ev Hin.
  destruct ev; try reflexivity; exfalso.
  - assert (In EvGenerateInsights (filter is_insights_call added))
      by (apply filter_In; split; [exact Hin|reflexivity]).
    destruct (filter is_insights_call added); [contradiction|discriminate].
  - assert (In (EvOptimizePrompt currentPrompt) (filter is_optimize_call added))
      by (apply filter_In; split; [exact Hin|reflexivity]).
    destruct (filter is_optimize_call added); [contradiction|discriminate].
  - assert (In (EvUpdateAgentPrompt agentId0 newPrompt)
              (filter is_update_call added))
      by (apply filter_In; split; [exact Hin|reflexivity]).
    destruct (filter is_update_call added); [contradiction|discriminate].
Qed.

(** The judge passes both tests with 0.8: one iteration is reported, no
    optimisation call is made, and the batch is run twice. *)
Lemma optimize_all_passed_witness :
  exists (result : OptimizationResult) (s' : state nat),
    OptimizerService.optimize
      (Demo.scripted Demo.lenient_judge Demo.echo (fun _ => None))
      "agent-1" "suite-1" 2 Demo.stored_state = (Ok result, s')
    /\ or_iterations result = 1
    /\ or_success result = false
    /\ or_optimizedPrompt result = or_originalPrompt result
    /\ judged (trace s') = ["t1"; "t2"; "t1"; "t2"].
Proof.
  pose proof (@optimize_all_passed nat
                (Demo.scripted Demo.lenient_judge Demo.echo (fun _ => None))
                "agent-1" "suite-1" 2 Demo.stored_state) as H.
  destruct (OptimizerService.optimize _ _ _ _ _) as [[result|e] s'] eqn:Hrun;
    [|vm_compute in Hrun; discriminate].
  exists result, s'. split; [reflexivity|].
  assert (Hall : forall e, In e (bs_evaluations (or_before result)) ->
                           ev_passed e = true).
  { vm_compute in Hrun. injection Hrun as <- _. cbn.
    intros e [<-|[<-|[]]]; reflexivity. }
  destruct (H Hall) as (Hp & _ & _ & _).
  split; [vm_compute in Hrun; injection Hrun as <- _; reflexivity|].
  split; [vm_compute in Hrun; injection Hrun as <- _; reflexivity|].
  split; [exact Hp|].
  vm_compute in Hrun. injection Hrun as _ <-. reflexivity.
Defined.

(** The run whose judge improves from 1/4 to 1/2: two iterations, two
    calls of each kind, and the reported prompt is the one applied. *)
Example optimize_improving_run :
  match OptimizerService.optimize
          (Demo.scripted Demo.improving_judge Demo.echo (fun _ => None))
          "agent-1" "suite-1" 2 Demo.stored_state with
  | (Ok result, s') =>
      or_iterations result = 2
      /\ count_events is_optimize_call (trace s') = 2
      /\ applied_prompts (trace s')
         = ["You are the agent of a dental clinic.";
            "You are the agent of a dental clinic."]
      /\ or_optimizedPrompt result = "You are the agent of a dental clinic."
  | _ => False
  end.
Proof. vm_compute. repeat split. Qed.

(** ** Outcomes of suite generation *)

Section SuiteGeneration.

Variable W : Type.
Variable env : Env W.

Lemma quiet_emits {A} (m : M (state W) A) :
  emits (fun ev => is_generation_call ev = false) m ->
  forall s, post m s
    (fun _ s' => exists added, extends_trace s s' added
                               /\ forallb (fun ev => negb (is_generation_call ev)) added
                                  = true)
    (fun _ _ => True).
Proof.
  intros H s. specialize (H s). unfold post.
  destruct (m s) as [[a|e] s1]; [|exact I].
  destruct H as (added & Hext & Hall). exists added. split; [exact Hext|].
  apply forallb_forall. intros ev Hin. rewrite Forall_forall in Hall.
  rewrite (Hall ev Hin). reflexivity.
Qed.

(** What [generateTestSuite] does to the collections, and where the suite
    it returns comes from. *)
Lemma generateTestSuite_outcome (agentId : string) (s : state W) :
  post (OptimizerService.generateTestSuite env agentId) s
    (fun suite s' =>
       suite_origin agentId s s' suite
       /\ optimizedPrompts s' = optimizedPrompts s
       /\ optimizationRecords s' = optimizationRecords s)
    (fun _ s' => same_collections s s').
Proof.
  unfold OptimizerService.generateTestSuite.
  apply post_bind.
  eapply post_weaken; [apply post_keeps, keeps_call| |trivial].
  intros [] s1 K1. cbn beta.
  apply post_bind. unfold post at 1, Models.TestSuiteModel_findLatest.
  destruct K1 as (T1 & O1 & R1).
  fold (latest_suite agentId (testSuites s1)). rewrite T1.
  destruct (latest_suite agentId (testSuites s)) as [suite|] eqn:Hlatest.
  { cbn. split; [apply suite_reused; assumption|]. split; assumption. }
  assert (Hstep : forall s2, same_collections s1 s2 -> same_collections s s2).
  { intros s2 (T2 & O2 & R2). repeat split; congruence. }
  apply post_bind.
  eapply post_weaken;
    [apply post_keeps; unfold HighLevelClient.getAgent; apply keeps_call
    | |intros e s2; apply Hstep].
  intros agentConfig s2 K2. cbn beta.
  case_if; [cbn; apply Hstep; exact K2|].
  apply post_bind.
  eapply post_weaken;
    [apply post_keeps; unfold LLMClient.analyzePrompt; apply keeps_call
    | |intros e s3 K3; apply Hstep; exact (same_collections_trans K2 K3)].
  intros analysis s3 K3. cbn beta.
  pose proof (same_collections_trans K2 K3) as K23.
  apply post_bind.
  eapply post_weaken;
    [apply post_keeps, keeps_ask
    | |intros e s4 K4; apply Hstep; exact (same_collections_trans K23 K4)].
  intros suiteId s4 K4. cbn beta.
  pose proof (same_collections_trans K23 K4) as K24.
  apply post_bind.
  eapply post_weaken;
    [apply post_keeps, keeps_mapM; intro; apply keeps_generateCategory
    | |intros e s5 K5; apply Hstep; exact (same_collections_trans K24 K5)].
  intros perCategory s5 K5. cbn beta.
  pose proof (same_collections_trans K24 K5) as K25.
  apply post_bind.
  eapply post_weaken;
    [apply post_keeps, keeps_ask
    | |intros e s6 K6; apply Hstep; exact (same_collections_trans K25 K6)].
  intros date s6 K6. cbn beta.
  pose proof (Hstep _ (same_collections_trans K25 K6)) as (T6 & O6 & R6).
  unfold post, Models.TestSuiteModel_create.
  match goal with
  | |- context [Models.TestSuite_valid ?d] =>
      set (doc := d); destruct (Models.TestSuite_valid doc) eqn:Hvalid
  end.
  - unfold bind, ask. destruct (newObjectId env (world s6)) as [oid w].
    cbn [Models.set_testSuites testSuites optimizedPrompts optimizationRecords
         set_world].
    split; [|split; assumption].
    apply suite_created; [exact Hlatest|rewrite T6; reflexivity|reflexivity
                         |exact Hvalid].
  - cbn. repeat split; assumption.
Qed.

End SuiteGeneration.

(** X7.  [generateTestSuite] stores a whole suite or nothing: when it
    throws, the three collections are as before; when it returns, the
    suite it returns is stored, the suites are those stored before,
    followed by that suite if it was created, and the other collections
    are untouched. *)
Theorem generateTestSuite_atomic :
  forall (W : Type) (env : Env W) (agentId : string) (s : state W),
    match OptimizerService.generateTestSuite env agentId s with
    | (Ok suite, s') =>
        In suite (testSuites s')
        /\ (testSuites s' = testSuites s
            \/ testSuites s' = (testSuites s ++ [suite])%list)
        /\ optimizedPrompts s' = optimizedPrompts s
        /\ optimizationRecords s' = optimizationRecords s
    | (Throw _, s') => same_collections s s'
    end.
Proof.
  intros W env agentId s.
  pose proof (generateTestSuite_outcome env agentId s) as H. unfold post in H.
  destruct (OptimizerService.generateTestSuite env agentId s) as [[suite|e] s'];
    [|exact H].
  destruct H as (Horigin & HO & HR).
  destruct Horigin as [Hlatest HT | Hnone HT Hagent Hvalid].
  - repeat split; try assumption; [|left; exact HT].
    rewrite HT. apply find_some in Hlatest as [Hin _]. apply in_rev. exact Hin.
  - repeat split; try assumption; [|right; exact HT].
    rewrite HT. apply in_or_app. right. left. reflexivity.
Qed.

Lemma latest_suite_last (agentId : string) (suites : list TestSuite)
    (suite : TestSuite) :
  ts_agentId suite = agentId ->
  latest_suite agentId (suites ++ [suite]) = Some suite.
Proof.
  intro H. unfold latest_suite. rewrite rev_app_distr. cbn.
  rewrite H, String.eqb_refl. reflexivity.
Qed.

(** X8.  Suite generation is idempotent: after a call that returned a
    suite, a second call for the same agent returns that same suite, with
    no call to the generator or to the agent and no change to the stored
    suites; it throws only if looking the agent up in the database does. *)
Theorem generateTestSuite_idempotent :
  forall (W : Type) (env : Env W) (agentId : string) (s s1 : state W)
         (suite : TestSuite),
    OptimizerService.generateTestSuite env agentId s = (Ok suite, s1) ->
    OptimizerService.generateTestSuite env agentId s1
    = (match fst (getOrCreateAgent env agentId (world s1)) with
       | Ok _ => Ok suite
       | Throw e => Throw e
       end,
       set_world (snd (getOrCreateAgent env agentId (world s1)))
         (record_event (EvGetOrCreateAgent agentId) s1)).
Proof.
  intros W env agentId s s1 suite Hrun.
  pose proof (generateTestSuite_outcome env agentId s) as H. unfold post in H.
  rewrite Hrun in H. destruct H as (Horigin & _ & _).
  assert (Hlatest : latest_suite agentId (testSuites s1) = Some suite).
  { destruct Horigin as [Hlatest HT | Hnone HT Hagent Hvalid].
    - rewrite HT. exact Hlatest.
    - rewrite HT. apply latest_suite_last. exact Hagent. }
  unfold OptimizerService.generateTestSuite.
  unfold bind at 1. unfold call at 1.
  destruct (getOrCreateAgent env agentId (world s1)) as [[[]|e] w]; [|reflexivity].
  unfold bind at 1. unfold Models.TestSuiteModel_findLatest.
  cbn [testSuites set_world record_event fst snd].
  fold (latest_suite agentId (testSuites s1)). rewrite Hlatest. reflexivity.
Qed.

(** Two calls from an empty database: the second adds one event and
    returns the suite the first created. *)
Lemma generateTestSuite_idempotent_witness :
  let env := Demo.scripted (fun _ => Throw ThrownNull) Demo.echo Demo.generated in
  exists (suite : TestSuite) (s1 s2 : state nat),
    OptimizerService.generateTestSuite env "agent-1" (Demo.empty_state 0)
    = (Ok suite, s1)
    /\ OptimizerService.generateTestSuite env "agent-1" s1 = (Ok suite, s2)
    /\ testSuites s2 = [suite]
    /\ trace s2 = (trace s1 ++ [EvGetOrCreateAgent "agent-1"])%list.
Proof.
  intro env.
  destruct (OptimizerService.generateTestSuite env "agent-1" (Demo.empty_state 0))
    as [[suite|e] s1] eqn:Hrun; [|vm_compute in Hrun; discriminate].
  pose proof (@generateTestSuite_idempotent nat env "agent-1" _ _ _ Hrun) as H2.
  exists suite, s1. eexists. split; [reflexivity|]. split; [exact H2|].
  split; [|reflexivity].
  cbn [testSuites set_world record_event].
  vm_compute in Hrun. injection Hrun as <- <-. reflexivity.
Defined.

(** X9.  When no suite exists for the agent and the prompt of the agent
    has fewer than 20 characters, [generateTestSuite] throws "Agent prompt
    must be at least 20 characters" right after reading the agent: the
    generator is not called and nothing is stored. *)
Theorem generateTestSuite_short_prompt :
  forall (W : Type) (env : Env W) (agentId : string) (s : state W) (w1 w2 : W)
         (agentConfig : AgentConfig),
    latest_suite agentId (testSuites s) = None ->
    getOrCreateAgent env agentId (world s) = (Ok tt, w1) ->
    hl_getAgent env agentId w1 = (Ok agentConfig, w2) ->
    String.length (ac_systemPrompt agentConfig) < 20 ->
    OptimizerService.generateTestSuite env agentId s
    = (Throw (Error "Agent prompt must be at least 20 characters"),
       set_world w2
         (record_event (EvGetAgent agentId)
            (record_event (EvGetOrCreateAgent agentId) s))).
Proof.
  intros W env agentId s w1 w2 agentConfig Hnone Hdb Hget Hshort.
  unfold OptimizerService.generateTestSuite.
  unfold bind at 1. unfold call at 1. rewrite Hdb.
  unfold bind at 1. unfold Models.TestSuiteModel_findLatest.
  cbn [testSuites set_world record_event].
  fold (latest_suite agentId (testSuites s)). rewrite Hnone.
  unfold bind at 1. unfold HighLevelClient.getAgent. unfold call at 1.
  cbn [world set_world record_event]. rewrite Hget.
  apply Nat.ltb_lt in Hshort. rewrite Hshort. reflexivity.
Qed.

(** An agent whose prompt is "Be helpful." *)
Lemma generateTestSuite_short_prompt_witness :
  exists s' : state nat,
    OptimizerService.generateTestSuite
      (Demo.with_prompt "Be helpful."
         (Demo.scripted (fun _ => Throw ThrownNull) Demo.echo Demo.generated))
      "agent-1" (Demo.empty_state 0)
    = (Throw (Error "Agent prompt must be at least 20 characters"), s')
    /\ testSuites s' = []
    /\ trace s' = [EvGetOrCreateAgent "agent-1"; EvGetAgent "agent-1"].
Proof.
  eexists. split.
  - apply (@generateTestSuite_short_prompt nat _ "agent-1" (Demo.empty_state 0) 0 0
             {| ac_agentId := "agent-1"; ac_systemPrompt := "Be helpful." |});
      [reflexivity|reflexivity|reflexivity|cbn; lia].
  - split; reflexivity.
Defined.

(** ** What the schema guarantees of a stored suite *)

Lemma nodup_length_le (l : list string) :
  List.length (nodup string_dec l) <= List.length l.
Proof.
  induction l as [|a l IH]; cbn; [lia|].
  destruct (in_dec string_dec a l); cbn; lia.
Qed.

Lemma nodup_length_NoDup (l : list string) :
  List.length l = List.length (nodup string_dec l) -> NoDup l.
Proof.
  induction l as [|a l IH]; cbn; [constructor|].
  pose proof (nodup_length_le l) as Hle.
  destruct (in_dec string_dec a l) as [Hin|Hout]; cbn; intro H; [lia|].
  constructor; [exact Hout|]. apply IH. lia.
Qed.

Lemma TurnRole_eqb_eq (a b : TurnRole) : TurnRole_eqb a b = true -> a = b.
Proof. destruct a, b; cbn; congruence. Qed.

Lemma SuccessCriteria_valid_range (c : SuccessCriteria) :
  Models.SuccessCriteria_valid c = true -> unit_interval (sc_weight c).
Proof.
  unfold Models.SuccessCriteria_valid. intro H.
  apply andb_prop in H as [H _]. apply andb_prop in H as [H Hle].
  apply andb_prop in H as [_ Hge].
  destruct (sc_weight c) as [| |q|]; cbn in Hge, Hle; try discriminate.
  exists q. split; [reflexivity|].
  split; apply Qle_bool_iff; assumption.
Qed.

Lemma TestSuite_valid_well_formed (suite : TestSuite) :
  Models.TestSuite_valid suite = true -> well_formed_suite suite.
Proof.
  unfold Models.TestSuite_valid. intro H.
  apply andb_prop in H as [H _]. apply andb_prop in H as [H _].
  apply andb_prop in H as [Hcases Hnames].
  unfold Models.testCases_validator in Hnames.
  split; [|split].
  - intro E. rewrite E in Hnames. discriminate.
  - destruct (Nat.eqb (List.length (ts_testCases suite)) 0); [discriminate|].
    apply nodup_length_NoDup. apply Nat.eqb_eq. exact Hnames.
  - intros tc Hin. rewrite forallb_forall in Hcases.
    specialize (Hcases tc Hin). unfold Models.TestCase_valid in Hcases.
    apply andb_prop in Hcases as [Hc Hpriority].
    apply andb_prop in Hc as [Hc Hsum].
    apply andb_prop in Hc as [Hc Hall].
    apply andb_prop in Hc as [Hcategory Hscript].
    split; [|split; [|split; [|split]]].
    + unfold Models.conversationScript_validator in Hscript.
      destruct (tc_conversationScript tc) as [|first rest]; [discriminate|].
      exists first, rest. split; [reflexivity|].
      apply TurnRole_eqb_eq. exact Hscript.
    + intro E. unfold Models.successCriteria_validator in Hsum.
      rewrite E in Hsum. discriminate.
    + intros c Hc. rewrite forallb_forall in Hall.
      apply SuccessCriteria_valid_range. apply Hall. exact Hc.
    + apply includes_In. exact Hcategory.
    + apply includes_In. exact Hpriority.
Qed.

(** X10.  [generateTestSuite] keeps the stored suites well formed and
    returns a well-formed suite: at least one test case, names that
    differ within the suite, every script starting with a user turn,
    every test case with at least one criterion, weights between 0 and 1,
    and categories and priorities of the enumerations. *)
Theorem generateTestSuite_well_formed :
  forall (W : Type) (env : Env W) (agentId : string) (s : state W),
    stored_well_formed s ->
    stored_well_formed (snd (OptimizerService.generateTestSuite env agentId s))
    /\ match fst (OptimizerService.generateTestSuite env agentId s) with
       | Ok suite => well_formed_suite suite
       | Throw _ => True
       end.
Proof.
  intros W env agentId s Hs.
  pose proof (generateTestSuite_outcome env agentId s) as H. unfold post in H.
  destruct (OptimizerService.generateTestSuite env agentId s) as [[suite|e] s'];
    cbn [fst snd].
  - destruct H as (Horigin & _ & _).
    destruct Horigin as [Hlatest HT | Hnone HT Hagent Hvalid].
    + split.
      * unfold stored_well_formed. rewrite HT. exact Hs.
      * apply Hs. apply find_some in Hlatest as [Hin _].
        apply in_rev. exact Hin.
    + pose proof (TestSuite_valid_well_formed suite Hvalid) as Hwf.
      split; [|exact Hwf].
      unfold stored_well_formed. rewrite HT. intros d Hd.
      apply in_app_or in Hd as [Hold|[<-|[]]]; [apply Hs; exact Hold|exact Hwf].
  - split; [|exact I]. destruct H as (HT & _ & _).
    unfold stored_well_formed. rewrite HT. exact Hs.
Qed.

(** From an empty database, the generated suite of six cases. *)
Lemma generateTestSuite_well_formed_witness :
  let env := Demo.scripted (fun _ => Throw ThrownNull) Demo.echo Demo.generated in
  stored_well_formed (Demo.empty_state 0)
  /\ stored_well_formed
       (snd (OptimizerService.generateTestSuite env "agent-1" (Demo.empty_state 0)))
  /\ List.length
       (testSuites
          (snd (OptimizerService.generateTestSuite env "agent-1"
                  (Demo.empty_state 0)))) = 1.
Proof.
  intro env.
  assert (H0 : stored_well_formed (Demo.empty_state 0)) by (intros d []).
  split; [exact H0|]. split.
  - exact (proj1 (@generateTestSuite_well_formed nat env "agent-1" _ H0)).
  - vm_compute. reflexivity.
Defined.

(** ** Runs of the resilient caller *)

Section RetryRuns.

Variables W T : Type.
Variable operation : W -> result T * W.
Variable maxRetries : nat.

(** What the loop returns or throws is what a call of the operation
    returned or threw, and the world is as that call left it; when no
    call is left, it throws the last error. *)
Lemma withRetry_loop_outcome (remaining : nat) :
  forall (attempt : nat) (lastError : error) (s : state W),
    match LLMClient.withRetry_loop operation maxRetries remaining attempt
            lastError s with
    | (Ok v, s') => exists w : W, operation w = (Ok v, world s')
    | (Throw e, s') =>
        (remaining = 0 /\ e = lastError /\ s' = s)
        \/ exists w : W, operation w = (Throw e, world s')
    end.
Proof.
  induction remaining as [|remaining IH]; intros attempt lastError s.
  - cbn. left. auto.
  - rewrite withRetry_loop_unfold. cbn zeta.
    destruct (operation (world s)) as [[v|e] w] eqn:Hop.
    + exists (world s). exact Hop.
    + assert (Hnext : forall s1 : state W, world s1 = w ->
                match LLMClient.withRetry_loop operation maxRetries remaining
                        (S attempt) e s1 with
                | (Ok v, s') => exists w0 : W, operation w0 = (Ok v, world s')
                | (Throw e', s') =>
                    (S remaining = 0 /\ e' = lastError /\ s' = s)
                    \/ exists w0 : W, operation w0 = (Throw e', world s')
                end).
      { intros s1 Hw. specialize (IH (S attempt) e s1).
        destruct (LLMClient.withRetry_loop operation maxRetries remaining
                    (S attempt) e s1) as [[v|e'] s']; [exact IH|].
        right. destruct IH as [(_ & -> & ->)|IH]; [|exact IH].
        exists (world s). rewrite Hw. exact Hop. }
      destruct (classify e) as [|response|].
      * right. exists (world s). exact Hop.
      * apply Hnext. reflexivity.
      * apply Hnext. destruct (_ <? _)%Z; reflexivity.
Qed.

Lemma seq_step (from last : nat) :
  from < last -> seq from (last - from) = from :: seq (S from) (last - S from).
Proof.
  intro H. replace (last - from) with (S (last - S from)) by lia. reflexivity.
Qed.

(** Without rate limits, the events of the loop are a backoff schedule. *)
Lemma withRetry_loop_schedule (remaining : nat) :
  never_rate_limited operation ->
  forall (attempt : nat) (lastError : error) (s : state W),
    attempt + S remaining = maxRetries ->
    exists last : nat,
      attempt <= last < maxRetries
      /\ trace (snd (LLMClient.withRetry_loop operation maxRetries (S remaining)
                       attempt lastError s))
         = (trace s ++ backoff_schedule attempt last)%list.
Proof.
  intro Hnever.
  induction remaining as [|remaining IH]; intros attempt lastError s Hsum;
    rewrite withRetry_loop_unfold; cbn zeta;
    destruct (operation (world s)) as [[v|e] w] eqn:Hop.
  - exists attempt. split; [lia|]. unfold backoff_schedule.
    rewrite Nat.sub_diag. reflexivity.
  - pose proof (fun response => Hnever _ _ _ response Hop) as Hnot.
    destruct (classify e) as [|response|].
    + exists attempt. split; [lia|]. unfold backoff_schedule.
      rewrite Nat.sub_diag. reflexivity.
    + exfalso. exact (Hnot response eq_refl).
    + replace (Z.of_nat attempt <? Z.of_nat maxRetries - 1)%Z with false
        by (symmetry; apply Z.ltb_ge; lia).
      exists attempt. split; [lia|]. unfold backoff_schedule.
      rewrite Nat.sub_diag. reflexivity.
  - exists attempt. split; [lia|]. unfold backoff_schedule.
    rewrite Nat.sub_diag. reflexivity.
  - pose proof (fun response => Hnever _ _ _ response Hop) as Hnot.
    destruct (classify e) as [|response|].
    + exists attempt. split; [lia|]. unfold backoff_schedule.
      rewrite Nat.sub_diag. reflexivity.
    + exfalso. exact (Hnot response eq_refl).
    + replace (Z.of_nat attempt <? Z.of_nat maxRetries - 1)%Z with true
        by (symmetry; apply Z.ltb_lt; lia).
      destruct (IH (S attempt) e
                  (record_event (EvSleep (LLMClient.backoff_delay attempt))
                     (set_world w (record_event (EvAttempt attempt) s))))
        as (last & Hlast & Htrace); [lia|].
      exists last. split; [lia|]. rewrite Htrace.
      cbn [trace record_event set_world].
      unfold backoff_schedule. rewrite (@seq_step attempt last) by lia.
      cbn [flat_map app]. rewrite backoff_delay_seconds.
      rewrite <- !app_assoc. reflexivity.
Qed.

End RetryRuns.

(** X11.  What [withRetry] returns is what a call of the operation
    returned, and what it throws is what a call of the operation threw;
    in both cases the world is as that call left it.  The one exception is
    a budget of 0 attempts: then the operation is not called and [null]
    is thrown. *)
Theorem withRetry_outcome :
  forall (W T : Type) (operation : W -> result T * W) (maxRetries : nat)
         (s : state W),
    match LLMClient.withRetry operation maxRetries s with
    | (Ok v, s') => exists w : W, operation w = (Ok v, world s')
    | (Throw e, s') =>
        (maxRetries = 0 /\ e = ThrownNull /\ s' = s)
        \/ (0 < maxRetries /\ exists w : W, operation w = (Throw e, world s'))
    end.
Proof.
  intros W T operation maxRetries s. unfold LLMClient.withRetry.
  destruct maxRetries as [|n].
  - cbn. left. auto.
  - pose proof (withRetry_loop_outcome operation (S n) (S n) 0 ThrownNull s) as H.
    destruct (LLMClient.withRetry_loop operation (S n) (S n) 0 ThrownNull s)
      as [[v|e] s']; [exact H|].
    right. split; [lia|].
    destruct H as [(H0 & _)|H]; [discriminate|exact H].
Qed.

Lemma backoff_schedule_head (from last : nat) :
  exists rest : list event, backoff_schedule from last = EvAttempt from :: rest
                            \/ (last <= from
                                /\ backoff_schedule from last = EvAttempt last :: rest).
Proof.
  unfold backoff_schedule. destruct (last - from) as [|n] eqn:E.
  - exists []. right. split; [lia|reflexivity].
  - eexists. left. reflexivity.
Qed.

Lemma schedule_waits_retried (f : nat -> JS.number) (n : nat) :
  forall (from last : nat),
    every_wait_retried
      (flat_map (fun i => [EvAttempt i; EvSleep (f i)]) (seq from n)
       ++ [EvAttempt last])%list.
Proof.
  induction n as [|n IH]; intros from last before after ms E.
  - cbn in E. destruct before as [|b [|b' before]]; cbn in E; discriminate.
  - cbn [seq flat_map app] in E.
    destruct before as [|b [|b' before]]; cbn in E.
    + discriminate.
    + injection E as _ _ E. subst after.
      destruct n; cbn; eauto.
    + injection E as _ _ E. exact (IH (S from) last before after ms E).
Qed.

(** X12.  When the operation never fails with status 429, the events of a
    run of [withRetry] with a positive budget are: attempt 0, a wait of 1
    second, attempt 1, a wait of 2 seconds, and so on up to the attempt
    that ended the run, which is within the budget.  The waits double,
    and every wait is followed by another attempt: the call never waits
    before it gives up. *)
Theorem withRetry_backoff_schedule :
  forall (W T : Type) (operation : W -> result T * W) (maxRetries : nat)
         (s : state W),
    0 < maxRetries ->
    never_rate_limited operation ->
    exists last : nat,
      last < maxRetries
      /\ trace (snd (LLMClient.withRetry operation maxRetries s))
         = (trace s ++ backoff_schedule 0 last)%list
      /\ every_wait_retried (backoff_schedule 0 last).
Proof.
  intros W T operation maxRetries s Hpos Hnever. unfold LLMClient.withRetry.
  destruct maxRetries as [|n]; [lia|].
  destruct (@withRetry_loop_schedule W T operation (S n) n Hnever 0 ThrownNull s)
    as (last & Hlast & Htrace); [lia|].
  exists last. split; [lia|]. split; [exact Htrace|].
  unfold backoff_schedule. apply schedule_waits_retried.
Qed.

(** A request that fails twice without a response: attempts 0, 1 and 2
    with waits of one and two seconds between them. *)
Lemma withRetry_backoff_schedule_witness :
  0 < 3
  /\ never_rate_limited Demo.flaky
  /\ trace (snd (LLMClient.withRetry Demo.flaky 3 (Demo.empty_state 0)))
     = [EvAttempt 0; EvSleep (seconds 1); EvAttempt 1; EvSleep (seconds 2);
        EvAttempt 2].
Proof.
  assert (Hnever : never_rate_limited Demo.flaky).
  { intros w w' e response H. unfold Demo.flaky in H.
    destruct (Nat.ltb w 2); [|discriminate].
    injection H as <- _. cbn. discriminate. }
  split; [lia|]. split; [exact Hnever|].
  destruct (@withRetry_backoff_schedule nat string Demo.flaky 3
              (Demo.empty_state 0) ltac:(lia) Hnever) as (last & _ & _ & _).
  reflexivity.
Defined.

(** ** The wait after a rate limit *)







(** ** Contents of a normalised script *)

Section TurnContents.

Variable W : Type.
Variable env : Env W.

Lemma turnContent_not_empty (turn : Json.value) (role : TurnRole) :
  OptimizerService.turnContent env turn role <> "".
Proof.
  unfold OptimizerService.turnContent.
  match goal with
  | |- (if String.eqb ?c "" then _ else _) <> _ =>
      destruct (String.eqb c "") eqn:E
  end.
  - destruct (TurnRole_eqb role RoleUser); discriminate.
  - apply String.eqb_neq. exact E.
Qed.

Lemma turnContent_text (text : string) (role : TurnRole) :
  text <> "" ->
  OptimizerService.turnContent env (Json.VStr text) role = text.
Proof.
  intro H. unfold OptimizerService.turnContent.
  apply String.eqb_neq in H. rewrite H. reflexivity.
Qed.

Lemma turnContent_content (fields : list (string * Json.value)) (text : string)
    (role : TurnRole) :
  Json.assoc "content" fields = Some (Json.VStr text) ->
  text <> "" ->
  OptimizerService.turnContent env (Json.VObj fields) role = text.
Proof.
  intros Hget H. unfold OptimizerService.turnContent.
  unfold OptimizerService.content_keys. cbn [OptimizerService.first_truthy Json.get].
  rewrite Hget. apply String.eqb_neq in H.
  cbn [Json.truthy_opt Json.truthy Json.String_]. rewrite H.
  cbn [negb Json.String_]. rewrite H. reflexivity.
Qed.

Lemma normalizeRole_text (text : string) :
  OptimizerService.normalizeRole env (Json.VStr text) = RoleUser.
Proof. reflexivity. Qed.

Lemma In_ensureUserFirst (x : ConversationTurn) (l : list ConversationTurn) :
  In x l -> In x (OptimizerService.ensureUserFirst l).
Proof.
  intro H. destruct l as [|first rest]; [contradiction|]. cbn.
  destruct (negb _); [right|]; exact H.
Qed.

Lemma Forall_ensureUserFirst (P : ConversationTurn -> Prop)
    (l : list ConversationTurn) :
  P OptimizerService.greeting -> Forall P l ->
  Forall P (OptimizerService.ensureUserFirst l).
Proof.
  intros Hg Hl. destruct l as [|first rest]; cbn.
  - constructor; [exact Hg|constructor].
  - destruct (negb _); [constructor|]; assumption.
Qed.

End TurnContents.

(** X14.  No turn of the script of a transformed test case has an empty
    content: a turn without usable text gets the placeholder of its role.
    A turn given as a non-empty string becomes a user turn with that
    text, and a turn with a non-empty string under [content] keeps that
    string whatever its other properties are. *)
Theorem transformTestCase_contents :
  forall (W : Type) (env : Env W) (suiteId category : string)
         (tc : RawTestCase) (s : state W),
    match OptimizerService.transformTestCase env suiteId category tc s with
    | (Ok t, _) =>
        Forall (fun turn => turn_content turn <> "") (tc_conversationScript t)
        /\ (forall text : string,
               In (Json.VStr text) (OptimizerService.rawScript tc) ->
               text <> "" ->
               In {| turn_role := RoleUser; turn_content := text |}
                  (tc_conversationScript t))
        /\ (forall (fields : list (string * Json.value)) (text : string),
               In (Json.VObj fields) (OptimizerService.rawScript tc) ->
               Json.assoc "content" fields = Some (Json.VStr text) ->
               text <> "" ->
               In {| turn_role :=
                       OptimizerService.normalizeRole env (Json.VObj fields);
                     turn_content := text |}
                  (tc_conversationScript t))
    | (Throw _, _) => True
    end.
Proof.
  intros W env suiteId category tc s.
  unfold OptimizerService.transformTestCase.
  unfold bind at 1.
  destruct (normalizeCriteria_returns env (rtc_successCriteria tc) s)
    as (criteria & s1 & ->).
  unfold bind at 1. unfold OptimizerService.normalizeScript. unfold bind at 1.
  destruct (mapM_normalizeTurn env (OptimizerService.rawScript tc) s1)
    as [(Hn & ->)|(Hn & e & ->)]; [|exact I].
  cbn [ret]. unfold bind, ask, ret.
  destruct (uuidv4 env (world s1)) as [id w]. cbn [tc_conversationScript].
  split; [|split].
  - apply Forall_ensureUserFirst; [discriminate|].
    apply Forall_forall. intros turn Hin. apply in_map_iff in Hin as (raw & <- & _).
    apply turnContent_not_empty.
  - intros text Hin Htext. apply In_ensureUserFirst.
    apply in_map_iff. exists (Json.VStr text). split; [|exact Hin].
    unfold normalizedTurn. rewrite normalizeRole_text.
    rewrite (turnContent_text env RoleUser Htext). reflexivity.
  - intros fields text Hin Hget Htext. apply In_ensureUserFirst.
    apply in_map_iff. exists (Json.VObj fields). split; [|exact Hin].
    unfold normalizedTurn.
    rewrite (turnContent_content env fields _ Hget Htext). reflexivity.
Qed.

(** A script of a text, a turn with [content] after [text], and a turn
    with a role only. *)
Lemma transformTestCase_contents_witness :
  let env := Demo.scripted (fun _ => Throw ThrownNull) Demo.echo (fun _ => None) in
  exists (t : TestCase) (s' : state nat),
    OptimizerService.transformTestCase env "suite-1" "happy-path" Demo.loose_case
      (Demo.empty_state 0) = (Ok t, s')
    /\ In {| turn_role := RoleUser; turn_content := "I need a cleaning" |}
         (tc_conversationScript t)
    /\ In {| turn_role := RoleExpectedAgent; turn_content := "Which day?" |}
         (tc_conversationScript t)
    /\ List.length (tc_conversationScript t) = 3.
Proof.
  intro env.
  pose proof (@transformTestCase_contents nat env "suite-1" "happy-path"
                Demo.loose_case (Demo.empty_state 0)) as H.
  destruct (OptimizerService.transformTestCase env "suite-1" "happy-path"
              Demo.loose_case (Demo.empty_state 0)) as [[t|e] s'] eqn:Hrun;
    [|vm_compute in Hrun; discriminate].
  destruct H as (_ & Htext & Hcontent).
  exists t, s'. split; [reflexivity|]. split; [|split].
  - apply Htext; [left; reflexivity|discriminate].
  - apply (Hcontent [("speaker", Json.VStr "bot"); ("text", Json.VStr "ignored");
                     ("content", Json.VStr "Which day?")] "Which day?");
      [right; left; reflexivity|reflexivity|discriminate].
  - vm_compute in Hrun. injection Hrun as <- _. reflexivity.
Defined.

(** ** Criteria without weights *)

Lemma weight_sum_thirds (cs : list SuccessCriteria) :
  Forall (fun c => sc_weight c = JS.Fin (33 # 100)) cs ->
  forall acc : Q,
  exists q : Q,
    fold_left (fun a c => JS.add a (sc_weight c)) cs (JS.Fin acc) = JS.Fin q
    /\ (q == acc + inject_Z (Z.of_nat (List.length cs)) * (33 # 100))%Q.
Proof.
  induction 1 as [|c cs Hc _ IH]; intro acc.
  - exists acc. split; [reflexivity|]. cbn [List.length Z.of_nat].
    change (inject_Z 0) with 0%Q. lra.
  - cbn [fold_left]. rewrite Hc. cbn [JS.add].
    destruct (IH (acc + (33 # 100))%Q) as (q & E & Hq).
    exists q. split; [exact E|]. rewrite Hq.
    rewrite (inject_nat_succ (List.length cs)). lra.
Qed.

Lemma thirds_rejected (cs : list SuccessCriteria) :
  Forall (fun c => sc_weight c = JS.Fin (33 # 100)) cs ->
  Models.successCriteria_validator cs = false.
Proof.
  intro H. unfold Models.successCriteria_validator.
  destruct (Nat.eqb (List.length cs) 0); [reflexivity|].
  unfold Models.weight_sum.
  destruct (weight_sum_thirds H 0) as (q & -> & Hq).
  cbn [JS.sub JS.neg JS.add JS.Math_abs JS.lt].
  match goal with
  | |- JS.Qlt_bool ?a ?b = false => destruct (JS.Qlt_bool a b) eqn:E
  end; [|reflexivity].
  exfalso. apply Qlt_bool_iff in E. apply Qabs_Qlt_condition in E.
  set (k := Z.of_nat (List.length cs)) in *.
  assert (Hlo : (inject_Z 3 < inject_Z k)%Q)
    by (change (inject_Z 3) with 3%Q; lra).
  assert (Hhi : (inject_Z k < inject_Z 4)%Q)
    by (change (inject_Z 4) with 4%Q; lra).
  rewrite <- Zlt_Qlt in Hlo, Hhi. lia.
Qed.

Section Unweighted.

Variable W : Type.
Variable env : Env W.

Lemma normalizeCriterion_weightless (sc : RawCriterion) (s s' : state W)
    (c : SuccessCriteria) :
  weightless sc ->
  OptimizerService.normalizeCriterion env sc s = (Ok c, s') ->
  sc_weight c = JS.Fin (33 # 100).
Proof.
  intros Hw H. unfold OptimizerService.normalizeCriterion, bind, ask, ret in H.
  destruct (uuidv4 env (world s)) as [id w]. injection H as <- _.
  cbn [sc_weight]. unfold weightless in Hw.
  destruct (rc_weight sc) as [[]|]; (reflexivity || contradiction).
Qed.

Lemma normalizeCriteria_weightless (raw : list RawCriterion) (s s' : state W)
    (cs : list SuccessCriteria) :
  raw <> [] -> Forall weightless raw ->
  OptimizerService.normalizeCriteria env (Some raw) s = (Ok cs, s') ->
  List.length cs = List.length raw
  /\ Forall (fun c => sc_weight c = JS.Fin (33 # 100)) cs.
Proof.
  intros Hne Hall H. unfold OptimizerService.normalizeCriteria in H.
  unfold bind at 1 in H.
  destruct (mapM (OptimizerService.normalizeCriterion env) raw s)
    as [[cs0|e] s1] eqn:E; [|discriminate].
  pose proof (mapM_length _ _ _ E) as Hlen.
  pose proof (mapM_Forall2 _ _ _ E) as Heach.
  assert (Hn : Nat.eqb (List.length cs0) 0 = false).
  { apply Nat.eqb_neq. rewrite Hlen. destruct raw; [contradiction|discriminate]. }
  rewrite Hn in H. injection H as <- _. split; [exact Hlen|].
  clear - Heach Hall. induction Heach as [|x y l l' (s1 & s2 & Hxy) _ IH].
  - constructor.
  - inversion Hall; subst. constructor; [|apply IH; assumption].
    exact (normalizeCriterion_weightless _ _ H1 Hxy).
Qed.

End Unweighted.

(** X15.  A generated test case whose criteria all come without a numeric
    weight is transformed into a test case that the schema rejects,
    however many criteria there are: each gets the weight 0.33, and no
    multiple of 0.33 is within 0.01 of 1 (three of them sum to 0.99, which
    is not strictly within 0.01). *)
Theorem weightless_criteria_rejected :
  forall (W : Type) (env : Env W) (suiteId category : string)
         (tc : RawTestCase) (raw : list RawCriterion) (s : state W),
    rtc_successCriteria tc = Some raw ->
    raw <> [] ->
    Forall weightless raw ->
    match OptimizerService.transformTestCase env suiteId category tc s with
    | (Ok t, _) =>
        List.length (tc_successCriteria t) = List.length raw
        /\ Forall (fun c => sc_weight c = JS.Fin (33 # 100)) (tc_successCriteria t)
        /\ Models.successCriteria_validator (tc_successCriteria t) = false
        /\ Models.TestCase_valid t = false
    | (Throw _, _) => True
    end.
Proof.
  intros W env suiteId category tc raw s Hraw Hne Hall.
  unfold OptimizerService.transformTestCase. rewrite Hraw.
  unfold bind at 1.
  destruct (OptimizerService.normalizeCriteria env (Some raw) s)
    as [[cs|e] s1] eqn:E; [|exact I].
  destruct (normalizeCriteria_weightless _ _ Hne Hall E) as (Hlen & Hthirds).
  unfold bind at 1.
  destruct (OptimizerService.normalizeScript env tc s1) as [[script|e] s2];
    [|exact I].
  unfold bind, ask, ret. destruct (uuidv4 env (world s2)) as [id w].
  cbn [tc_successCriteria].
  pose proof (thirds_rejected Hthirds) as Hrej.
  split; [exact Hlen|]. split; [exact Hthirds|]. split; [exact Hrej|].
  unfold Models.TestCase_valid. cbn [tc_successCriteria].
  rewrite Hrej. rewrite andb_false_r. reflexivity.
Qed.

(** Three criteria without weights. *)
Lemma weightless_criteria_rejected_witness :
  let env := Demo.scripted (fun _ => Throw ThrownNull) Demo.echo (fun _ => None) in
  exists (t : TestCase) (s' : state nat),
    OptimizerService.transformTestCase env "suite-1" "happy-path"
      Demo.unweighted_case (Demo.empty_state 0) = (Ok t, s')
    /\ List.length (tc_successCriteria t) = 3
    /\ Models.TestCase_valid t = false.
Proof.
  intro env.
  pose proof (@weightless_criteria_rejected nat env "suite-1" "happy-path"
                Demo.unweighted_case
                [Demo.unweighted "polite"; Demo.unweighted "accurate";
                 Demo.unweighted "brief"]
                (Demo.empty_state 0) eq_refl ltac:(discriminate)
                ltac:(repeat constructor)) as H.
  destruct (OptimizerService.transformTestCase env "suite-1" "happy-path"
              Demo.unweighted_case (Demo.empty_state 0)) as [[t|e] s'] eqn:Hrun;
    [|vm_compute in Hrun; discriminate].
  destruct H as (_ & _ & _ & Hvalid).
  exists t, s'. split; [reflexivity|]. split; [|exact Hvalid].
  vm_compute in Hrun. injection Hrun as <- _. reflexivity.
Defined.

(** ** Status changes of an optimisation record *)

Lemma OptimizationStatus_eqb_eq (a b : OptimizationStatus) :
  OptimizationStatus_eqb a b = true <-> a = b.
Proof. destruct a, b; cbn; split; (reflexivity || discriminate). Qed.

Lemma transition_allowed (from st : OptimizationStatus) :
  existsb (OptimizationStatus_eqb st) (RecordDocument.validTransitions from) = true
  <-> In st (RecordDocument.validTransitions from).
Proof.
  rewrite existsb_exists. split.
  - intros (x & Hin & E). apply OptimizationStatus_eqb_eq in E. subst. exact Hin.
  - intro Hin. exists st. split; [exact Hin|]. apply OptimizationStatus_eqb_eq.
    reflexivity.
Qed.

Lemma save_unrecorded (this : RecordDocument.Document) :
  RecordDocument._previousStatus this = None ->
  exists saved : RecordDocument.Document,
    RecordDocument.save this = (Ok saved, saved)
    /\ RecordDocument.doc_status saved = RecordDocument.doc_status this
    /\ RecordDocument.isNew saved = false
    /\ RecordDocument._previousStatus saved
       = (if RecordDocument.isNew this then None
          else Some (RecordDocument.doc_status this)).
Proof.
  intro Hnone. unfold RecordDocument.save, RecordDocument.pre_save_validate.
  rewrite Hnone.
  destruct (RecordDocument.isModified_status this && negb (RecordDocument.isNew this));
    eexists; (split; [reflexivity|]);
    unfold RecordDocument.pre_save_store;
    destruct (RecordDocument.isNew this); cbn; rewrite ?Hnone; auto.
Qed.

(** The object a save that went through leaves, for a status. *)
Lemma save_recorded (this : RecordDocument.Document)
    (previous st : OptimizationStatus) :
  RecordDocument.isNew this = false ->
  RecordDocument._previousStatus this = Some previous ->
  RecordDocument.savedStatus this = previous ->
  RecordDocument.save (RecordDocument.set_status st this)
  = if OptimizationStatus_eqb st previous
       || existsb (OptimizationStatus_eqb st)
            (RecordDocument.validTransitions previous)
    then
      let saved :=
        {| RecordDocument.doc_status := st; RecordDocument.savedStatus := st;
           RecordDocument.isNew := false;
           RecordDocument.isModified_status := false;
           RecordDocument._previousStatus := Some st |} in
      (Ok saved, saved)
    else (Throw (Error (RecordDocument.transition_message previous st)),
          RecordDocument.set_status st this).
Proof.
  intros Hnew Hprev Hsaved.
  unfold RecordDocument.save, RecordDocument.pre_save_validate,
    RecordDocument.pre_save_store, RecordDocument.set_status.
  cbn. rewrite Hnew, Hprev, Hsaved. cbn.
  destruct (OptimizationStatus_eqb st previous); cbn; [reflexivity|].
  destruct (existsb _ _); reflexivity.
Qed.

(** What a save that went through leaves on an object that was not new. *)
Lemma save_records (this saved : RecordDocument.Document) :
  RecordDocument.isNew this = false ->
  RecordDocument.save this = (Ok saved, saved) ->
  RecordDocument.isNew saved = false
  /\ RecordDocument._previousStatus saved = Some (RecordDocument.doc_status this)
  /\ RecordDocument.savedStatus saved = RecordDocument.doc_status this.
Proof.
  intros Hnew Hsave. unfold RecordDocument.save in Hsave.
  destruct (RecordDocument.pre_save_validate this); [|discriminate].
  injection Hsave as <-. unfold RecordDocument.pre_save_store.
  rewrite Hnew. cbn. repeat split; reflexivity.
Qed.

(** X16.  The transition hook never rejects a save of an object on which
    no previous status was recorded, and the save that creates a record
    records none.  So after [createOptimizationRecord], and on any record
    freshly read from the collection, the first change of status is
    accepted whatever it is (pending to validated, validated to pending),
    and only that save records a status to compare the next change
    with. *)
Theorem first_status_change_unchecked :
  (forall this : RecordDocument.Document,
      RecordDocument._previousStatus this = None ->
      exists saved : RecordDocument.Document,
        RecordDocument.save this = (Ok saved, saved)
        /\ RecordDocument.doc_status saved = RecordDocument.doc_status this)
  /\ (exists created : RecordDocument.Document,
         RecordDocument.createOptimizationRecord = (Ok created, created)
         /\ RecordDocument.doc_status created = PENDING
         /\ RecordDocument._previousStatus created = None
         /\ forall st : OptimizationStatus,
              exists saved : RecordDocument.Document,
                RecordDocument.save (RecordDocument.set_status st created)
                = (Ok saved, saved)
                /\ RecordDocument.doc_status saved = st
                /\ RecordDocument._previousStatus saved = Some st)
  /\ (forall stored st : OptimizationStatus,
         exists saved : RecordDocument.Document,
           RecordDocument.save (RecordDocument.set_status st (loaded stored))
           = (Ok saved, saved)
           /\ RecordDocument.doc_status saved = st
           /\ RecordDocument._previousStatus saved = Some st).
Proof.
  split; [|split].
  - intros this Hnone. destruct (save_unrecorded this Hnone) as (saved & E & Hs & _).
    exists saved. split; assumption.
  - exists (snd RecordDocument.createOptimizationRecord).
    split; [reflexivity|]. split; [reflexivity|]. split; [reflexivity|].
    intro st.
    destruct (save_unrecorded
                (RecordDocument.set_status st
                   (snd RecordDocument.createOptimizationRecord)) eq_refl)
      as (saved & E & Hs & _ & Hp).
    exists saved. split; [exact E|]. split; [exact Hs|exact Hp].
  - intros stored st.
    destruct (save_unrecorded (RecordDocument.set_status st (loaded stored)) eq_refl)
      as (saved & E & Hs & _ & Hp).
    exists saved. split; [exact E|]. split; [exact Hs|exact Hp].
Qed.

(** A record read as validated is saved as pending. *)
Lemma first_status_change_unchecked_witness :
  exists saved : RecordDocument.Document,
    RecordDocument.save (RecordDocument.set_status PENDING (loaded VALIDATED))
    = (Ok saved, saved)
    /\ RecordDocument.doc_status saved = PENDING.
Proof.
  apply (proj1 first_status_change_unchecked
           (RecordDocument.set_status PENDING (loaded VALIDATED))).
  reflexivity.
Defined.

(** X17.  Once a save of an object that is not new has gone through, the
    next assignment of a status to that object and save:
    - goes through unchecked when the status is the one of that save
      again (the path is not modified);
    - goes through when the table allows the status from the one of that
      save;
    - throws "Invalid status transition from <previous> to <current>"
      otherwise, and leaves the object as it was, the rejected status
      included.
    From validated or rolled-back every other status is rejected. *)
Theorem later_status_changes_checked :
  forall (this saved : RecordDocument.Document) (st : OptimizationStatus),
    RecordDocument.isNew this = false ->
    RecordDocument.save this = (Ok saved, saved) ->
    let previous := RecordDocument.doc_status this in
    (st = previous \/ In st (RecordDocument.validTransitions previous) ->
     exists after : RecordDocument.Document,
       RecordDocument.save (RecordDocument.set_status st saved) = (Ok after, after)
       /\ RecordDocument.doc_status after = st
       /\ RecordDocument._previousStatus after = Some st)
    /\ (st <> previous ->
        ~ In st (RecordDocument.validTransitions previous) ->
        RecordDocument.save (RecordDocument.set_status st saved)
        = (Throw (Error (RecordDocument.transition_message previous st)),
           RecordDocument.set_status st saved))
    /\ (previous = VALIDATED \/ previous = ROLLED_BACK ->
        st <> previous ->
        RecordDocument.save (RecordDocument.set_status st saved)
        = (Throw (Error (RecordDocument.transition_message previous st)),
           RecordDocument.set_status st saved)).
Proof.
  intros this saved st Hnew Hsave previous.
  destruct (save_records this Hnew Hsave) as (Hn & Hp & Hs).
  pose proof (save_recorded saved st Hn Hp Hs) as Hnext.
  fold previous in Hnext.
  assert (Hreject : st <> previous ->
                    ~ In st (RecordDocument.validTransitions previous) ->
                    RecordDocument.save (RecordDocument.set_status st saved)
                    = (Throw (Error (RecordDocument.transition_message previous st)),
                       RecordDocument.set_status st saved)).
  { intros Hne Hout.
    destruct (OptimizationStatus_eqb st previous) eqn:E.
    - apply OptimizationStatus_eqb_eq in E. contradiction.
    - destruct (existsb (OptimizationStatus_eqb st)
                  (RecordDocument.validTransitions previous)) eqn:T; [|exact Hnext].
      apply transition_allowed in T. contradiction. }
  split; [|split].
  - intro Hok.
    assert (E : OptimizationStatus_eqb st previous
                || existsb (OptimizationStatus_eqb st)
                     (RecordDocument.validTransitions previous) = true).
    { apply orb_true_iff. destruct Hok as [->|Hin].
      - left. apply OptimizationStatus_eqb_eq. reflexivity.
      - right. apply transition_allowed. exact Hin. }
    rewrite E in Hnext. eexists. split; [exact Hnext|]. split; reflexivity.
  - exact Hreject.
  - intros Hterminal Hne. apply Hreject; [exact Hne|].
    destruct Hterminal as [-> | ->]; intros [].
Qed.

(** A record read as applied and saved unchanged: it can then be saved
    as applied again and validated, and cannot go back to pending. *)
Lemma later_status_changes_checked_witness :
  (exists after : RecordDocument.Document,
      RecordDocument.save
        (RecordDocument.set_status VALIDATED
           (snd (RecordDocument.save (loaded APPLIED))))
      = (Ok after, after)
      /\ RecordDocument.doc_status after = VALIDATED
      /\ RecordDocument._previousStatus after = Some VALIDATED)
  /\ (exists after : RecordDocument.Document,
         RecordDocument.save
           (RecordDocument.set_status APPLIED
              (snd (RecordDocument.save (loaded APPLIED))))
         = (Ok after, after)
         /\ RecordDocument.doc_status after = APPLIED
         /\ RecordDocument._previousStatus after = Some APPLIED)
  /\ fst (RecordDocument.save
            (RecordDocument.set_status PENDING
               (snd (RecordDocument.save (loaded APPLIED)))))
     = Throw (Error "Invalid status transition from applied to pending").
Proof.
  pose proof (fun st =>
                @later_status_changes_checked (loaded APPLIED)
                  (snd (RecordDocument.save (loaded APPLIED))) st
                  eq_refl eq_refl) as H.
  split; [|split].
  - apply (proj1 (H VALIDATED)). right. left. reflexivity.
  - apply (proj1 (H APPLIED)). left. reflexivity.
  - rewrite (proj1 (proj2 (H PENDING))); [reflexivity|discriminate|].
    intros [E|[E|[]]]; discriminate.
Defined.

Lemma status_changes_cons (st : OptimizationStatus)
    (rest : list OptimizationStatus) (this : RecordDocument.Document) :
  status_changes (st :: rest) this
  = match RecordDocument.save (RecordDocument.set_status st this) with
    | (Ok _, after) =>
        (st :: fst (status_changes rest after), snd (status_changes rest after))
    | (Throw _, after) => status_changes rest after
    end.
Proof.
  cbn [status_changes].
  destruct (RecordDocument.save (RecordDocument.set_status st this)) as [[d|e] after];
    [|reflexivity].
  destruct (status_changes rest after); reflexivity.
Qed.

Lemma status_changes_follow (sts : list OptimizationStatus) :
  forall (this : RecordDocument.Document) (previous : OptimizationStatus),
    RecordDocument.isNew this = false ->
    RecordDocument._previousStatus this = Some previous ->
    RecordDocument.savedStatus this = previous ->
    follows_table previous (fst (status_changes sts this)).
Proof.
  induction sts as [|st rest IH]; intros this previous Hnew Hprev Hsaved;
    [exact I|].
  rewrite status_changes_cons.
  rewrite (save_recorded this st Hnew Hprev Hsaved).
  destruct (OptimizationStatus_eqb st previous
            || existsb (OptimizationStatus_eqb st)
                 (RecordDocument.validTransitions previous)) eqn:E.
  - cbn zeta.
    set (saved := {| RecordDocument.doc_status := st;
                     RecordDocument.savedStatus := st;
                     RecordDocument.isNew := false;
                     RecordDocument.isModified_status := false;
                     RecordDocument._previousStatus := Some st |}).
    specialize (IH saved st eq_refl eq_refl eq_refl).
    cbn [fst follows_table].
    split; [|exact IH].
    apply orb_true_iff in E. destruct E as [E|E].
    + left. apply OptimizationStatus_eqb_eq. exact E.
    + right. apply transition_allowed. exact E.
  - apply (IH (RecordDocument.set_status st this) previous); assumption.
Qed.

Lemma follows_table_changes (path : list OptimizationStatus) :
  forall from : OptimizationStatus,
    follows_table from path -> changes from path <= changes_left from.
Proof.
  induction path as [|st rest IH]; intros from H; cbn [changes]; [lia|].
  destruct H as [Hstep Hrest]. specialize (IH st Hrest).
  destruct Hstep as [->|Hin].
  - replace (OptimizationStatus_eqb from from) with true
      by (symmetry; apply OptimizationStatus_eqb_eq; reflexivity).
    exact IH.
  - destruct from; cbn in Hin.
    + destruct Hin as [<-|[]]. cbn in *. lia.
    + destruct Hin as [<-|[<-|[]]]; cbn in *; lia.
    + contradiction.
    + contradiction.
Qed.

Lemma follows_table_terminal (path : list OptimizationStatus) :
  forall from : OptimizationStatus,
    from = VALIDATED \/ from = ROLLED_BACK ->
    follows_table from path -> Forall (fun st => st = from) path.
Proof.
  induction path as [|st rest IH]; intros from Hterminal H; [constructor|].
  destruct H as [Hstep Hrest].
  assert (st = from) as ->.
  { destruct Hstep as [E|Hin]; [exact E|].
    destruct Hterminal as [-> | ->]; contradiction. }
  constructor; [reflexivity|]. apply IH; assumption.
Qed.

(** X18.  On an object that is not new and whose status was recorded by
    a save, whatever statuses are assigned and saved one after the other,
    each status whose save goes through is the one before, saved again,
    or follows it in the table: pending, applied, then validated or
    rolled-back.  So the status changes at most twice, at most once from
    applied, and never from validated or rolled-back. *)
Theorem status_changes_follow_table :
  forall (sts : list OptimizationStatus) (this : RecordDocument.Document)
         (previous : OptimizationStatus),
    RecordDocument.isNew this = false ->
    RecordDocument._previousStatus this = Some previous ->
    RecordDocument.savedStatus this = previous ->
    let accepted := fst (status_changes sts this) in
    follows_table previous accepted
    /\ changes previous accepted <= changes_left previous
    /\ changes previous accepted <= 2
    /\ (previous = VALIDATED \/ previous = ROLLED_BACK ->
        Forall (fun st => st = previous) accepted).
Proof.
  intros sts this previous Hnew Hprev Hsaved accepted.
  pose proof (status_changes_follow sts this Hnew Hprev Hsaved) as H.
  pose proof (follows_table_changes _ _ H) as Hc.
  split; [exact H|]. split; [exact Hc|]. split.
  - subst accepted. destruct previous; cbn in Hc; lia.
  - intro Hterminal. exact (follows_table_terminal _ Hterminal H).
Qed.

(** A pending record on which five changes are tried, two of which go
    through; and an applied one on which pending is rejected, applied
    saved again and validated accepted: one change. *)
Lemma status_changes_follow_table_witness :
  let this := snd (RecordDocument.save (loaded PENDING)) in
  let sts := [VALIDATED; APPLIED; PENDING; ROLLED_BACK; VALIDATED] in
  fst (status_changes sts this) = [APPLIED; ROLLED_BACK]
  /\ follows_table PENDING (fst (status_changes sts this))
  /\ fst (status_changes [PENDING; APPLIED; VALIDATED]
            (snd (RecordDocument.save (loaded APPLIED))))
     = [APPLIED; VALIDATED]
  /\ changes APPLIED
       (fst (status_changes [PENDING; APPLIED; VALIDATED]
               (snd (RecordDocument.save (loaded APPLIED))))) <= 1.
Proof.
  intros this sts. split; [reflexivity|]. split; [|split; [reflexivity|]].
  - exact (proj1 (@status_changes_follow_table sts this PENDING
                    eq_refl eq_refl eq_refl)).
  - exact (proj1 (proj2 (@status_changes_follow_table
                           [PENDING; APPLIED; VALIDATED]
                           (snd (RecordDocument.save (loaded APPLIED)))
                           APPLIED eq_refl eq_refl eq_refl))).
Defined.

(** ** The mock client *)

Lemma cache_get_set (agentId : string) (entry : MockClient.CacheEntry)
    (cache : list (string * MockClient.CacheEntry)) :
  MockClient.cache_get agentId (MockClient.cache_set agentId entry cache)
  = Some entry.
Proof.
  induction cache as [|[key old] rest IH]; cbn.
  - rewrite String.eqb_refl. reflexivity.
  - destruct (String.eqb key agentId) eqn:E; cbn; rewrite E; [reflexivity|exact IH].
Qed.

Lemma getAgent_cached (agentId : string) (st : MockClient.MockState)
    (cached : MockClient.CacheEntry) :
  MockClient.cache_get agentId (MockClient.agentCache st) = Some cached ->
  MockClient.getAgent agentId st = (MockClient.data cached, st).
Proof.
  intro H. unfold MockClient.getAgent, MockClient.getMockAgent. rewrite H.
  destruct (_ <? _)%Z; reflexivity.
Qed.

Lemma getAgent_not_cached (agentId : string) (st : MockClient.MockState) :
  MockClient.cache_get agentId (MockClient.agentCache st) = None ->
  MockClient.getAgent agentId st
  = ({| ac_agentId := agentId; ac_systemPrompt := stored_prompt agentId st |},
     MockClient.with_cache (stored_prompt agentId st)
       (MockClient.cache_set agentId
          {| MockClient.data :=
               {| ac_agentId := agentId;
                  ac_systemPrompt := stored_prompt agentId st |};
             MockClient.timestamp := MockClient.Date_now st |}
          (MockClient.agentCache st))
       st).
Proof.
  intro H. unfold MockClient.getAgent, MockClient.getMockAgent. rewrite H.
  reflexivity.
Qed.

(** X19.  In mock mode the age of a cache entry does not matter: whenever
    the agent is in the cache, [getAgent] returns the cached
    configuration and changes nothing, whatever the clock reads (an entry
    older than five minutes is returned by [getMockAgent]); and once
    [getAgent] has served an agent, every later [getAgent] for it returns
    the same configuration. *)
Theorem mock_getAgent_ignores_ttl :
  forall (agentId : string) (st : MockClient.MockState) (t : Z),
    (forall cached : MockClient.CacheEntry,
        MockClient.cache_get agentId (MockClient.agentCache st) = Some cached ->
        MockClient.getAgent agentId (at_time t st)
        = (MockClient.data cached, at_time t st))
    /\ (let '(agent, st1) := MockClient.getAgent agentId st in
        MockClient.getAgent agentId (at_time t st1) = (agent, at_time t st1)).
Proof.
  intros agentId st t. split.
  - intros cached H. apply getAgent_cached. exact H.
  - destruct (MockClient.cache_get agentId (MockClient.agentCache st))
      as [cached|] eqn:E.
    + rewrite (getAgent_cached _ _ E). apply getAgent_cached. exact E.
    + rewrite (getAgent_not_cached _ _ E).
      apply (@getAgent_cached agentId _
               {| MockClient.data :=
                    {| ac_agentId := agentId;
                       ac_systemPrompt := stored_prompt agentId st |};
                  MockClient.timestamp := MockClient.Date_now st |}).
      cbn. apply cache_get_set.
Qed.

(** An entry of age 10 minutes is served as it is. *)
Lemma mock_getAgent_ignores_ttl_witness :
  MockClient.getAgent "agent-1" (at_time 601000 Demo.mock_state)
  = ({| ac_agentId := "agent-1";
        ac_systemPrompt := "You are the assistant of a dental clinic." |},
     at_time 601000 Demo.mock_state).
Proof.
  apply (proj1 (mock_getAgent_ignores_ttl "agent-1" Demo.mock_state 601000)
           {| MockClient.data :=
                {| ac_agentId := "agent-1";
                   ac_systemPrompt := "You are the assistant of a dental clinic." |};
              MockClient.timestamp := 1000 |}).
  reflexivity.
Defined.

(** X20.  [updateAgentPrompt] in mock mode always sets the prompt the mock
    answers are computed from.  If the agent is in the cache, a later
    [getAgent] returns the new prompt, at any time.  If it is not, the
    update is lost for [getAgent]: the next call returns the prompt saved
    for the agent, or the bad prompt, and puts that prompt back in
    place of the new one. *)
Theorem mock_update_then_get :
  forall (agentId newPrompt : string) (st : MockClient.MockState) (t : Z),
    let st1 := at_time t (MockClient.updateAgentPrompt agentId newPrompt st) in
    MockClient.currentMockPrompt st1 = newPrompt
    /\ match MockClient.cache_get agentId (MockClient.agentCache st) with
       | Some cached =>
           MockClient.getAgent agentId st1
           = ({| ac_agentId := ac_agentId (MockClient.data cached);
                 ac_systemPrompt := newPrompt |}, st1)
       | None =>
           ac_systemPrompt (fst (MockClient.getAgent agentId st1))
           = stored_prompt agentId st
           /\ MockClient.currentMockPrompt (snd (MockClient.getAgent agentId st1))
              = stored_prompt agentId st
       end.
Proof.
  intros agentId newPrompt st t st1. subst st1.
  unfold MockClient.updateAgentPrompt.
  destruct (MockClient.cache_get agentId (MockClient.agentCache st))
    as [cached|] eqn:E.
  - split; [reflexivity|].
    apply (@getAgent_cached agentId _
             {| MockClient.data :=
                  {| ac_agentId := ac_agentId (MockClient.data cached);
                     ac_systemPrompt := newPrompt |};
                MockClient.timestamp := MockClient.Date_now st |}).
    cbn. apply cache_get_set.
  - split; [reflexivity|]. rewrite getAgent_not_cached by exact E.
    split; reflexivity.
Qed.

Lemma deleteOne_findOne (agentId : string) (docs : list OptimizedPrompt) :
  NoDup (map op_agentId docs) ->
  Models.OptimizedPromptModel_findOne agentId (MockClient.deleteOne agentId docs)
  = None.
Proof.
  unfold Models.OptimizedPromptModel_findOne.
  induction docs as [|d rest IH]; intro Hnd; [reflexivity|].
  cbn [map] in Hnd. inversion Hnd as [|x l Hout Hrest]; subst.
  cbn [MockClient.deleteOne].
  destruct (String.eqb (op_agentId d) agentId) eqn:E.
  - apply String.eqb_eq in E. subst agentId.
    destruct (find _ rest) as [d'|] eqn:F; [|reflexivity].
    apply find_some in F as [Hin Heq]. apply String.eqb_eq in Heq.
    exfalso. apply Hout. rewrite <- Heq. apply in_map. exact Hin.
  - cbn [find]. rewrite E. apply IH. exact Hrest.
Qed.

Lemma deleteOne_other (agentId other : string) (docs : list OptimizedPrompt) :
  other <> agentId ->
  Models.OptimizedPromptModel_findOne other (MockClient.deleteOne agentId docs)
  = Models.OptimizedPromptModel_findOne other docs.
Proof.
  unfold Models.OptimizedPromptModel_findOne. intro Hne.
  induction docs as [|d rest IH]; [reflexivity|].
  cbn [MockClient.deleteOne find].
  destruct (String.eqb (op_agentId d) agentId) eqn:E.
  - apply String.eqb_eq in E.
    replace (String.eqb (op_agentId d) other) with false; [reflexivity|].
    symmetry. apply String.eqb_neq. congruence.
  - cbn [find]. destruct (String.eqb (op_agentId d) other); [reflexivity|exact IH].
Qed.

(** X21.  The reset route, when at most one prompt is saved per agent (the
    index on [agentId] is unique): afterwards no optimised prompt and no
    suite is left for the agent, and the next [getAgent] for it returns
    the bad prompt, whatever prompt had been applied before.  The prompts
    and suites of the other agents are kept, but the cache is emptied for
    every agent, so an agent is served its saved prompt or the bad prompt
    again. *)
Theorem reset_restores_bad_prompt :
  forall (agentId : string) (st : MockClient.MockState) (t : Z),
    NoDup (map op_agentId (MockClient.savedPrompts st)) ->
    let st1 := at_time t (MockClient.delete_optimized_prompt agentId st) in
    MockClient.hasOptimized agentId st1 = false
    /\ (forall suite, In suite (MockClient.suites st1) -> ts_agentId suite <> agentId)
    /\ fst (MockClient.getAgent agentId st1)
       = {| ac_agentId := agentId; ac_systemPrompt := MockClient.bad_prompt |}
    /\ (forall other : string,
           other <> agentId ->
           stored_prompt other st1 = stored_prompt other st
           /\ (forall suite, ts_agentId suite = other ->
                             (In suite (MockClient.suites st1)
                              <-> In suite (MockClient.suites st)))
           /\ ac_systemPrompt (fst (MockClient.getAgent other st1))
              = stored_prompt other st).
Proof.
  intros agentId st t Hnd st1. subst st1.
  set (st1 := at_time t (MockClient.delete_optimized_prompt agentId st)).
  assert (Hsaved : MockClient.savedPrompts st1
                   = MockClient.deleteOne agentId (MockClient.savedPrompts st))
    by reflexivity.
  assert (Hsuites : MockClient.suites st1
                    = MockClient.deleteMany agentId (MockClient.suites st))
    by reflexivity.
  assert (Hcache : forall a, MockClient.cache_get a (MockClient.agentCache st1) = None)
    by reflexivity.
  assert (Hnone : stored_prompt agentId st1 = MockClient.bad_prompt).
  { unfold stored_prompt. rewrite Hsaved, deleteOne_findOne by exact Hnd.
    reflexivity. }
  split; [|split; [|split]].
  - unfold MockClient.hasOptimized.
    rewrite Hsaved, deleteOne_findOne by exact Hnd. reflexivity.
  - intros suite Hin. rewrite Hsuites in Hin. unfold MockClient.deleteMany in Hin.
    apply filter_In in Hin as [_ Hne].
    apply String.eqb_neq. destruct (String.eqb _ _); [discriminate|reflexivity].
  - rewrite getAgent_not_cached by apply Hcache.
    cbn [fst]. rewrite Hnone. reflexivity.
  - intros other Hne.
    assert (Hsame : stored_prompt other st1 = stored_prompt other st).
    { unfold stored_prompt. rewrite Hsaved, (deleteOne_other _ Hne). reflexivity. }
    split; [exact Hsame|]. split.
    + intros suite Hagent. rewrite Hsuites. unfold MockClient.deleteMany.
      rewrite filter_In. split; [intros [H _]; exact H|].
      intro H. split; [exact H|]. rewrite Hagent.
      apply String.eqb_neq in Hne. rewrite Hne. reflexivity.
    + rewrite getAgent_not_cached by apply Hcache. exact Hsame.
Qed.

(** After the reset for agent-1, agent-1 gets the bad prompt and agent-2
    its saved prompt. *)
Lemma reset_restores_bad_prompt_witness :
  let st1 := at_time 3000 (MockClient.delete_optimized_prompt "agent-1" Demo.mock_state) in
  MockClient.hasOptimized "agent-1" st1 = false
  /\ MockClient.suites st1 = [Demo.suite_of "agent-2"]
  /\ ac_systemPrompt (fst (MockClient.getAgent "agent-1" st1)) = MockClient.bad_prompt
  /\ ac_systemPrompt (fst (MockClient.getAgent "agent-2" st1))
     = "Prices: cleaning $99.".
Proof.
  intro st1.
  assert (Hnd : NoDup (map op_agentId (MockClient.savedPrompts Demo.mock_state))).
  { cbn. constructor; [intros [E|[]]; discriminate|].
    constructor; [intros []|constructor]. }
  destruct (@reset_restores_bad_prompt "agent-1" Demo.mock_state 3000 Hnd)
    as (H1 & _ & H3 & _).
  split; [exact H1|]. split; [reflexivity|]. split; [|reflexivity].
  fold st1 in H3. rewrite H3. reflexivity.
Defined.

Lemma filter_length_le {A} (p : A -> bool) (l : list A) :
  List.length (filter p l) <= List.length l.
Proof.
  induction l as [|x l IH]; cbn; [lia|]. destruct (p x); cbn; lia.
Qed.

(** X22.  The quality score of the mock prompt is the number of checks it
    passes over ten: a multiple of 0.1 between 0 and 1.  A prompt of at
    most 400 characters scores at most 0.9, and the empty prompt (the
    state after [clearCache]) and the bad prompt score 0. *)
Theorem promptQuality_range :
  forall st : MockClient.MockState,
    (exists (k : nat) (q : Q),
        k <= 10
        /\ MockClient.getPromptQualityScore st = JS.Fin q
        /\ (q == inject_Z (Z.of_nat k) / 10)%Q
        /\ (0 <= q <= 1)%Q
        /\ (String.length (MockClient.currentMockPrompt st) <= 400 -> k <= 9))
    /\ (MockClient.currentMockPrompt st = ""
        \/ MockClient.currentMockPrompt st = MockClient.bad_prompt ->
        exists q : Q,
          MockClient.getPromptQualityScore st = JS.Fin q /\ (q == 0)%Q)
    /\ (exists q : Q,
          MockClient.getPromptQualityScore (MockClient.clearCache st) = JS.Fin q
          /\ (q == 0)%Q).
Proof.
  intro st. split; [|split].
  - unfold MockClient.getPromptQualityScore.
    set (passed := filter (fun b : bool => b) (MockClient.checks st)).
    assert (Hlen : List.length (MockClient.checks st) = 10) by reflexivity.
    assert (Hk : List.length passed <= 10).
    { rewrite <- Hlen. apply filter_length_le. }
    rewrite Hlen.
    destruct (@ratio_range (List.length passed) 10 Hk ltac:(lia))
      as (q & E & Hrange & Hq).
    exists (List.length passed), q.
    split; [exact Hk|]. split; [exact E|]. split; [exact Hq|].
    split; [exact Hrange|].
    intro Hshort. subst passed. unfold MockClient.checks.
    replace (Nat.ltb 400 (String.length (MockClient.currentMockPrompt st)))
      with false by (symmetry; apply Nat.ltb_ge; exact Hshort).
    match goal with
    | |- List.length (filter ?f ?l) <= 9 =>
        pose proof (filter_length_le f (removelast l)) as Hle;
        change (List.length (removelast l)) with 9 in Hle;
        change l with (removelast l ++ [false])%list;
        rewrite filter_app, length_app;
        change (List.length (filter f [false])) with 0;
        lia
    end.
  - unfold MockClient.getPromptQualityScore, MockClient.checks.
    intros [-> | ->]; eexists; (split; [vm_compute; reflexivity|reflexivity]).
  - eexists. split; [vm_compute; reflexivity|reflexivity].
Qed.

(** A prompt of 41 characters: at most nine checks. *)
Lemma promptQuality_range_witness :
  exists (k : nat) (q : Q),
    k <= 9
    /\ MockClient.getPromptQualityScore Demo.mock_state = JS.Fin q
    /\ (q == inject_Z (Z.of_nat k) / 10)%Q.
Proof.
  destruct (proj1 (promptQuality_range Demo.mock_state))
    as (k & q & Hk & E & Hq & _ & Hshort).
  exists k, q. split; [|split; [exact E|exact Hq]].
  apply Hshort. cbn. lia.
Defined.

(** ** The rate-limit window *)

Lemma ceil_thousand (d : Z) :
  let w := (- (- d / 1000))%Z in
  (1000 * (w - 1) < d <= 1000 * w)%Z.
Proof.
  cbn zeta. pose proof (Z.div_mod (- d) 1000 ltac:(lia)) as H.
  pose proof (Z.mod_pos_bound (- d) 1000 ltac:(lia)) as Hr. lia.
Qed.

(** X23.  [checkRateLimit] and [getRateLimitStatus] agree: the check
    throws exactly when the status says limited, that is while the clock
    is before [rateLimitedUntil]; the state is then unchanged and the
    wait announced is the number of seconds left, rounded up, at least 1.
    A check that passes forgets the window, so that the status is not
    limited at any later (or earlier) time. *)
Theorem rate_limit_window :
  forall st : MockClient.MockState,
    (fst (MockClient.getRateLimitStatus st) = true ->
     exists (until w : Z),
       MockClient.rateLimitedUntil st = Some until
       /\ (MockClient.Date_now st < until)%Z
       /\ MockClient.getRateLimitStatus st = (true, Some w)
       /\ (1 <= w)%Z
       /\ (1000 * (w - 1) < until - MockClient.Date_now st <= 1000 * w)%Z
       /\ MockClient.checkRateLimit st
          = (Throw (Error ("Rate limited. Please wait " ++ decimal_of_Z w
                           ++ " seconds.")), st))
    /\ (fst (MockClient.getRateLimitStatus st) = false ->
        exists st1 : MockClient.MockState,
          MockClient.checkRateLimit st = (Ok tt, st1)
          /\ MockClient.rateLimitedUntil st1 = None
          /\ MockClient.agentCache st1 = MockClient.agentCache st
          /\ MockClient.currentMockPrompt st1 = MockClient.currentMockPrompt st
          /\ forall t : Z,
               MockClient.getRateLimitStatus (at_time t st1) = (false, None)).
Proof.
  intro st. unfold MockClient.getRateLimitStatus, MockClient.checkRateLimit.
  destruct (MockClient.limited st) eqn:L; cbn [fst]; split; try discriminate.
  - intros _. unfold MockClient.limited in L. unfold MockClient.waitTime.
    destruct (MockClient.rateLimitedUntil st) as [until|]; [|discriminate].
    apply andb_prop in L as [_ Hlt]. apply Z.ltb_lt in Hlt.
    pose proof (ceil_thousand (until - MockClient.Date_now st)) as Hceil.
    cbn zeta in Hceil.
    exists until, (- (- (until - MockClient.Date_now st) / 1000))%Z.
    split; [reflexivity|]. split; [exact Hlt|]. split; [reflexivity|].
    split; [lia|]. split; [exact Hceil|reflexivity].
  - intros _. eexists. split; [reflexivity|].
    split; [reflexivity|]. split; [reflexivity|]. split; [reflexivity|].
    intro t. reflexivity.
Qed.

(** At 2.5 s, a window that ends at 61 s: 59 seconds to wait. *)
Lemma rate_limit_window_witness :
  MockClient.checkRateLimit Demo.mock_state
  = (Throw (Error "Rate limited. Please wait 59 seconds."), Demo.mock_state)
  /\ fst (MockClient.checkRateLimit (at_time 61000 Demo.mock_state)) = Ok tt.
Proof.
  destruct (proj1 (rate_limit_window Demo.mock_state) eq_refl)
    as (until & w & Hu & _ & Hs & _ & _ & Hc).
  injection Hs as <-. split; [exact Hc|].
  destruct (proj2 (rate_limit_window (at_time 61000 Demo.mock_state)) eq_refl)
    as (st1 & -> & _).
  reflexivity.
Defined.
